(** * Provider configuration of terraform-provider-cloudflare

    A shallow embedding of the two provider-configuration entry points,

    - [configure] of [internal/sdkv2provider/provider.go] and
    - [CloudflareProvider.Configure] of [internal/framework/provider/provider.go],

    together with the parts of the Go standard library and of the Terraform
    plugin libraries they call, and the properties of configuration
    resolution that the specification states about them. *)

From stdpp Require Import strings gmap pretty.
From Stdlib Require Import ZArith Lia Ascii.

Local Open Scope string_scope.
Local Open Scope Z_scope.

(** ** Strings *)

(** [mentions needle hay]: the text [needle] occurs in [hay].  Used to say
    that a diagnostic names a field or quotes a value. *)
Fixpoint mentions (needle hay : string) : bool :=
  if String.prefix needle hay then true
  else match hay with
       | EmptyString => false
       | String _ hay' => mentions needle hay'
       end.

(** The double-quote character and Go's [%q] verb on a plain ASCII word
    (no byte of the schema keys below needs escaping). *)
Definition dquote : string := String (Ascii.ascii_of_nat 34) EmptyString.
Definition quote (s : string) : string := dquote +:+ s +:+ dquote.

(** ** Go integers *)

(** The two sizes of Go's [int]; [strconv.IntSize] is the size in bits. *)
Inductive platform : Type := GOARCH32 | GOARCH64.

Definition IntSize (p : platform) : Z :=
  match p with GOARCH32 => 32 | GOARCH64 => 64 end.

Definition maxUint64 : Z := 2 ^ 64 - 1.
Definition MaxInt64 : Z := 2 ^ 63 - 1.
Definition MinInt64 : Z := - 2 ^ 63.

(** Two's-complement reading of the low [w] bits of [z]. *)
Definition wrap_signed (w : Z) (z : Z) : Z :=
  let m := z mod 2 ^ w in
  if m <? 2 ^ (w - 1) then m else m - 2 ^ w.

(** The conversion [int(x)] of an [int64]. *)
Definition int_of_int64 (p : platform) (z : Z) : Z := wrap_signed (IntSize p) z.

(** The conversion [float64(x)] of an [int64], as the number the float
    stands for: [x] itself when its magnitude has at most 53 bits, else
    [x] rounded to 53 significant bits, to the nearest and on a tie to the
    even one.  The result is an integer in either case. *)
Definition float64_of_int64 (z : Z) : Z :=
  let a := Z.abs z in
  if a <? 2 ^ 53 then z
  else
    let e := Z.log2 a - 52 in
    let q := a / 2 ^ e in
    let r := a mod 2 ^ e in
    let half := 2 ^ (e - 1) in
    let q := if (r >? half) || ((r =? half) && Z.odd q) then q + 1 else q in
    Z.sgn z * (q * 2 ^ e).

(** ** strconv.ParseInt(s, 10, 64) *)

Inductive NumError : Type := ErrSyntax | ErrRange.

Definition byte (c : ascii) : Z := Z.of_nat (Ascii.nat_of_ascii c).

(** [lower(c)] of strconv: [c | ('x' - 'X')]. *)
Definition lower (c : ascii) : Z := Z.lor (byte c) 32.

(** The digit a byte stands for in ParseUint's loop, before the test against
    the base: decimal digits, then letters; [None] is the [default] branch. *)
Definition digit_of_byte (c : ascii) : option Z :=
  if (48 <=? byte c) && (byte c <=? 57) then Some (byte c - 48)
  else if (97 <=? lower c) && (lower c <=? 122) then Some (lower c - 97 + 10)
  else None.

(** The loop of [ParseUint] for base 10 and bit size 64, with [n] the value
    accumulated so far.  It returns at the first byte that is not a digit of
    the base (syntax error, value 0) and at the first step that overflows
    (range error, value [maxVal]) without reading the bytes after it. *)
Fixpoint ParseUint_loop (n : Z) (s : string) : Z * option NumError :=
  match s with
  | EmptyString => (n, None)
  | String c s' =>
      match digit_of_byte c with
      | None => (0, Some ErrSyntax)
      | Some d =>
          if d >=? 10 then (0, Some ErrSyntax)
          else if n >=? maxUint64 / 10 + 1 then (maxUint64, Some ErrRange)
          else
            let n := n * 10 in
            let n1 := (n + d) mod 2 ^ 64 in
            if (n1 <? n) || (n1 >? maxUint64) then (maxUint64, Some ErrRange)
            else ParseUint_loop n1 s'
      end
  end.

Definition ParseUint (s : string) : Z * option NumError :=
  match s with
  | EmptyString => (0, Some ErrSyntax)
  | _ => ParseUint_loop 0 s
  end.

(** [ParseInt]: the sign is picked off, the rest read unsigned, and the
    result checked against [cutoff = 1 << 63]. *)
Definition ParseInt (s : string) : Z * option NumError :=
  match s with
  | EmptyString => (0, Some ErrSyntax)
  | String c s' =>
      let '(neg, s1) :=
        if Ascii.eqb c "+"%char then (false, s')
        else if Ascii.eqb c "-"%char then (true, s')
        else (false, s) in
      match ParseUint s1 with
      | (_, Some ErrSyntax) => (0, Some ErrSyntax)
      | (un, _) =>
          let cutoff := 2 ^ 63 in
          if negb neg && (un >=? cutoff) then (cutoff - 1, Some ErrRange)
          else if neg && (un >? cutoff) then (- cutoff, Some ErrRange)
          else (if neg then - un else un, None)
      end
  end.

(** *** Decimal syntax, for stating what [ParseInt] returns *)

Definition is_digit (c : ascii) : bool := (48 <=? byte c) && (byte c <=? 57).

Definition is_sign (c : ascii) : bool := Ascii.eqb c "+" || Ascii.eqb c "-".

Fixpoint all_digits (s : string) : bool :=
  match s with
  | EmptyString => true
  | String c s' => is_digit c && all_digits s'
  end.

(** The number a run of decimal digits denotes, continuing from [n]. *)
Fixpoint decimal (n : Z) (s : string) : Z :=
  match s with
  | EmptyString => n
  | String c s' => decimal (n * 10 + (byte c - 48)) s'
  end.

(** A syntactically valid integer: an optional sign, then one decimal digit
    or more; [int_value] is the integer it denotes. *)
Definition valid_int_syntax (s : string) : bool :=
  match s with
  | EmptyString => false
  | String c s' =>
      if is_sign c then all_digits s' && bool_decide (s' ≠ "") else all_digits s
  end.

Definition int_value (s : string) : Z :=
  match s with
  | EmptyString => 0
  | String c s' =>
      if Ascii.eqb c "+" then decimal 0 s'
      else if Ascii.eqb c "-" then - decimal 0 s'
      else decimal 0 s
  end.

Definition clamp64 (v : Z) : Z :=
  if v >? MaxInt64 then MaxInt64 else if v <? MinInt64 then MinInt64 else v.

(** Text on which the unsigned loop stops at a byte that is no decimal
    digit: nothing at all, or digits that still fit 64 bits followed by such
    a byte.  [malformed] allows the optional sign in front. *)
Definition unsigned_malformed (s : string) : Prop :=
  s = "" \/
  exists ds ch rest,
    s = ds +:+ String ch rest /\ all_digits ds = true /\ is_digit ch = false
    /\ decimal 0 ds <= maxUint64.

Definition malformed (s : string) : Prop :=
  match s with
  | EmptyString => True
  | String c s' => if is_sign c then unsigned_malformed s' else unsigned_malformed s
  end.

(** Text whose leading decimal digits exceed 64 bits: the unsigned loop
    stops at the digit that overflows and reads nothing of what follows,
    be it digits or not.  [overflowing] allows the optional sign in front;
    [negative] tells a minus sign. *)
Definition unsigned_overflowing (s : string) : Prop :=
  exists ds rest,
    s = ds +:+ rest /\ all_digits ds = true /\ decimal 0 ds > maxUint64.

Definition overflowing (s : string) : Prop :=
  match s with
  | EmptyString => False
  | String c s' => if is_sign c then unsigned_overflowing s' else unsigned_overflowing s
  end.

Definition negative (s : string) : bool :=
  match s with
  | EmptyString => false
  | String c _ => Ascii.eqb c "-"
  end.

(** ** The process: environment and log *)

(** What a configuration call can observe of the process and what it leaves
    behind: the environment ([os.Getenv]), the answer of
    [logging.IsDebugOrHigher()], and the lines written through [tflog]. *)
Record World : Type := mkWorld {
  environ : gmap string string;
  IsDebugOrHigher : bool;
  tflog : list string
}.

Definition tflog_Info (w : World) (msg : string) : World :=
  {| environ := environ w; IsDebugOrHigher := IsDebugOrHigher w;
     tflog := (tflog w ++ [msg])%list |}.

Definition setenv (key value : string) (w : World) : World :=
  {| environ := <[key := value]> (environ w);
     IsDebugOrHigher := IsDebugOrHigher w; tflog := tflog w |}.

(** Modelled from the spec: [utils.GetDefaultFromEnv] is not among the
    sources.  Given a variable name and a fallback, it returns the
    environment value if present and non-empty, else the fallback. *)
Definition GetDefaultFromEnv (w : World) (key defaultValue : string) : string :=
  match environ w !! key with
  | Some value => if decide (value ≠ "") then value else defaultValue
  | None => defaultValue
  end.

(** ** Constants of [internal/consts] *)

(** The schema keys, as the [tfsdk] tags of [CloudflareProviderModel] and
    the attribute descriptions spell them. *)
Definition EmailSchemaKey : string := "email".
Definition APIKeySchemaKey : string := "api_key".
Definition APITokenSchemaKey : string := "api_token".
Definition APIUserServiceKeySchemaKey : string := "api_user_service_key".

(** The names of the environment variables and the built-in defaults are
    declared in a package that is not among the sources; the development
    takes them as a parameter.  [UserAgentDefault] stands for [fmt.Sprintf]
    applied to the user-agent format. *)
Record Consts : Type := mkConsts {
  EmailEnvVarKey : string;
  APIKeyEnvVarKey : string;
  APITokenEnvVarKey : string;
  APIUserServiceKeyEnvVarKey : string;
  RPSEnvVarKey : string;
  RPSDefault : string;
  RetriesEnvVarKey : string;
  RetriesDefault : string;
  MinimumBackoffEnvVar : string;
  MinimumBackoffDefault : string;
  MaximumBackoffEnvVarKey : string;
  MaximumBackoffDefault : string;
  AccountIDEnvVarKey : string;
  APIHostnameEnvVarKey : string;
  APIHostnameDefault : string;
  APIBasePathEnvVarKey : string;
  APIBasePathDefault : string;
  UserAgentDefault : string -> string -> string -> string
}.

(** One instance, for the concrete examples: the variable names follow the
    [CLOUDFLARE_] convention of the acceptance tests
    ([CLOUDFLARE_API_TOKEN], [CLOUDFLARE_ACCOUNT_ID]). *)
Definition sample_consts : Consts := {|
  EmailEnvVarKey := "CLOUDFLARE_EMAIL";
  APIKeyEnvVarKey := "CLOUDFLARE_API_KEY";
  APITokenEnvVarKey := "CLOUDFLARE_API_TOKEN";
  APIUserServiceKeyEnvVarKey := "CLOUDFLARE_API_USER_SERVICE_KEY";
  RPSEnvVarKey := "CLOUDFLARE_RPS";
  RPSDefault := "4";
  RetriesEnvVarKey := "CLOUDFLARE_RETRIES";
  RetriesDefault := "3";
  MinimumBackoffEnvVar := "CLOUDFLARE_MIN_BACKOFF";
  MinimumBackoffDefault := "1";
  MaximumBackoffEnvVarKey := "CLOUDFLARE_MAX_BACKOFF";
  MaximumBackoffDefault := "30";
  AccountIDEnvVarKey := "CLOUDFLARE_ACCOUNT_ID";
  APIHostnameEnvVarKey := "CLOUDFLARE_API_HOSTNAME";
  APIHostnameDefault := "api.cloudflare.com";
  APIBasePathEnvVarKey := "CLOUDFLARE_API_BASE_PATH";
  APIBasePathDefault := "/client/v4";
  UserAgentDefault := fun tf sdk v =>
    "terraform/" +:+ tf +:+ " terraform-plugin-sdk/" +:+ sdk
      +:+ " terraform-provider-cloudflare/" +:+ v
|}.

(** ** Diagnostics, client options, client configuration *)

Inductive Severity : Type := Error | Warning.

Record Diagnostic : Type := mkDiagnostic {
  severity : Severity;
  Summary : string;
  Detail : string
}.

Definition Diagnostics : Type := list Diagnostic.

Definition HasError (diags : Diagnostics) : bool :=
  existsb (fun d => match severity d with Error => true | Warning => false end) diags.

(** A diagnostic names [text] when its summary or its detail contains it. *)
Definition names (text : string) (d : Diagnostic) : bool :=
  mentions text (Summary d) || mentions text (Detail d).

(** The options of [cloudflare-go] the provider builds.  The rate limit is
    a [float64]; the code only passes it [float64(rps)] of an [int64], which
    is an integer ([float64_of_int64]), and the option holds that integer. *)
Inductive Option : Type :=
  | UsingRateLimit (rps : Z)
  | UsingRetryPolicy (maxRetries minRetryDelaySecs maxRetryDelaySecs : Z)
  | BaseURL (baseURL : string)
  | Debug (debug : bool)
  | UserAgent (userAgent : string)
  | UsingAccount (accountID : string).

Module Config.
Record t : Type := mk {
  Email : string;
  APIKey : string;
  APIUserServiceKey : string;
  APIToken : string;
  Options : list Option
}.

Definition set_Email (v : string) (c : t) : t :=
  mk v (APIKey c) (APIUserServiceKey c) (APIToken c) (Options c).
Definition set_APIKey (v : string) (c : t) : t :=
  mk (Email c) v (APIUserServiceKey c) (APIToken c) (Options c).
Definition set_APIUserServiceKey (v : string) (c : t) : t :=
  mk (Email c) (APIKey c) v (APIToken c) (Options c).
Definition set_APIToken (v : string) (c : t) : t :=
  mk (Email c) (APIKey c) (APIUserServiceKey c) v (Options c).
Definition set_Options (v : list Option) (c : t) : t :=
  mk (Email c) (APIKey c) (APIUserServiceKey c) (APIToken c) v.
End Config.

(** How a configuration call ends before the client is built: with the
    diagnostics of a failed validation, or with the [Config] on which
    [config.Client(ctx)] is called. *)
Inductive Resolution : Type :=
  | Invalid (diags : Diagnostics)
  | Resolved (config : Config.t).

Definition isAccountOption (o : Option) : bool :=
  match o with UsingAccount _ => true | _ => false end.

(** The texts both providers format with [fmt.Sprintf]: [%d] of an [int64]
    is its decimal notation, [%q] of a schema key the key in quotes. *)
Definition too_large (field : string) (value : Z) : string :=
  field +:+ " value of " +:+ pretty value +:+ " is too large, try a smaller value.".

Definition must_provide_one : string :=
  "must provide one of " +:+ quote APIKeySchemaKey +:+ ", "
    +:+ quote APITokenSchemaKey +:+ " or " +:+ quote APIUserServiceKeySchemaKey +:+ ".".

Definition email_not_set : string := quote EmailSchemaKey +:+ " is not set correctly".

Definition email_required : string :=
  quote EmailSchemaKey +:+ " is required with " +:+ quote APIKeySchemaKey
    +:+ " and was not configured".

(** ** The SDKv2 provider: [configure] of [internal/sdkv2provider] *)

Module SDKv2.

(** [schema.ResourceData] over the provider schema: one entry per
    attribute, [None] when the configuration does not set it. *)
Module ResourceData.
Record t : Type := mk {
  email : option string;
  api_key : option string;
  api_token : option string;
  api_user_service_key : option string;
  rps : option Z;
  retries : option Z;
  min_backoff : option Z;
  max_backoff : option Z;
  api_client_logging : option bool;
  account_id : option string;
  api_hostname : option string;
  api_base_path : option string
}.
End ResourceData.

(** [d.Get(key)]: the value, or the zero value of the attribute's type. *)
Definition Get_string (v : option string) : string := default "" v.
Definition Get_int (v : option Z) : Z := default 0 v.

(** [d.GetOk(key)]: the value and whether it was set to a non-zero value. *)
Definition GetOk_string (v : option string) : string * bool :=
  (Get_string v, bool_decide (Get_string v ≠ "")).
Definition GetOk_int (v : option Z) : Z * bool :=
  (Get_int v, bool_decide (Get_int v ≠ 0)).

(** [diag.Diagnostic{Severity: diag.Error, Summary: summary}]. *)
Definition error_diag (summary : string) : Diagnostic :=
  {| severity := Error; Summary := summary; Detail := "" |}.

(** [diag.FromErr(err)]. *)
Definition FromErr (err : string) : Diagnostics := [error_diag err].

Section configure.
Variable p : platform.
Variable c : Consts.
(** [meta.SDKVersionString()]. *)
Variable SDKVersionString : string.

Import ResourceData.

(** The locals of [configure], each as the code assigns it. *)

Definition baseHostname (d : ResourceData.t) (w : World) : string :=
  if decide (Get_string (api_hostname d) ≠ "") then Get_string (api_hostname d)
  else GetDefaultFromEnv w (APIHostnameEnvVarKey c) (APIHostnameDefault c).

Definition basePath (d : ResourceData.t) (w : World) : string :=
  if decide (Get_string (api_base_path d) ≠ "") then Get_string (api_base_path d)
  else GetDefaultFromEnv w (APIBasePathEnvVarKey c) (APIBasePathDefault c).

Definition rps (d : ResourceData.t) (w : World) : Z :=
  if snd (GetOk_int (ResourceData.rps d)) then Get_int (ResourceData.rps d)
  else fst (ParseInt (GetDefaultFromEnv w (RPSEnvVarKey c) (RPSDefault c))).

Definition retries (d : ResourceData.t) (w : World) : Z :=
  if snd (GetOk_int (ResourceData.retries d)) then Get_int (ResourceData.retries d)
  else fst (ParseInt (GetDefaultFromEnv w (RetriesEnvVarKey c) (RetriesDefault c))).

Definition minBackOff (d : ResourceData.t) (w : World) : Z :=
  if snd (GetOk_int (min_backoff d)) then Get_int (min_backoff d)
  else fst (ParseInt (GetDefaultFromEnv w (MinimumBackoffEnvVar c) (MinimumBackoffDefault c))).

Definition maxBackOff (d : ResourceData.t) (w : World) : Z :=
  if snd (GetOk_int (max_backoff d)) then Get_int (max_backoff d)
  else fst (ParseInt (GetDefaultFromEnv w (MaximumBackoffEnvVarKey c) (MaximumBackoffDefault c))).

Definition apiToken (d : ResourceData.t) (w : World) : string :=
  let '(v, ok) := GetOk_string (api_token d) in
  if ok then v else GetDefaultFromEnv w (APITokenEnvVarKey c) "".

Definition apiKey (d : ResourceData.t) (w : World) : string :=
  let '(v, ok) := GetOk_string (api_key d) in
  if ok then v else GetDefaultFromEnv w (APIKeyEnvVarKey c) "".

(** Assigned only inside [if apiKey != ""]. *)
Definition email (d : ResourceData.t) (w : World) : string :=
  let '(v, ok) := GetOk_string (ResourceData.email d) in
  if ok then v else GetDefaultFromEnv w (EmailEnvVarKey c) "".

Definition apiUserServiceKey (d : ResourceData.t) (w : World) : string :=
  let '(v, ok) := GetOk_string (api_user_service_key d) in
  if ok then v else GetDefaultFromEnv w (APIUserServiceKeyEnvVarKey c) "".

Definition accountID (d : ResourceData.t) (w : World) : string :=
  let '(v, ok) := GetOk_string (account_id d) in
  if ok then v else GetDefaultFromEnv w (AccountIDEnvVarKey c) "".

(** The three bound checks pass. *)
Definition within_bounds (d : ResourceData.t) (w : World) : Prop :=
  retries d w <= IntSize p /\ minBackOff d w <= IntSize p
  /\ maxBackOff d w <= IntSize p.

(** How many of the three credential fields resolved non-empty. *)
Definition modes (d : ResourceData.t) (w : World) : nat :=
  length (filter (λ s, s ≠ "") [apiKey d w; apiToken d w; apiUserServiceKey d w]).

(** The options assembled before the credentials are read. *)
Definition options (version TerraformVersion : string)
    (d : ResourceData.t) (w : World) : list Option :=
  let baseURL := BaseURL ("https://" +:+ baseHostname d w +:+ basePath d w) in
  let limitOpt := UsingRateLimit (float64_of_int64 (rps d w)) in
  let retryOpt :=
    UsingRetryPolicy (int_of_int64 p (retries d w))
      (int_of_int64 p (minBackOff d w)) (int_of_int64 p (maxBackOff d w)) in
  let options := [limitOpt; retryOpt; baseURL] in
  let options := (options ++ [Debug (IsDebugOrHigher w)])%list in
  let ua := UserAgentDefault c TerraformVersion SDKVersionString version in
  (options ++ [UserAgent ua])%list.

(** The end of [configure], from the user service key to the account
    option, on the [config] built so far. *)
Definition resolve_account (options : list Option) (apiKey apiToken : string)
    (d : ResourceData.t) (w : World) (config : Config.t) : Resolution * World :=
  let apiUserServiceKey := apiUserServiceKey d w in
  let config :=
    if decide (apiUserServiceKey ≠ "")
    then Config.set_APIUserServiceKey apiUserServiceKey config
    else config in
  if decide (apiKey = "" ∧ apiToken = "" ∧ apiUserServiceKey = "") then
    (Invalid [error_diag must_provide_one], w)
  else
    let accountID := accountID d w in
    let '(options, w) :=
      if decide (accountID ≠ "") then
        ((options ++ [UsingAccount accountID])%list,
         tflog_Info w ("using specified account id " +:+ accountID
                         +:+ " in Cloudflare provider"))
      else (options, w) in
    (Resolved (Config.set_Options options config), w).

(** The body of [configure] up to the call of [config.Client(ctx)]:
    every early [return nil, diags] is an [Invalid]. *)
Definition resolve (version TerraformVersion : string)
    (d : ResourceData.t) (w : World) : Resolution * World :=
  let retries := retries d w in
  let minBackOff := minBackOff d w in
  let maxBackOff := maxBackOff d w in
  if retries >? IntSize p then
    (Invalid [error_diag (too_large "retries" retries)], w)
  else if minBackOff >? IntSize p then
    (Invalid [error_diag (too_large "min_backoff" minBackOff)], w)
  else if maxBackOff >? IntSize p then
    (Invalid [error_diag (too_large "max_backoff" maxBackOff)], w)
  else
    let options := options version TerraformVersion d w in
    let config := Config.mk "" "" "" "" options in
    let apiToken := apiToken d w in
    let config :=
      if decide (apiToken ≠ "") then Config.set_APIToken apiToken config
      else config in
    let apiKey := apiKey d w in
    if decide (apiKey ≠ "") then
      let config := Config.set_APIKey apiKey config in
      let email := email d w in
      if decide (email = "") then
        (Invalid [error_diag email_not_set], w)
      else
        let config :=
          if decide (email ≠ "") then Config.set_Email email config else config in
        resolve_account options apiKey apiToken d w config
    else resolve_account options apiKey apiToken d w config.

(** [configure]: [resolve], then the call of [config.Client(ctx)], which
    is not among the sources and is taken as the parameter [Client]: it
    gets the configuration and the process, which it may read and change,
    and gives a client or an error. *)
Definition configure {API : Type} (Client : Config.t -> World -> (API + string) * World)
    (version TerraformVersion : string) (d : ResourceData.t) (w : World)
    : (option API * Diagnostics) * World :=
  match resolve version TerraformVersion d w with
  | (Invalid diags, w) => ((None, diags), w)
  | (Resolved config, w) =>
      let '(result, w) := Client config w in
      match result with
      | inr err => ((None, FromErr err), w)
      | inl client => ((Some client, []), w)
      end
  end.

End configure.

Definition unset : ResourceData.t :=
  ResourceData.mk None None None None None None None None None None None None.

End SDKv2.

(** ** The framework provider: [CloudflareProvider.Configure] *)

Module Framework.

(** [types.String] and [types.Int64] of the plugin framework: null,
    unknown, or a known value.  [ValueString] and [ValueInt64] give the
    zero value for null and unknown. *)
Inductive tfString : Type := StringNull | StringUnknown | StringValue (s : string).
Inductive tfInt64 : Type := Int64Null | Int64Unknown | Int64Value (z : Z).
Inductive tfBool : Type := BoolNull | BoolUnknown | BoolValue (b : bool).

Definition String_IsNull (v : tfString) : bool :=
  match v with StringNull => true | _ => false end.
Definition ValueString (v : tfString) : string :=
  match v with StringValue s => s | _ => "" end.
Definition Int64_IsNull (v : tfInt64) : bool :=
  match v with Int64Null => true | _ => false end.
Definition ValueInt64 (v : tfInt64) : Z :=
  match v with Int64Value z => z | _ => 0 end.

Module CloudflareProviderModel.
Record t : Type := mk {
  APIKey : tfString;
  APIUserServiceKey : tfString;
  Email : tfString;
  MinBackOff : tfInt64;
  RPS : tfInt64;
  AccountID : tfString;
  APIBasePath : tfString;
  APIToken : tfString;
  Retries : tfInt64;
  MaxBackoff : tfInt64;
  APIClientLogging : tfBool;
  APIHostname : tfString
}.
End CloudflareProviderModel.

(** [provider.ConfigureRequest]: the outcome of [req.Config.Get(ctx, &data)]
    (its diagnostics and the decoded model) and the Terraform version. *)
Record ConfigureRequest : Type := mkRequest {
  Config_Get : Diagnostics * CloudflareProviderModel.t;
  TerraformVersion : string
}.

Record ConfigureResponse (API : Type) : Type := mkResponse {
  Diagnostics_ : Diagnostics;
  DataSourceData : option API;
  ResourceData : option API
}.
Arguments mkResponse {API}.
Arguments Diagnostics_ {API}.
Arguments DataSourceData {API}.
Arguments ResourceData {API}.

(** [resp.Diagnostics.AddError(summary, detail)]. *)
Definition AddError (diags : Diagnostics) (summary detail : string) : Diagnostics :=
  (diags ++ [{| severity := Error; Summary := summary; Detail := detail |}])%list.

Section Configure.
Variable p : platform.
Variable c : Consts.
(** [meta.SDKVersionString()]. *)
Variable SDKVersionString : string.

Import CloudflareProviderModel.

Definition baseHostname (data : CloudflareProviderModel.t) (w : World) : string :=
  if decide (ValueString (APIHostname data) ≠ "") then ValueString (APIHostname data)
  else GetDefaultFromEnv w (APIHostnameEnvVarKey c) (APIHostnameDefault c).

Definition basePath (data : CloudflareProviderModel.t) (w : World) : string :=
  if decide (ValueString (APIBasePath data) ≠ "") then ValueString (APIBasePath data)
  else GetDefaultFromEnv w (APIBasePathEnvVarKey c) (APIBasePathDefault c).

Definition rps (data : CloudflareProviderModel.t) (w : World) : Z :=
  if negb (Int64_IsNull (RPS data)) then ValueInt64 (RPS data)
  else fst (ParseInt (GetDefaultFromEnv w (RPSEnvVarKey c) (RPSDefault c))).

Definition retries (data : CloudflareProviderModel.t) (w : World) : Z :=
  if negb (Int64_IsNull (Retries data)) then ValueInt64 (Retries data)
  else fst (ParseInt (GetDefaultFromEnv w (RetriesEnvVarKey c) (RetriesDefault c))).

(** Both backoff branches test [data.MinBackOff] and read
    [data.MaxBackoff], as the source does. *)
Definition minBackOff (data : CloudflareProviderModel.t) (w : World) : Z :=
  if negb (Int64_IsNull (MinBackOff data)) then ValueInt64 (MaxBackoff data)
  else fst (ParseInt (GetDefaultFromEnv w (MinimumBackoffEnvVar c) (MinimumBackoffDefault c))).

Definition maxBackOff (data : CloudflareProviderModel.t) (w : World) : Z :=
  if negb (Int64_IsNull (MinBackOff data)) then ValueInt64 (MaxBackoff data)
  else fst (ParseInt (GetDefaultFromEnv w (MaximumBackoffEnvVarKey c) (MaximumBackoffDefault c))).

Definition apiToken (data : CloudflareProviderModel.t) (w : World) : string :=
  if negb (String_IsNull (APIToken data)) then ValueString (APIToken data)
  else GetDefaultFromEnv w (APITokenEnvVarKey c) "".

Definition apiKey (data : CloudflareProviderModel.t) (w : World) : string :=
  if negb (String_IsNull (APIKey data)) then ValueString (APIKey data)
  else GetDefaultFromEnv w (APIKeyEnvVarKey c) "".

(** Assigned only inside [if apiKey != ""]. *)
Definition email (data : CloudflareProviderModel.t) (w : World) : string :=
  if negb (String_IsNull (Email data)) then ValueString (Email data)
  else GetDefaultFromEnv w (EmailEnvVarKey c) "".

Definition apiUserServiceKey (data : CloudflareProviderModel.t) (w : World) : string :=
  if negb (String_IsNull (APIUserServiceKey data)) then ValueString (APIUserServiceKey data)
  else GetDefaultFromEnv w (APIUserServiceKeyEnvVarKey c) "".

Definition accountID (data : CloudflareProviderModel.t) (w : World) : string :=
  if negb (String_IsNull (AccountID data)) then ValueString (AccountID data)
  else GetDefaultFromEnv w (AccountIDEnvVarKey c) "".

(** The three bound checks pass. *)
Definition within_bounds (data : CloudflareProviderModel.t) (w : World) : Prop :=
  retries data w <= IntSize p /\ minBackOff data w <= IntSize p
  /\ maxBackOff data w <= IntSize p.

(** How many of the three credential fields resolved non-empty. *)
Definition modes (data : CloudflareProviderModel.t) (w : World) : nat :=
  length (filter (λ s, s ≠ "")
            [apiKey data w; apiToken data w; apiUserServiceKey data w]).

Definition options (version TerraformVersion : string)
    (data : CloudflareProviderModel.t) (w : World) : list Option :=
  let baseURL := BaseURL ("https://" +:+ baseHostname data w +:+ basePath data w) in
  let limitOpt := UsingRateLimit (float64_of_int64 (rps data w)) in
  let retryOpt :=
    UsingRetryPolicy (int_of_int64 p (retries data w))
      (int_of_int64 p (minBackOff data w)) (int_of_int64 p (maxBackOff data w)) in
  let options := [limitOpt; retryOpt; baseURL] in
  let options := (options ++ [Debug (IsDebugOrHigher w)])%list in
  let ua := UserAgentDefault c TerraformVersion SDKVersionString version in
  (options ++ [UserAgent ua])%list.

(** The end of [Configure], from the user service key to the account
    option; [diags] is [resp.Diagnostics] so far. *)
Definition resolve_account (diags : Diagnostics) (options : list Option)
    (apiKey apiToken : string) (data : CloudflareProviderModel.t) (w : World)
    (config : Config.t) : Resolution * World :=
  let apiUserServiceKey := apiUserServiceKey data w in
  let config :=
    if decide (apiUserServiceKey ≠ "")
    then Config.set_APIUserServiceKey apiUserServiceKey config
    else config in
  if decide (apiKey = "" ∧ apiToken = "" ∧ apiUserServiceKey = "") then
    (Invalid (AddError diags must_provide_one must_provide_one), w)
  else
    let accountID := accountID data w in
    let '(options, w) :=
      if decide (accountID ≠ "") then
        ((options ++ [UsingAccount accountID])%list,
         tflog_Info w ("using specified account id " +:+ accountID
                         +:+ " in Cloudflare provider"))
      else (options, w) in
    (Resolved (Config.set_Options options config), w).

(** The body of [Configure] up to the call of [config.Client(ctx)]; an
    [Invalid] carries [resp.Diagnostics] at the early [return]. *)
Definition resolve (version : string) (req : ConfigureRequest) (w : World)
    : Resolution * World :=
  let '(diags, data) := Config_Get req in
  if HasError diags then (Invalid diags, w)
  else
    let retries := retries data w in
    let minBackOff := minBackOff data w in
    let maxBackOff := maxBackOff data w in
    if retries >? IntSize p then
      (Invalid (AddError diags (too_large "retries" retries)
                  (too_large "retries" retries)), w)
    else if minBackOff >? IntSize p then
      (Invalid (AddError diags (too_large "min_backoff" minBackOff)
                  (too_large "min_backoff" minBackOff)), w)
    else if maxBackOff >? IntSize p then
      (Invalid (AddError diags (too_large "max_backoff" maxBackOff)
                  (too_large "max_backoff" maxBackOff)), w)
    else
      let options := options version (TerraformVersion req) data w in
      let config := Config.mk "" "" "" "" options in
      let apiToken := apiToken data w in
      let config :=
        if decide (apiToken ≠ "") then Config.set_APIToken apiToken config
        else config in
      let apiKey := apiKey data w in
      if decide (apiKey ≠ "") then
        let config := Config.set_APIKey apiKey config in
        let email := email data w in
        if decide (email = "") then
          (Invalid (AddError diags email_not_set email_required), w)
        else
          let config :=
            if decide (email ≠ "") then Config.set_Email email config else config in
          resolve_account diags options apiKey apiToken data w config
      else resolve_account diags options apiKey apiToken data w config.

(** [Configure]: [resolve], then the call of [config.Client(ctx)] (the
    parameter [Client]) and the assignment of the client to the
    response. *)
Definition Configure {API : Type} (Client : Config.t -> World -> (API + string) * World)
    (version : string) (req : ConfigureRequest) (w : World)
    : ConfigureResponse API * World :=
  match resolve version req w with
  | (Invalid diags, w) => (mkResponse diags None None, w)
  | (Resolved config, w) =>
      let '(result, w) := Client config w in
      match result with
      | inr err =>
          (mkResponse (AddError (fst (Config_Get req))
                         "failed to initialize a new client" err) None None, w)
      | inl client =>
          (mkResponse (fst (Config_Get req)) (Some client) (Some client), w)
      end
  end.

End Configure.

Definition null : CloudflareProviderModel.t :=
  CloudflareProviderModel.mk StringNull StringNull StringNull Int64Null Int64Null
    StringNull StringNull StringNull Int64Null Int64Null BoolNull StringNull.

End Framework.

(** ** The configuration fields, one by one *)

Module Field.
Inductive t : Type :=
  | api_hostname | api_base_path | rps | retries | min_backoff | max_backoff
  | account_id | api_key | api_token | api_user_service_key | email.

Definition is_int (f : t) : bool :=
  match f with
  | rps | retries | min_backoff | max_backoff => true
  | _ => false
  end.
End Field.

(** A field's value: a string or an [int64]. *)
Inductive Value : Type := VString (s : string) | VInt (z : Z).

Definition zero_value (f : Field.t) : Value :=
  if Field.is_int f then VInt 0 else VString "".

(** The value a text stands for: itself, or for an integer field what the
    code keeps of [strconv.ParseInt], the number without the error. *)
Definition read (f : Field.t) (s : string) : Value :=
  if Field.is_int f then VInt (fst (ParseInt s)) else VString s.

(** The environment variable and the built-in default of each field, as
    the calls of [GetDefaultFromEnv] pair them. *)
Definition env_key (c : Consts) (f : Field.t) : string :=
  match f with
  | Field.api_hostname => APIHostnameEnvVarKey c
  | Field.api_base_path => APIBasePathEnvVarKey c
  | Field.rps => RPSEnvVarKey c
  | Field.retries => RetriesEnvVarKey c
  | Field.min_backoff => MinimumBackoffEnvVar c
  | Field.max_backoff => MaximumBackoffEnvVarKey c
  | Field.account_id => AccountIDEnvVarKey c
  | Field.api_key => APIKeyEnvVarKey c
  | Field.api_token => APITokenEnvVarKey c
  | Field.api_user_service_key => APIUserServiceKeyEnvVarKey c
  | Field.email => EmailEnvVarKey c
  end.

Definition builtin_default (c : Consts) (f : Field.t) : string :=
  match f with
  | Field.api_hostname => APIHostnameDefault c
  | Field.api_base_path => APIBasePathDefault c
  | Field.rps => RPSDefault c
  | Field.retries => RetriesDefault c
  | Field.min_backoff => MinimumBackoffDefault c
  | Field.max_backoff => MaximumBackoffDefault c
  | _ => ""
  end.

(** The precedence rule in the words of the specification: the explicit
    input if it is set; otherwise the environment variable if it is present
    and non-empty; otherwise the built-in default. *)
Definition three_step (f : Field.t) (explicit : option Value)
    (env_value : option string) (default : string) : Value :=
  match explicit with
  | Some v => v
  | None =>
      match env_value with
      | Some s => if decide (s ≠ "") then read f s else read f default
      | None => read f default
      end
  end.

(** The explicit input of the SDKv2 provider for a field, as the
    configuration has it. *)
Definition SDKv2_explicit (f : Field.t) (d : SDKv2.ResourceData.t) : option Value :=
  match f with
  | Field.api_hostname => VString <$> SDKv2.ResourceData.api_hostname d
  | Field.api_base_path => VString <$> SDKv2.ResourceData.api_base_path d
  | Field.rps => VInt <$> SDKv2.ResourceData.rps d
  | Field.retries => VInt <$> SDKv2.ResourceData.retries d
  | Field.min_backoff => VInt <$> SDKv2.ResourceData.min_backoff d
  | Field.max_backoff => VInt <$> SDKv2.ResourceData.max_backoff d
  | Field.account_id => VString <$> SDKv2.ResourceData.account_id d
  | Field.api_key => VString <$> SDKv2.ResourceData.api_key d
  | Field.api_token => VString <$> SDKv2.ResourceData.api_token d
  | Field.api_user_service_key => VString <$> SDKv2.ResourceData.api_user_service_key d
  | Field.email => VString <$> SDKv2.ResourceData.email d
  end.

(** The value of the local of [configure] that holds a field once the
    credentials are read.  [email] is assigned only under [apiKey != ""]
    and is the empty string otherwise. *)
Definition SDKv2_resolved (c : Consts) (f : Field.t) (d : SDKv2.ResourceData.t)
    (w : World) : Value :=
  match f with
  | Field.api_hostname => VString (SDKv2.baseHostname c d w)
  | Field.api_base_path => VString (SDKv2.basePath c d w)
  | Field.rps => VInt (SDKv2.rps c d w)
  | Field.retries => VInt (SDKv2.retries c d w)
  | Field.min_backoff => VInt (SDKv2.minBackOff c d w)
  | Field.max_backoff => VInt (SDKv2.maxBackOff c d w)
  | Field.account_id => VString (SDKv2.accountID c d w)
  | Field.api_key => VString (SDKv2.apiKey c d w)
  | Field.api_token => VString (SDKv2.apiToken c d w)
  | Field.api_user_service_key => VString (SDKv2.apiUserServiceKey c d w)
  | Field.email =>
      VString (if decide (SDKv2.apiKey c d w ≠ "") then SDKv2.email c d w else "")
  end.

(** What counts as set for the SDKv2 provider: set to a non-zero value. *)
Definition SDKv2_set (f : Field.t) (d : SDKv2.ResourceData.t) : option Value :=
  match SDKv2_explicit f d with
  | Some (VString s) => if decide (s ≠ "") then Some (VString s) else None
  | Some (VInt z) => if decide (z ≠ 0) then Some (VInt z) else None
  | None => None
  end.

(** The explicit input of the framework provider: nothing for a null
    attribute, else its value (the zero value when unknown). *)
Definition of_tfString (v : Framework.tfString) : option Value :=
  if Framework.String_IsNull v then None else Some (VString (Framework.ValueString v)).

Definition of_tfInt64 (v : Framework.tfInt64) : option Value :=
  if Framework.Int64_IsNull v then None else Some (VInt (Framework.ValueInt64 v)).

Definition Framework_explicit (f : Field.t) (data : Framework.CloudflareProviderModel.t)
    : option Value :=
  match f with
  | Field.api_hostname => of_tfString (Framework.CloudflareProviderModel.APIHostname data)
  | Field.api_base_path => of_tfString (Framework.CloudflareProviderModel.APIBasePath data)
  | Field.rps => of_tfInt64 (Framework.CloudflareProviderModel.RPS data)
  | Field.retries => of_tfInt64 (Framework.CloudflareProviderModel.Retries data)
  | Field.min_backoff => of_tfInt64 (Framework.CloudflareProviderModel.MinBackOff data)
  | Field.max_backoff => of_tfInt64 (Framework.CloudflareProviderModel.MaxBackoff data)
  | Field.account_id => of_tfString (Framework.CloudflareProviderModel.AccountID data)
  | Field.api_key => of_tfString (Framework.CloudflareProviderModel.APIKey data)
  | Field.api_token => of_tfString (Framework.CloudflareProviderModel.APIToken data)
  | Field.api_user_service_key =>
      of_tfString (Framework.CloudflareProviderModel.APIUserServiceKey data)
  | Field.email => of_tfString (Framework.CloudflareProviderModel.Email data)
  end.

Definition Framework_resolved (c : Consts) (f : Field.t)
    (data : Framework.CloudflareProviderModel.t) (w : World) : Value :=
  match f with
  | Field.api_hostname => VString (Framework.baseHostname c data w)
  | Field.api_base_path => VString (Framework.basePath c data w)
  | Field.rps => VInt (Framework.rps c data w)
  | Field.retries => VInt (Framework.retries c data w)
  | Field.min_backoff => VInt (Framework.minBackOff c data w)
  | Field.max_backoff => VInt (Framework.maxBackOff c data w)
  | Field.account_id => VString (Framework.accountID c data w)
  | Field.api_key => VString (Framework.apiKey c data w)
  | Field.api_token => VString (Framework.apiToken c data w)
  | Field.api_user_service_key => VString (Framework.apiUserServiceKey c data w)
  | Field.email =>
      VString (if decide (Framework.apiKey c data w ≠ "")
               then Framework.email c data w else "")
  end.

(** What counts as set for the framework provider: a non-empty value for
    the hostname and the base path, a non-null attribute for the others. *)
Definition Framework_set (f : Field.t) (data : Framework.CloudflareProviderModel.t)
    : option Value :=
  match f, Framework_explicit f data with
  | (Field.api_hostname | Field.api_base_path), Some (VString s) =>
      if decide (s ≠ "") then Some (VString s) else None
  | _, explicit => explicit
  end.

(** The field whose attribute the framework provider tests before it reads
    the environment variable of [f]: the field itself, except that the
    branch of the maximum backoff tests the minimum backoff. *)
Definition Framework_tested (f : Field.t) : Field.t :=
  match f with Field.max_backoff => Field.min_backoff | _ => f end.

(** ** What a successful resolution yields *)

(** The account option appended to the client options. *)
Definition account_option (accountID : string) : list Option :=
  if decide (accountID ≠ "") then [UsingAccount accountID] else [].

(** The [Config] handed to [config.Client(ctx)], from the resolved locals:
    the email is copied only in the API-key mode. *)
Definition resolved_config (email apiKey apiUserServiceKey apiToken : string)
    (options : list Option) (accountID : string) : Config.t :=
  Config.mk (if decide (apiKey ≠ "") then email else "")
    apiKey apiUserServiceKey apiToken (options ++ account_option accountID)%list.

(** The process after a successful resolution: one log line when an account
    id was resolved. *)
Definition logged (w : World) (accountID : string) : World :=
  if decide (accountID ≠ "") then
    tflog_Info w ("using specified account id " +:+ accountID
                    +:+ " in Cloudflare provider")
  else w.

(** The shape both bodies share, as a function of the resolved locals:
    [diag_of summary detail] is the diagnostics of an early return. *)
Definition resolution_of (p : platform) (diag_of : string -> string -> Diagnostics)
    (retries minBackOff maxBackOff : Z)
    (email apiKey apiUserServiceKey apiToken accountID : string)
    (options : list Option) (w : World) : Resolution * World :=
  if retries >? IntSize p then
    (Invalid (diag_of (too_large "retries" retries) (too_large "retries" retries)), w)
  else if minBackOff >? IntSize p then
    (Invalid (diag_of (too_large "min_backoff" minBackOff)
                (too_large "min_backoff" minBackOff)), w)
  else if maxBackOff >? IntSize p then
    (Invalid (diag_of (too_large "max_backoff" maxBackOff)
                (too_large "max_backoff" maxBackOff)), w)
  else if decide (apiKey ≠ "" /\ email = "") then
    (Invalid (diag_of email_not_set email_required), w)
  else if decide (apiKey = "" /\ apiToken = "" /\ apiUserServiceKey = "") then
    (Invalid (diag_of must_provide_one must_provide_one), w)
  else
    (Resolved (resolved_config email apiKey apiUserServiceKey apiToken options accountID),
     logged w accountID).

(** ** Statements shared by the properties *)

(** The fields that are checked against the bound. *)
Definition bounded (f : Field.t) : bool :=
  match f with
  | Field.retries | Field.min_backoff | Field.max_backoff => true
  | _ => false
  end.

(** [field] with resolved [value] fails its bound check; [r], [mn] and [mx]
    are the resolved retries, minimum and maximum backoff. *)
Definition offending (p : platform) (field : string) (value r mn mx : Z) : Prop :=
  value > IntSize p /\
  ((field = "retries" /\ value = r) \/ (field = "min_backoff" /\ value = mn)
   \/ (field = "max_backoff" /\ value = mx)).

(** The SDKv2 [configure] fails on a bound check: the one diagnostic names
    an offending field and its value, and no client is returned, whatever
    the client constructor. *)
Definition SDKv2_bound_failure (p : platform) (c : Consts) (sdk version tf : string)
    (d : SDKv2.ResourceData.t) (w : World) : Prop :=
  exists field value,
    offending p field value (SDKv2.retries c d w) (SDKv2.minBackOff c d w)
      (SDKv2.maxBackOff c d w) /\
    let diag := SDKv2.error_diag (too_large field value) in
    names field diag = true /\ names (pretty value) diag = true /\
    forall (API : Type) (Client : Config.t -> World -> (API + string) * World),
      SDKv2.configure p c sdk Client version tf d w = ((None, [diag]), w).

(** The same for the framework [Configure], which adds the diagnostic to
    those of the decoding and sets no client in the response. *)
Definition Framework_bound_failure (p : platform) (c : Consts) (sdk version : string)
    (req : Framework.ConfigureRequest) (w : World) : Prop :=
  let '(diags, data) := Framework.Config_Get req in
  exists field value,
    offending p field value (Framework.retries c data w)
      (Framework.minBackOff c data w) (Framework.maxBackOff c data w) /\
    let diag := mkDiagnostic Error (too_large field value) (too_large field value) in
    names field diag = true /\ names (pretty value) diag = true /\
    forall (API : Type) (Client : Config.t -> World -> (API + string) * World),
      Framework.Configure p c sdk Client version req w
      = (Framework.mkResponse (diags ++ [diag])%list None None, w).

(** The diagnostic lists the three credential fields by name. *)
Definition lists_credential_fields (d : Diagnostic) : bool :=
  names APIKeySchemaKey d && names APITokenSchemaKey d
  && names APIUserServiceKeySchemaKey d.

(** What the resolved value [v] of an integer field is for the non-empty
    text [s] of its environment variable. *)
Definition from_env_text (s : string) (v : Value) : Prop :=
  (malformed s -> v = VInt 0)
  /\ (valid_int_syntax s = true -> int_value s > MaxInt64 -> v = VInt MaxInt64)
  /\ (valid_int_syntax s = true -> int_value s < MinInt64 -> v = VInt MinInt64)
  /\ (overflowing s -> v = VInt (if negative s then MinInt64 else MaxInt64)).

(** The environment variable of [f] is not also that of a field that holds
    a text. *)
Definition own_key (c : Consts) (f : Field.t) : Prop :=
  forall g, Field.is_int g = false -> env_key c g ≠ env_key c f.

(** How the SDKv2 and the framework configuration look with another rate
    limit or another account id. *)
Definition SDKv2_with_rps (v : option Z) (d : SDKv2.ResourceData.t)
    : SDKv2.ResourceData.t :=
  let 'SDKv2.ResourceData.mk e k t u _ r mn mx l a h b := d in
  SDKv2.ResourceData.mk e k t u v r mn mx l a h b.

Definition SDKv2_with_account_id (v : option string) (d : SDKv2.ResourceData.t)
    : SDKv2.ResourceData.t :=
  let 'SDKv2.ResourceData.mk e k t u rp r mn mx l _ h b := d in
  SDKv2.ResourceData.mk e k t u rp r mn mx l v h b.

Definition Framework_with_RPS (v : Framework.tfInt64)
    (data : Framework.CloudflareProviderModel.t) : Framework.CloudflareProviderModel.t :=
  let 'Framework.CloudflareProviderModel.mk k u e mn _ a b t r mx l h := data in
  Framework.CloudflareProviderModel.mk k u e mn v a b t r mx l h.

Definition Framework_with_AccountID (v : Framework.tfString)
    (data : Framework.CloudflareProviderModel.t) : Framework.CloudflareProviderModel.t :=
  let 'Framework.CloudflareProviderModel.mk k u e mn rp _ b t r mx l h := data in
  Framework.CloudflareProviderModel.mk k u e mn rp v b t r mx l h.

(** The same request with another decoded model. *)
Definition with_data (data : Framework.CloudflareProviderModel.t)
    (req : Framework.ConfigureRequest) : Framework.ConfigureRequest :=
  Framework.mkRequest (fst (Framework.Config_Get req), data)
    (Framework.TerraformVersion req).

(** The account_id of a framework configuration: none when it is null. *)
Definition explicit_text (v : Framework.tfString) : option string :=
  if Framework.String_IsNull v then None else Some (Framework.ValueString v).

(** How the account id of the input toggles the account option: [explicit]
    is the account_id of the configuration, [env_value] what the
    environment holds under the name of its variable, [options] the options
    built before the credentials are read, [config] the configuration of
    the client. *)
Definition account_scoping (explicit env_value : option string)
    (options : list Option) (config : Config.t) : Prop :=
  existsb isAccountOption options = false
  /\ (forall a, a ≠ "" -> explicit = Some a ->
      Config.Options config = (options ++ [UsingAccount a])%list)
  /\ (forall a, a ≠ "" -> explicit = None -> env_value = Some a ->
      Config.Options config = (options ++ [UsingAccount a])%list)
  /\ (explicit = None -> env_value = None -> Config.Options config = options).

(** ** Sample inputs *)

(** A process with an empty environment and an empty log. *)
Definition w0 : World := mkWorld ∅ false [].

Definition sample_token : string := "AAAAAAAAAAAAAAAAAAAAAAAAAAAAAAAAAAAAAAAA".
Definition sample_key : string := "fffffffffffffffffffffffffffffffffffff".

Module Samples.
Import SDKv2.ResourceData Framework.

Definition sdk_token : SDKv2.ResourceData.t :=
  SDKv2.ResourceData.mk None None (Some sample_token) None None None None None
    None None None None.

Definition fw_token : CloudflareProviderModel.t :=
  CloudflareProviderModel.mk StringNull StringNull StringNull Int64Null Int64Null
    StringNull StringNull (StringValue sample_token) Int64Null Int64Null BoolNull
    StringNull.

(** A request whose configuration decodes without diagnostics. *)
Definition request (data : CloudflareProviderModel.t) : ConfigureRequest :=
  mkRequest ([], data) "1.3.0".

Definition sdk_retries65 : SDKv2.ResourceData.t :=
  SDKv2.ResourceData.mk None None (Some sample_token) None None (Some 65) None None
    None None None None.

Definition fw_retries65 : CloudflareProviderModel.t :=
  CloudflareProviderModel.mk StringNull StringNull StringNull Int64Null Int64Null
    StringNull StringNull (StringValue sample_token) (Int64Value 65) Int64Null
    BoolNull StringNull.

(** Two credential modes at once: a token and a user service key. *)
Definition sdk_two_modes : SDKv2.ResourceData.t :=
  SDKv2.ResourceData.mk None None (Some sample_token) (Some "v1.0-0123456789abcdef")
    None None None None None None None None.

Definition fw_two_modes : CloudflareProviderModel.t :=
  CloudflareProviderModel.mk StringNull (StringValue "v1.0-0123456789abcdef")
    StringNull Int64Null Int64Null StringNull StringNull (StringValue sample_token)
    Int64Null Int64Null BoolNull StringNull.

(** No credential at all, and a retries value above the bound. *)
Definition sdk_no_mode_retries65 : SDKv2.ResourceData.t :=
  SDKv2.ResourceData.mk None None None None None (Some 65) None None None None
    None None.

(** An API key and no email. *)
Definition sdk_key_only : SDKv2.ResourceData.t :=
  SDKv2.ResourceData.mk None (Some sample_key) None None None None None None None
    None None None.

Definition fw_key_only : CloudflareProviderModel.t :=
  CloudflareProviderModel.mk (StringValue sample_key) StringNull StringNull Int64Null
    Int64Null StringNull StringNull StringNull Int64Null Int64Null BoolNull
    StringNull.

(** The environment with an email, with a rate limit, with a hostname. *)
Definition w_email : World := setenv "CLOUDFLARE_EMAIL" "someone@example.com" w0.
Definition w_rps : World := setenv "CLOUDFLARE_RPS" "7" w0.
Definition w_hostname : World := setenv "CLOUDFLARE_API_HOSTNAME" "api.example.com" w0.

(** A token, and the rate limit explicitly zero. *)
Definition sdk_rps_zero : SDKv2.ResourceData.t :=
  SDKv2.ResourceData.mk None None (Some sample_token) None (Some 0) None None None
    None None None None.

Definition fw_rps_zero : CloudflareProviderModel.t :=
  CloudflareProviderModel.mk StringNull StringNull StringNull Int64Null (Int64Value 0)
    StringNull StringNull (StringValue sample_token) Int64Null Int64Null BoolNull
    StringNull.

(** A token, and the hostname explicitly empty. *)
Definition fw_hostname_empty : CloudflareProviderModel.t :=
  CloudflareProviderModel.mk StringNull StringNull StringNull Int64Null Int64Null
    StringNull StringNull (StringValue sample_token) Int64Null Int64Null BoolNull
    (StringValue "").

(** The environment with the retries variable set to the text [s]. *)
Definition w_retries (s : string) : World := setenv "CLOUDFLARE_RETRIES" s w0.

(** The minimum backoff set, the maximum backoff null; and the converse. *)
Definition fw_min_only : CloudflareProviderModel.t :=
  CloudflareProviderModel.mk StringNull StringNull StringNull (Int64Value 5) Int64Null
    StringNull StringNull (StringValue sample_token) Int64Null Int64Null BoolNull
    StringNull.

Definition fw_max_only : CloudflareProviderModel.t :=
  CloudflareProviderModel.mk StringNull StringNull StringNull Int64Null Int64Null
    StringNull StringNull (StringValue sample_token) Int64Null (Int64Value 60)
    BoolNull StringNull.

(** A token and the account id of the specification's scenario. *)
Definition sdk_account : SDKv2.ResourceData.t :=
  SDKv2_with_account_id (Some "acct123") sdk_token.

End Samples.

(** ** The [strings] package *)

(** [strings.Split(s, sep)] for a separator of one byte. *)
Fixpoint Split (sep : ascii) (s : string) : list string :=
  match s with
  | EmptyString => [EmptyString]
  | String c s' =>
      if Ascii.eqb c sep then EmptyString :: Split sep s'
      else
        match Split sep s' with
        | piece :: rest => String c piece :: rest
        | [] => [String c EmptyString]
        end
  end.

(** [strings.Join(pieces, sep)], to state what [Split] keeps. *)
Fixpoint Join (sep : string) (pieces : list string) : string :=
  match pieces with
  | [] => EmptyString
  | [piece] => piece
  | piece :: rest => piece +:+ sep +:+ Join sep rest
  end.

(** The number of bytes [c] in [s]. *)
Fixpoint count_byte (c : ascii) (s : string) : nat :=
  match s with
  | EmptyString => 0%nat
  | String x s' => ((if Ascii.eqb x c then 1 else 0) + count_byte c s')%nat
  end.

(** ** The DLP profile resource: [resource_cloudflare_dlp_profile.go] *)

Module DLP.

(** The values a [map[string]interface{}] of the resource holds, as far as
    the code tells them apart: strings, booleans, lists, maps, and
    anything else. *)
#[warnings="-register-all"]
Inductive iface : Type :=
  | IString (s : string)
  | IBool (b : bool)
  | IList (l : list iface)
  | IMap (m : gmap string iface)
  | IOther.

(** [cloudflare.DLPPattern]. *)
Record DLPPattern : Type := mkPattern {
  Regex : string;
  Validation : string
}.

(** [cloudflare.DLPEntry]; the provider never sets [ProfileID], [CreatedAt]
    and [UpdatedAt]. *)
Record DLPEntry : Type := mkEntry {
  ID : string;
  Name : string;
  ProfileID : string;
  Enabled : option bool;
  Type_ : string;
  Pattern : option DLPPattern;
  CreatedAt : option Z;
  UpdatedAt : option Z
}.

(** The type assertions [v.(string)], [v.([]interface{})] and
    [v.(map[string]interface{})] on the value of a map lookup; [None] when
    the key is missing or the value has another dynamic type. *)
Definition as_string (v : option iface) : option string :=
  match v with Some (IString s) => Some s | _ => None end.

Definition as_list (v : option iface) : option (list iface) :=
  match v with Some (IList l) => Some l | _ => None end.

Definition as_map (v : option iface) : option (gmap string iface) :=
  match v with Some (IMap m) => Some m | _ => None end.

Definition dlpPatternToSchema (pattern : DLPPattern) : gmap string iface :=
  let schema : gmap string iface := ∅ in
  let schema :=
    if decide (Regex pattern ≠ "") then <["regex" := IString (Regex pattern)]> schema
    else schema in
  if decide (Validation pattern ≠ "")
  then <["validation" := IString (Validation pattern)]> schema
  else schema.

(** [None] stands for the panic of the single-value assertion
    [pattern["regex"].(string)]. *)
Definition dlpPatternToAPI (pattern : gmap string iface) : option DLPPattern :=
  match as_string (pattern !! "regex") with
  | None => None
  | Some regex =>
      let entryPattern := mkPattern regex "" in
      match as_string (pattern !! "validation") with
      | Some validation => Some (mkPattern (Regex entryPattern) validation)
      | None => Some entryPattern
      end
  end.

Definition dlpEntryToSchema (entry : DLPEntry) : gmap string iface :=
  let entrySchema : gmap string iface := ∅ in
  let entrySchema :=
    if decide (ID entry ≠ "") then <["id" := IString (ID entry)]> entrySchema
    else entrySchema in
  let entrySchema :=
    if decide (Name entry ≠ "") then <["name" := IString (Name entry)]> entrySchema
    else entrySchema in
  let entrySchema :=
    <["enabled" := IBool (match Enabled entry with Some b => b | None => false end)]>
      entrySchema in
  match Pattern entry with
  | Some pattern => <["pattern" := IList [IMap (dlpPatternToSchema pattern)]]> entrySchema
  | None => entrySchema
  end.

(** [None] stands for a panic: of [entryMap["name"].(string)], of
    [patterns[0].(map[string]interface{})], or of [dlpPatternToAPI]. *)
Definition dlpEntryToAPI (entryType : string) (entryMap : gmap string iface)
    : option DLPEntry :=
  match as_string (entryMap !! "name") with
  | None => None
  | Some name =>
      let apiEntry := mkEntry "" name "" None "" None None None in
      let apiEntry :=
        match as_string (entryMap !! "id") with
        | Some entryID =>
            mkEntry entryID (Name apiEntry) (ProfileID apiEntry) (Enabled apiEntry)
              (Type_ apiEntry) (Pattern apiEntry) (CreatedAt apiEntry)
              (UpdatedAt apiEntry)
        | None => apiEntry
        end in
      let with_pattern : option DLPEntry :=
        match as_list (entryMap !! "pattern") with
        | Some (first :: _) =>
            match as_map (Some first) with
            | None => None
            | Some patternMap =>
                match dlpPatternToAPI patternMap with
                | None => None
                | Some newPattern =>
                    Some (mkEntry (ID apiEntry) (Name apiEntry) (ProfileID apiEntry)
                            (Enabled apiEntry) (Type_ apiEntry) (Some newPattern)
                            (CreatedAt apiEntry) (UpdatedAt apiEntry))
                end
            end
        | _ => Some apiEntry
        end in
      match with_pattern with
      | None => None
      | Some apiEntry =>
          let enabled :=
            match entryMap !! "enabled" with Some (IBool true) => true | _ => false end in
          Some (mkEntry (ID apiEntry) (Name apiEntry) (ProfileID apiEntry) (Some enabled)
                  entryType (Pattern apiEntry) (CreatedAt apiEntry) (UpdatedAt apiEntry))
      end
  end.

(** [cloudflare.DLPProfile], as far as the resource reads and writes it. *)
Module DLPProfile.
Record t : Type := mk {
  ID : string;
  Name : string;
  Type_ : string;
  Description : string;
  Entries : list DLPEntry
}.
End DLPProfile.

(** An error of the API client: its text, and whether [errors.As] finds a
    [*cloudflare.NotFoundError] in it. *)
Record APIError : Type := mkAPIError {
  notFound : bool;
  Error_ : string
}.

Record CreateDLPProfilesParams : Type := mkCreateParams {
  create_Profiles : list DLPProfile.t;
  create_Type : string
}.

Record UpdateDLPProfileParams : Type := mkUpdateParams {
  update_ProfileID : string;
  update_Profile : DLPProfile.t;
  update_Type : string
}.

(** [schema.ResourceData] of the resource: the id and the attributes the
    code reads and writes; [entry] holds the items of the set in the order
    of its [List()]. *)
Module ResourceData.
Record t : Type := mk {
  Id : string;
  account_id : string;
  name : string;
  type_ : string;
  description : string;
  entry : list (gmap string iface)
}.

Definition SetId (v : string) (d : t) : t :=
  mk v (account_id d) (name d) (type_ d) (description d) (entry d).
Definition Set_account_id (v : string) (d : t) : t :=
  mk (Id d) v (name d) (type_ d) (description d) (entry d).
Definition Set_name (v : string) (d : t) : t :=
  mk (Id d) (account_id d) v (type_ d) (description d) (entry d).
Definition Set_type (v : string) (d : t) : t :=
  mk (Id d) (account_id d) (name d) v (description d) (entry d).
Definition Set_description (v : string) (d : t) : t :=
  mk (Id d) (account_id d) (name d) (type_ d) v (entry d).
Definition Set_entry (v : list (gmap string iface)) (d : t) : t :=
  mk (Id d) (account_id d) (name d) (type_ d) (description d) v.
End ResourceData.

Section resource.

(** The API behind the client, as functions over the state of the server;
    the first argument is the account of [cloudflare.AccountIdentifier]. *)
Variable Server : Type.
Variable GetDLPProfile :
  string -> string -> Server -> (DLPProfile.t + APIError) * Server.
Variable CreateDLPProfiles :
  string -> CreateDLPProfilesParams -> Server -> (list DLPProfile.t + APIError) * Server.
Variable UpdateDLPProfile :
  string -> UpdateDLPProfileParams -> Server -> (DLPProfile.t + APIError) * Server.
Variable DeleteDLPProfile : string -> string -> Server -> option APIError * Server.

(** The profile types, declared with the schema of the resource. *)
Variable DLPProfileTypeCustom : string.
Variable DLPProfileTypePredefined : string.

(** The items, in [List()] order, of the set [schema.NewSet] builds. *)
Variable NewSet : list (gmap string iface) -> list (gmap string iface).

(** [strconv.Quote], the [%q] verb, and the [%+v] verb on a profile. *)
Variable Quote : string -> string.
Variable Sprintf_v : DLPProfile.t -> string.

Record State : Type := mkState {
  server : Server;
  log : list string
}.

Definition tflog_line (msg : string) (st : State) : State :=
  mkState (server st) (log st ++ [msg])%list.

Definition with_server (s : Server) (st : State) : State := mkState s (log st).

Import ResourceData.

Definition resourceCloudflareDLPProfileRead (d : ResourceData.t) (st : State)
    : (Diagnostics * ResourceData.t) * State :=
  let identifier := account_id d in
  let '(result, s) := GetDLPProfile identifier (Id d) (server st) in
  let st := with_server s st in
  match result with
  | inr err =>
      if notFound err then
        let st := tflog_line ("DLP Profile " +:+ Id d +:+ " no longer exists") st in
        (([], SetId "" d), st)
      else
        ((SDKv2.FromErr ("error reading DLP profile: " +:+ Error_ err), d), st)
  | inl dlpProfile =>
      let d := Set_name (DLPProfile.Name dlpProfile) d in
      let d := Set_type (DLPProfile.Type_ dlpProfile) d in
      let d :=
        if decide (DLPProfile.Description dlpProfile ≠ "")
        then Set_description (DLPProfile.Description dlpProfile) d
        else d in
      let entries := map dlpEntryToSchema (DLPProfile.Entries dlpProfile) in
      let d := Set_entry (NewSet entries) d in
      (([], d), st)
  end.

(** [None] stands for a panic of [dlpEntryToAPI] on an entry of the
    configuration. *)
Definition resourceCloudflareDLPProfileCreate (d : ResourceData.t) (st : State)
    : option ((Diagnostics * ResourceData.t) * State) :=
  let identifier := account_id d in
  let newDLPProfile := DLPProfile.mk "" (name d) (type_ d) (description d) [] in
  if decide (DLPProfile.Type_ newDLPProfile = DLPProfileTypePredefined) then
    Some ((SDKv2.FromErr "predefined DLP profiles cannot be created and must be imported",
           d), st)
  else
    match mapM (dlpEntryToAPI (DLPProfile.Type_ newDLPProfile)) (entry d) with
    | None => None
    | Some entries =>
        let newDLPProfile :=
          DLPProfile.mk (DLPProfile.ID newDLPProfile) (DLPProfile.Name newDLPProfile)
            (DLPProfile.Type_ newDLPProfile) (DLPProfile.Description newDLPProfile)
            entries in
        let '(result, s) :=
          CreateDLPProfiles identifier
            (mkCreateParams [newDLPProfile] (DLPProfile.Type_ newDLPProfile))
            (server st) in
        let st := with_server s st in
        match result with
        | inr err =>
            Some ((SDKv2.FromErr ("error creating DLP Profile for name "
                                    +:+ DLPProfile.Name newDLPProfile +:+ ": "
                                    +:+ Error_ err), d), st)
        | inl [] =>
            Some ((SDKv2.FromErr ("error creating DLP Profile for name "
                                    +:+ DLPProfile.Name newDLPProfile
                                    +:+ ": no profile in response"), d), st)
        | inl (first :: _) =>
            let d := SetId (DLPProfile.ID first) d in
            Some (resourceCloudflareDLPProfileRead d st)
        end
    end.

Definition resourceCloudflareDLPProfileUpdate (d : ResourceData.t) (st : State)
    : option ((Diagnostics * ResourceData.t) * State) :=
  let updatedDLPProfile := DLPProfile.mk (Id d) (name d) (type_ d) (description d) [] in
  match mapM (dlpEntryToAPI (DLPProfile.Type_ updatedDLPProfile)) (entry d) with
  | None => None
  | Some entries =>
      let updatedDLPProfile :=
        DLPProfile.mk (DLPProfile.ID updatedDLPProfile)
          (DLPProfile.Name updatedDLPProfile) (DLPProfile.Type_ updatedDLPProfile)
          (DLPProfile.Description updatedDLPProfile) entries in
      let st :=
        tflog_line ("Updating Cloudflare DLP Profile from struct: "
                      +:+ Sprintf_v updatedDLPProfile) st in
      let identifier := account_id d in
      let '(result, s) :=
        UpdateDLPProfile identifier
          (mkUpdateParams (DLPProfile.ID updatedDLPProfile) updatedDLPProfile
             (DLPProfile.Type_ updatedDLPProfile)) (server st) in
      let st := with_server s st in
      match result with
      | inr err =>
          Some ((SDKv2.FromErr ("error updating DLP profile for ID " +:+ Quote (Id d)
                                  +:+ ": " +:+ Error_ err), d), st)
      | inl dlpProfile =>
          if decide (DLPProfile.ID dlpProfile = "") then
            Some ((SDKv2.FromErr
                     "failed to find DLP Profile ID in update response; resource was empty",
                   d), st)
          else Some (resourceCloudflareDLPProfileRead d st)
      end
  end.

Definition resourceCloudflareDLPProfileDelete (d : ResourceData.t) (st : State)
    : (Diagnostics * ResourceData.t) * State :=
  let st := tflog_line ("Deleting Cloudflare DLP Profile using ID: " +:+ Id d) st in
  let profileType := type_ d in
  if decide (profileType ≠ DLPProfileTypeCustom) then
    ((SDKv2.FromErr "error deleting DLP Profile: can only delete custom profiles", d), st)
  else
    let identifier := account_id d in
    let '(err, s) := DeleteDLPProfile identifier (Id d) (server st) in
    let st := with_server s st in
    match err with
    | Some err =>
        ((SDKv2.FromErr ("error deleting DLP Profile for ID " +:+ Quote (Id d) +:+ ": "
                           +:+ Error_ err), d), st)
    | None =>
        let '((_, d), st) := resourceCloudflareDLPProfileRead d st in
        (([], d), st)
    end.

(** The result is the imported [d], or the text of the error. *)
Definition resourceCloudflareDLPProfileImport (d : ResourceData.t) (st : State)
    : (ResourceData.t + string) * State :=
  let attributes := Split "/" (Id d) in
  match attributes with
  | [accountID; dlpProfileID] =>
      let st :=
        tflog_line ("Importing Cloudflare DLP Profile: " +:+ Quote accountID
                      +:+ ", ID " +:+ Quote dlpProfileID) st in
      let d := Set_account_id accountID d in
      let d := SetId dlpProfileID d in
      let '((_, d), st) := resourceCloudflareDLPProfileRead d st in
      (inl d, st)
  | _ =>
      (inr ("invalid id (" +:+ Quote (Id d) +:+ ") specified, should be in format "
              +:+ Quote "accountID/dlpProfileID"), st)
  end.

End resource.

(** The entry as the provider sends it back: enabled made explicit, the
    fields it never sets cleared. *)
Definition normal_entry (entryType : string) (entry : DLPEntry) : DLPEntry :=
  mkEntry (ID entry) (Name entry) ""
    (Some (match Enabled entry with Some b => b | None => false end))
    entryType (Pattern entry) None None.

(** An entry the provider cannot read back from its own schema form: no
    name, or a pattern without a regex. *)
Definition unreadable (entry : DLPEntry) : bool :=
  bool_decide (Name entry = "")
  || match Pattern entry with
     | Some pattern => bool_decide (Regex pattern = "")
     | None => false
     end.

End DLP.

(** Sample values of the DLP resource: an entry, and an API over a server
    without state that knows no profile, fails, or returns a given
    profile. *)
Module DLPSamples.
Import DLP.

Definition entry_ssn : DLPEntry :=
  mkEntry "" "ssn" "" (Some true) "custom" None None None.

Definition pattern_digits : DLPPattern := mkPattern "[0-9]+" "luhn".

Definition map_ssn : gmap string iface :=
  <["name" := IString "ssn"]> (<["enabled" := IBool true]> ∅).

Definition get_missing (account id : string) (s : unit)
    : (DLPProfile.t + APIError) * unit :=
  (inr (mkAPIError true "not found"), s).

Definition get_failing (account id : string) (s : unit)
    : (DLPProfile.t + APIError) * unit :=
  (inr (mkAPIError false "internal server error"), s).

Definition imported : ResourceData.t := ResourceData.mk "acct123/profile1" "" "" "" "" [].

Definition st0 : State unit := mkState unit tt [].
End DLPSamples.

(** ** The two providers side by side *)

(** The framework model that sets what an SDKv2 configuration sets: an
    unset attribute is null, a set one has its value. *)
Definition tfString_of (v : option string) : Framework.tfString :=
  match v with Some s => Framework.StringValue s | None => Framework.StringNull end.

Definition tfInt64_of (v : option Z) : Framework.tfInt64 :=
  match v with Some z => Framework.Int64Value z | None => Framework.Int64Null end.

Definition tfBool_of (v : option bool) : Framework.tfBool :=
  match v with Some b => Framework.BoolValue b | None => Framework.BoolNull end.

Definition to_framework (d : SDKv2.ResourceData.t) : Framework.CloudflareProviderModel.t :=
  let 'SDKv2.ResourceData.mk e k t u rp r mn mx l a h b := d in
  Framework.CloudflareProviderModel.mk (tfString_of k) (tfString_of u) (tfString_of e)
    (tfInt64_of mn) (tfInt64_of rp) (tfString_of a) (tfString_of b) (tfString_of t)
    (tfInt64_of r) (tfInt64_of mx) (tfBool_of l) (tfString_of h).

(** The range of [int] on the platform. *)
Definition MinInt (p : platform) : Z := - 2 ^ (IntSize p - 1).
Definition MaxInt (p : platform) : Z := 2 ^ (IntSize p - 1) - 1.

Module Samples32.
(** A 32-bit process whose environment asks for -3000000000 retries. *)
Definition w_negative : World := setenv "CLOUDFLARE_RETRIES" "-3000000000" w0.
End Samples32.

(** The configurations with another [api_client_logging]. *)
Definition SDKv2_with_api_client_logging (v : option bool) (d : SDKv2.ResourceData.t)
    : SDKv2.ResourceData.t :=
  let 'SDKv2.ResourceData.mk e k t u rp r mn mx _ a h b := d in
  SDKv2.ResourceData.mk e k t u rp r mn mx v a h b.

Definition Framework_with_APIClientLogging (v : Framework.tfBool)
    (data : Framework.CloudflareProviderModel.t) : Framework.CloudflareProviderModel.t :=
  let 'Framework.CloudflareProviderModel.mk k u e mn rp a b t r mx _ h := data in
  Framework.CloudflareProviderModel.mk k u e mn rp a b t r mx v h.

(** A request whose configuration does not decode. *)
Definition undecoded : Framework.ConfigureRequest :=
  Framework.mkRequest
    ([mkDiagnostic Error "Value Conversion Error" "An unexpected error was encountered"],
     Framework.null) "1.3.0".

(** ** The description of an attribute: [init] of the SDKv2 provider *)

(** The bytes of a text, and the text of bytes. *)
Definition bytes_of (s : string) : list ascii := String.list_ascii_of_string s.
Definition text_of (l : list ascii) : string := String.string_of_list_ascii l.

(** The UTF-8 encodings of the runes [unicode.IsSpace] accepts: the six of
    ASCII, U+0085, U+00A0, U+1680, U+2000 to U+200A, U+2028, U+2029,
    U+202F, U+205F and U+3000. *)
Definition White_Space : list (list ascii) :=
  map (map Ascii.ascii_of_nat)
    [ [9]; [10]; [11]; [12]; [13]; [32]; [194; 133]; [194; 160]; [225; 154; 128];
      [226; 128; 128]; [226; 128; 129]; [226; 128; 130]; [226; 128; 131];
      [226; 128; 132]; [226; 128; 133]; [226; 128; 134]; [226; 128; 135];
      [226; 128; 136]; [226; 128; 137]; [226; 128; 138]; [226; 128; 168];
      [226; 128; 169]; [226; 128; 175]; [226; 129; 159]; [227; 128; 128] ]%nat.

(** [l] without the leading [rune], if it starts with it. *)
Fixpoint strip (rune l : list ascii) : option (list ascii) :=
  match rune, l with
  | [], _ => Some l
  | a :: rune', b :: l' => if decide (a = b) then strip rune' l' else None
  | _ :: _, [] => None
  end.

(** [l] without the rune of [runes] it starts with, if there is one. *)
Fixpoint first_strip (runes : list (list ascii)) (l : list ascii) : option (list ascii) :=
  match runes with
  | [] => None
  | rune :: runes' =>
      match strip rune l with
      | Some rest => Some rest
      | None => first_strip runes' l
      end
  end.

(** Drop leading runes of [runes], at most [n] of them. *)
Fixpoint trim_go (runes : list (list ascii)) (n : nat) (l : list ascii) : list ascii :=
  match n with
  | O => l
  | S n' =>
      match first_strip runes l with
      | Some rest => trim_go runes n' rest
      | None => l
      end
  end.

(** [strings.TrimLeftFunc(s, unicode.IsSpace)] and
    [strings.TrimRightFunc(s, unicode.IsSpace)] on the bytes of [s]: the
    runes are decoded from the left, and from the right.  A byte that
    starts or ends no encoding of a white space rune stops the trimming,
    as does a byte that is no valid UTF-8.  No more runes than bytes can
    be dropped. *)
Definition TrimLeft (l : list ascii) : list ascii := trim_go White_Space (length l) l.

Definition TrimRight (l : list ascii) : list ascii :=
  reverse (trim_go (map reverse White_Space) (length l) (reverse l)).

(** [strings.TrimSpace(s)]: its loop over leading and trailing ASCII is a
    fast path to the same result. *)
Definition TrimSpace (s : string) : string :=
  text_of (TrimRight (TrimLeft (bytes_of s))).

(** [bytes.HasSuffix([]byte(s), []byte(suffix))]. *)
Definition HasSuffix (s suffix : string) : bool :=
  bool_decide (bytes_of suffix `suffix_of` bytes_of s).

(** The [Default] of an attribute: a string, an integer, a boolean, or a
    value of another type, given by its text under the verb [%v]. *)
Inductive DefaultValue : Type :=
  | DefaultString (s : string)
  | DefaultInt (z : Z)
  | DefaultBool (b : bool)
  | DefaultOther (printed : string).

(** [fmt.Sprintf("%v", v)]. *)
Definition Sprintf_v (v : DefaultValue) : string :=
  match v with
  | DefaultString s => s
  | DefaultInt z => pretty z
  | DefaultBool b => if b then "true" else "false"
  | DefaultOther printed => printed
  end.

(** The comparison [v == ""] of an interface value: a string, and empty. *)
Definition equals_empty_string (v : DefaultValue) : bool :=
  match v with DefaultString EmptyString => true | _ => false end.

(** [schema.Schema], as far as the description builder reads it. *)
Module Schema.
Record t : Type := mk {
  Description : string;
  Default : option DefaultValue;
  RequiredWith : list string;
  ConflictsWith : list string;
  ExactlyOneOf : list string;
  AtLeastOneOf : list string;
  ForceNew : bool
}.
End Schema.

Section SchemaDescriptionBuilder.

(** [contains(slice, item)] of the provider package is not among the
    sources; the builder is modelled over any such function. *)
Variable contains : list string -> string -> bool.

Import Schema.

(** The keys, each as [fmt.Sprintf] writes it between backquotes, joined
    by a comma and a space. *)
Definition backquoted (keys : list string) : string :=
  Join ", " (map (λ c, "`" +:+ c +:+ "`") keys).

(** [desc] before the final [strings.TrimSpace]. *)
Definition description_with_notes (s : Schema.t) : string :=
  let desc := Description s in
  let desc := TrimSpace desc in
  let desc :=
    if negb (HasSuffix (Description s) ".") && bool_decide (Description s ≠ "")
    then desc +:+ "." else desc in
  let desc :=
    match Default s with
    | Some v =>
        if equals_empty_string v
        then desc +:+ " Defaults to `" +:+ dquote +:+ dquote +:+ "`."
        else desc +:+ " Defaults to `" +:+ Sprintf_v v +:+ "`."
    | None => desc
    end in
  let desc :=
    if bool_decide (RequiredWith s ≠ [])
       && negb (contains (RequiredWith s) APIKeySchemaKey)
    then desc +:+ " Required when using " +:+ backquoted (RequiredWith s) +:+ "."
    else desc in
  let desc :=
    if bool_decide (ConflictsWith s ≠ [])
       && negb (contains (ConflictsWith s) APITokenSchemaKey)
    then desc +:+ " Conflicts with " +:+ backquoted (ConflictsWith s) +:+ "."
    else desc in
  let desc :=
    if bool_decide (ExactlyOneOf s ≠ [])
       && (negb (contains (ExactlyOneOf s) APIKeySchemaKey)
           || negb (contains (ExactlyOneOf s) APITokenSchemaKey)
           || negb (contains (ExactlyOneOf s) APIUserServiceKeySchemaKey))
    then desc +:+ " Must provide only one of " +:+ backquoted (ExactlyOneOf s) +:+ "."
    else desc in
  let desc :=
    if bool_decide (AtLeastOneOf s ≠ [])
    then desc +:+ " Must provide at least one of " +:+ backquoted (AtLeastOneOf s)
           +:+ "."
    else desc in
  if ForceNew s
  then desc +:+ " **Modifying this attribute will force creation of a new resource.**"
  else desc.

(** [desc] after its first two steps: the trimmed description, ended by a
    period where the description has none. *)
Definition ended_description (s : Schema.t) : string :=
  if negb (HasSuffix (Description s) ".") && bool_decide (Description s ≠ "")
  then TrimSpace (Description s) +:+ "." else TrimSpace (Description s).

(** [schema.SchemaDescriptionBuilder], as [init] sets it. *)
Definition SchemaDescriptionBuilder (s : Schema.t) : string :=
  TrimSpace (description_with_notes s).

End SchemaDescriptionBuilder.

(** A text that ends with a period or an asterisk. *)
Definition ends_visible (x : string) : Prop :=
  exists y c, bytes_of x = (y ++ [c])%list /\ (c = "."%char \/ c = "*"%char).

Definition ends_visibleb (x : string) : bool :=
  match reverse (bytes_of x) with
  | c :: _ => bool_decide (c = "."%char) || bool_decide (c = "*"%char)
  | [] => false
  end.

(** [x] is [base] followed by nothing, or by notes that end visibly. *)
Definition extends (base x : string) : Prop :=
  exists notes, x = base +:+ notes /\ (notes = "" \/ ends_visible notes).

(** [contains] as membership, and the attribute [email] of the provider
    schema, to try the builder on. *)
Definition contains_elem (slice : list string) (item : string) : bool :=
  bool_decide (item ∈ slice).

Definition email_attribute (c : Consts) : Schema.t :=
  Schema.mk
    ("A registered Cloudflare email address. Alternatively, can be configured using the `"
       +:+ EmailEnvVarKey c
       +:+ "` environment variable. Required when using `api_key`. Conflicts with `api_token`.")
    None [APIKeySchemaKey] [APITokenSchemaKey] [] [] false.

(** An attribute whose description ends with a blank after its period. *)
Definition spaced_attribute : Schema.t :=
  Schema.mk "The zone identifier to target for the resource. " None [] [] [] [] true.

(** ** The destroy check of the mutual TLS certificate test *)

(** [terraform.ResourceState] and its [Primary], a pointer to an
    [InstanceState]: [None] is the nil pointer. *)
Module terraform.
Record InstanceState : Type := mkInstance {
  ID : string;
  Attributes : gmap string string
}.

Record ResourceState : Type := mkResource {
  Type_ : string;
  Primary : option InstanceState
}.
End terraform.

Section CheckDestroy.
Import terraform.

(** [client.AccessMutualTLSCertificate(ctx, identifier, id)] returned no
    error: the certificate exists.  The call only reads. *)
Variable AccessMutualTLSCertificate : string -> string -> bool.

(** [rs.Primary.Attributes[key]]: the empty string for a missing key. *)
Definition attribute (primary : InstanceState) (key : string) : string :=
  default "" (Attributes primary !! key).

(** The loop over [s.RootModule().Resources], on the resources in the order
    the iteration over the map yields them.  [None] stands for the panic
    on a nil [Primary]; [Some None] for the result [nil]. *)
Fixpoint testAccCheckCloudflareAccessMutualTLSCertificateDestroy
    (resources : list ResourceState) : option (option string) :=
  match resources with
  | [] => Some None
  | rs :: rest =>
      if decide (Type_ rs ≠ "cloudflare_access_mutual_tls_certificate") then
        testAccCheckCloudflareAccessMutualTLSCertificateDestroy rest
      else
        match Primary rs with
        | None => None
        | Some primary =>
            if bool_decide (attribute primary "zone_id" ≠ "")
               && AccessMutualTLSCertificate (attribute primary "zone_id") (ID primary)
            then Some (Some "AccessMutualTLSCertificate still exists")
            else if bool_decide (attribute primary "account_id" ≠ "")
                    && AccessMutualTLSCertificate (attribute primary "account_id")
                         (ID primary)
            then Some (Some "AccessMutualTLSCertificate still exists")
            else testAccCheckCloudflareAccessMutualTLSCertificateDestroy rest
        end
  end.

(** A certificate the state lists, under its zone or its account, still
    exists. *)
Definition still_exists (rs : ResourceState) : Prop :=
  Type_ rs = "cloudflare_access_mutual_tls_certificate"
  /\ exists primary key,
       Primary rs = Some primary /\ (key = "zone_id" \/ key = "account_id")
       /\ attribute primary key ≠ ""
       /\ AccessMutualTLSCertificate (attribute primary key) (ID primary) = true.

(** Every certificate of the state has its instance state. *)
Definition has_primary (rs : ResourceState) : Prop :=
  Type_ rs = "cloudflare_access_mutual_tls_certificate" -> is_Some (Primary rs).

End CheckDestroy.

(** ** The validators of the credentials *)

(** The regular expressions of the provider schemas have the form
    [[class]{n}]: [n] characters, each in one of the ranges of the class. *)
Record Regexp : Type := mkRegexp {
  class : list (ascii * ascii);
  count : nat
}.

Definition in_class (re : Regexp) (c : ascii) : bool :=
  existsb (λ range, (byte (fst range) <=? byte c) && (byte c <=? byte (snd range)))
    (class re).

(** The expression matches at the start of [s]. *)
Fixpoint match_here (re : Regexp) (n : nat) (s : string) : bool :=
  match n with
  | O => true
  | S n' =>
      match s with
      | String c s' => in_class re c && match_here re n' s'
      | EmptyString => false
      end
  end.

(** [re.MatchString(s)]: the expression matches somewhere in [s]. *)
Fixpoint MatchString (re : Regexp) (s : string) : bool :=
  match_here re (count re) s
  || match s with
     | String _ s' => MatchString re s'
     | EmptyString => false
     end.

(** [regexp.MustCompile("[0-9a-f]{37}")], of the API key. *)
Definition api_key_regexp : Regexp :=
  mkRegexp [("0", "9"); ("a", "f")]%char 37.

(** [regexp.MustCompile("[A-Za-z0-9-_]{40}")], of the API token: after the
    range [0-9] the hyphen stands for itself. *)
Definition api_token_regexp : Regexp :=
  mkRegexp [("A", "Z"); ("a", "z"); ("0", "9"); ("-", "-"); ("_", "_")]%char 40.

(** All bytes of [s] are in the class. *)
Fixpoint all_in_class (re : Regexp) (s : string) : bool :=
  match s with
  | EmptyString => true
  | String c s' => in_class re c && all_in_class re s'
  end.

Module TestSamples.
Import terraform.
(** A state with a certificate of a zone and a resource of another type,
    and a client that finds no certificate. *)
Definition certificate : ResourceState :=
  mkResource "cloudflare_access_mutual_tls_certificate"
    (Some (mkInstance "cert1" (<["zone_id" := "zone1"]> ∅))).
Definition other : ResourceState := mkResource "cloudflare_zone" None.
Definition gone (identifier id : string) : bool := false.
End TestSamples.

(** * Properties *)

(** ** Texts *)

Lemma prefix_append (s t : string) : String.prefix s (s +:+ t) = true.
Proof.
  induction s as [|a s IH]; simpl.
  - by destruct t.
  - destruct (Ascii.ascii_dec a a); [exact IH | congruence].
Qed.

Lemma mentions_prefix (needle hay : string) :
  String.prefix needle hay = true -> mentions needle hay = true.
Proof.
  intros H. destruct hay as [|x hay].
  - destruct needle; simpl in *; congruence.
  - cbn [mentions]. by rewrite H.
Qed.

Lemma mentions_app (a s b : string) : mentions s (a +:+ s +:+ b) = true.
Proof.
  induction a as [|x a IH].
  - change ("" +:+ s +:+ b) with (s +:+ b).
    apply mentions_prefix, prefix_append.
  - change (String x a +:+ s +:+ b) with (String x (a +:+ s +:+ b)).
    cbn [mentions].
    destruct (String.prefix s (String x (a +:+ s +:+ b))); [done | exact IH].
Qed.

(** ** strconv.ParseInt *)

Example ParseInt_4 : ParseInt "4" = (4, None).
Proof. reflexivity. Qed.

Example ParseInt_neg : ParseInt "-30" = (-30, None).
Proof. reflexivity. Qed.

Example ParseInt_junk : ParseInt "ten" = (0, Some ErrSyntax).
Proof. reflexivity. Qed.

Example ParseInt_min : ParseInt "-9223372036854775808" = (MinInt64, None).
Proof. reflexivity. Qed.

Example ParseInt_big : ParseInt "9223372036854775808" = (MaxInt64, Some ErrRange).
Proof. reflexivity. Qed.

Lemma digit_of_byte_digit (c : ascii) :
  is_digit c = true -> digit_of_byte c = Some (byte c - 48) /\ 0 <= byte c - 48 <= 9.
Proof.
  unfold is_digit, digit_of_byte. intros H. rewrite H.
  apply andb_true_iff in H as [H1%Z.leb_le H2%Z.leb_le]. split; [done | lia].
Qed.


Lemma digit_of_byte_other (c : ascii) :
  is_digit c = false ->
  digit_of_byte c = None \/ exists d, digit_of_byte c = Some d /\ 10 <= d.
Proof.
  unfold is_digit, digit_of_byte. intros ->.
  destruct ((97 <=? lower c) && (lower c <=? 122)) eqn:E; [right | by left].
  apply andb_true_iff in E as [E1%Z.leb_le E2]. eexists; split; [done | lia].
Qed.

Lemma decimal_ge (s : string) (n : Z) :
  all_digits s = true -> 0 <= n -> n <= decimal n s.
Proof.
  revert n. induction s as [|c s IH]; intros n Hs Hn; simpl in *; [lia |].
  apply andb_true_iff in Hs as [Hc Hs].
  destruct (digit_of_byte_digit c Hc) as [_ Hd].
  specialize (IH (n * 10 + (byte c - 48)) Hs). lia.
Qed.

Lemma ParseUint_loop_digits (s : string) (n : Z) :
  all_digits s = true -> 0 <= n <= maxUint64 ->
  ParseUint_loop n s =
    if decide (decimal n s <= maxUint64) then (decimal n s, None)
    else (maxUint64, Some ErrRange).
Proof.
  revert n. induction s as [|c s IH]; intros n Hs Hn; simpl in *.
  - by rewrite decide_True by lia.
  - apply andb_true_iff in Hs as [Hc Hs].
    destruct (digit_of_byte_digit c Hc) as [-> Hd].
    pose proof (decimal_ge s (n * 10 + (byte c - 48)) Hs) as Hge.
    unfold maxUint64 in *.
    change (2 ^ 64) with 18446744073709551616 in *.
    change ((18446744073709551616 - 1) / 10 + 1) with 1844674407370955162.
    destruct (Z.geb_spec (byte c - 48) 10) as [?|_]; [lia |].
    destruct (Z.geb_spec n 1844674407370955162) as [Hcut|Hcut].
    { rewrite decide_False by lia. done. }
    destruct (Z_lt_dec (n * 10 + (byte c - 48)) 18446744073709551616) as [Hfit|Hover].
    + rewrite Z.mod_small by lia.
      destruct (Z.ltb_spec (n * 10 + (byte c - 48)) (n * 10)) as [?|_]; [lia |].
      destruct (Z.gtb_spec (n * 10 + (byte c - 48)) (18446744073709551616 - 1)) as [?|_]; [lia |].
      simpl. apply IH; [done | lia].
    + replace ((n * 10 + (byte c - 48)) mod 18446744073709551616)
        with (n * 10 + (byte c - 48) - 18446744073709551616).
      2:{ apply Z.mod_unique with 1; lia. }
      destruct (Z.ltb_spec (n * 10 + (byte c - 48) - 18446744073709551616) (n * 10)) as [_|?]; [| lia].
      simpl. rewrite decide_False by lia. done.
Qed.

Lemma ParseUint_loop_syntax (ds : string) (ch : ascii) (rest : string) (n : Z) :
  all_digits ds = true -> is_digit ch = false ->
  0 <= n -> decimal n ds <= maxUint64 ->
  ParseUint_loop n (ds +:+ String ch rest) = (0, Some ErrSyntax).
Proof.
  revert n. induction ds as [|c ds IH]; intros n Hs Hch Hn Hfit; simpl in *.
  - destruct (digit_of_byte_other ch Hch) as [-> | (d & -> & Hd)]; [done |].
    destruct (Z.geb_spec d 10); [done | lia].
  - apply andb_true_iff in Hs as [Hc Hs].
    destruct (digit_of_byte_digit c Hc) as [-> Hd].
    pose proof (decimal_ge ds (n * 10 + (byte c - 48)) Hs) as Hge.
    unfold maxUint64 in *.
    change (2 ^ 64) with 18446744073709551616 in *.
    change ((18446744073709551616 - 1) / 10 + 1) with 1844674407370955162.
    destruct (Z.geb_spec (byte c - 48) 10) as [?|_]; [lia |].
    destruct (Z.geb_spec n 1844674407370955162) as [?|_]; [lia |].
    rewrite Z.mod_small by lia.
    destruct (Z.ltb_spec (n * 10 + (byte c - 48)) (n * 10)) as [?|_]; [lia |].
    destruct (Z.gtb_spec (n * 10 + (byte c - 48)) (18446744073709551616 - 1)) as [?|_]; [lia |].
    simpl. apply IH; [done | done | lia | done].
Qed.

Lemma ParseUint_digits (s : string) :
  all_digits s = true -> s ≠ "" ->
  ParseUint s =
    if decide (decimal 0 s <= maxUint64) then (decimal 0 s, None)
    else (maxUint64, Some ErrRange).
Proof.
  intros Hs Hne. destruct s as [|c s]; [done |].
  unfold ParseUint. apply ParseUint_loop_digits; [done |].
  unfold maxUint64. lia.
Qed.

Lemma ParseUint_malformed (s : string) :
  unsigned_malformed s -> ParseUint s = (0, Some ErrSyntax).
Proof.
  intros [-> | (ds & ch & rest & -> & Hds & Hch & Hfit)]; [done |].
  assert (ParseUint (ds +:+ String ch rest)
          = ParseUint_loop 0 (ds +:+ String ch rest)) as ->
    by (by destruct ds).
  by apply ParseUint_loop_syntax.
Qed.

Lemma ParseInt_of_unsigned (neg : bool) (s1 : string) :
  all_digits s1 = true -> s1 ≠ "" ->
  let v := if neg then - decimal 0 s1 else decimal 0 s1 in
  match ParseUint s1 with
  | (_, Some ErrSyntax) => (0, Some ErrSyntax)
  | (un, _) =>
      if negb neg && (un >=? 2 ^ 63) then (2 ^ 63 - 1, Some ErrRange)
      else if neg && (un >? 2 ^ 63) then (- 2 ^ 63, Some ErrRange)
      else (if neg then - un else un, None)
  end
  = (clamp64 v, if decide (MinInt64 <= v <= MaxInt64) then None else Some ErrRange).
Proof.
  intros Hs Hne v. rewrite ParseUint_digits by done.
  pose proof (decimal_ge s1 0 Hs) as Hge.
  subst v. unfold clamp64, MinInt64, MaxInt64, maxUint64.
  change (2 ^ 64) with 18446744073709551616.
  change (2 ^ 63) with 9223372036854775808.
  repeat case_decide; destruct neg; simpl;
    repeat match goal with
           | |- context [?a >=? ?b] => destruct (Z.geb_spec a b)
           | |- context [?a >? ?b] => destruct (Z.gtb_spec a b)
           | |- context [?a <? ?b] => destruct (Z.ltb_spec a b)
           end; simpl; try done; try lia; f_equal; lia.
Qed.

Theorem ParseInt_valid (s : string) :
  valid_int_syntax s = true ->
  ParseInt s =
    (clamp64 (int_value s),
     if decide (MinInt64 <= int_value s <= MaxInt64) then None else Some ErrRange).
Proof.
  destruct s as [|c s']; [done |]. unfold valid_int_syntax, is_sign, ParseInt, int_value.
  destruct (Ascii.eqb c "+") eqn:Ep; simpl.
  { intros [Hs Hne%bool_decide_eq_true]%andb_true_iff.
    apply (ParseInt_of_unsigned false s' Hs Hne). }
  destruct (Ascii.eqb c "-") eqn:Em; simpl.
  { intros [Hs Hne%bool_decide_eq_true]%andb_true_iff.
    apply (ParseInt_of_unsigned true s' Hs Hne). }
  intros Hs. apply (ParseInt_of_unsigned false (String c s') Hs). done.
Qed.

Theorem ParseInt_malformed (s : string) :
  malformed s -> ParseInt s = (0, Some ErrSyntax).
Proof.
  destruct s as [|c s']; [done |]. unfold malformed, is_sign, ParseInt.
  destruct (Ascii.eqb c "+") eqn:Ep; cbn [orb].
  { intros H. by rewrite (ParseUint_malformed _ H). }
  destruct (Ascii.eqb c "-") eqn:Em; cbn [orb].
  { intros H. by rewrite (ParseUint_malformed _ H). }
  intros H. by rewrite (ParseUint_malformed _ H).
Qed.

(** ** Diagnostics texts *)

Lemma append_assoc (a b c : string) : (a +:+ b) +:+ c = a +:+ b +:+ c.
Proof.
  induction a as [|x a IH]; [done |].
  change (String x ((a +:+ b) +:+ c) = String x (a +:+ b +:+ c)). by rewrite IH.
Qed.

Lemma too_large_field (field : string) (value : Z) :
  mentions field (too_large field value) = true.
Proof. apply mentions_prefix, prefix_append. Qed.

Lemma too_large_value (field : string) (value : Z) :
  mentions (pretty value) (too_large field value) = true.
Proof.
  unfold too_large. rewrite <- (append_assoc field). apply mentions_app.
Qed.

(** ** The phases of the SDKv2 [configure] *)

Ltac pass_bounds :=
  repeat match goal with
         | |- context [?a >? ?b] => destruct (Z.gtb_spec a b); [lia |]
         end.

Ltac split_decisions :=
  repeat match goal with
         | |- context [decide ?P] => destruct (decide P)
         end; try tauto;
  repeat match goal with
         | H : ¬ (_ ≠ _) |- _ => apply dec_stable in H
         end.

Ltac same_config :=
  unfold Config.set_Options, Config.set_APIUserServiceKey, Config.set_Email,
    Config.set_APIKey, Config.set_APIToken;
  cbn [Config.Email Config.APIKey Config.APIUserServiceKey Config.APIToken
         Config.Options];
  rewrite ?app_nil_r;
  repeat match goal with
         | H : ?x = "" |- context [?x] => rewrite H
         end; reflexivity.

Section SDKv2_resolve.
Variables (p : platform) (c : Consts) (sdk version tf : string).
Variables (d : SDKv2.ResourceData.t) (w : World).

Let retries := SDKv2.retries c d w.
Let minBackOff := SDKv2.minBackOff c d w.
Let maxBackOff := SDKv2.maxBackOff c d w.
Let apiKey := SDKv2.apiKey c d w.
Let apiToken := SDKv2.apiToken c d w.
Let apiUserServiceKey := SDKv2.apiUserServiceKey c d w.
Let email := SDKv2.email c d w.
Let accountID := SDKv2.accountID c d w.

Lemma SDKv2_resolve_retries :
  retries > IntSize p ->
  SDKv2.resolve p c sdk version tf d w
  = (Invalid [SDKv2.error_diag (too_large "retries" retries)], w).
Proof.
  intros H. unfold SDKv2.resolve. fold retries.
  destruct (Z.gtb_spec retries (IntSize p)); [done | lia].
Qed.

Lemma SDKv2_resolve_min_backoff :
  retries <= IntSize p -> minBackOff > IntSize p ->
  SDKv2.resolve p c sdk version tf d w
  = (Invalid [SDKv2.error_diag (too_large "min_backoff" minBackOff)], w).
Proof.
  intros H1 H2. unfold SDKv2.resolve. fold retries minBackOff.
  destruct (Z.gtb_spec retries (IntSize p)); [lia |].
  destruct (Z.gtb_spec minBackOff (IntSize p)); [done | lia].
Qed.

Lemma SDKv2_resolve_max_backoff :
  retries <= IntSize p -> minBackOff <= IntSize p -> maxBackOff > IntSize p ->
  SDKv2.resolve p c sdk version tf d w
  = (Invalid [SDKv2.error_diag (too_large "max_backoff" maxBackOff)], w).
Proof.
  intros H1 H2 H3. unfold SDKv2.resolve. fold retries minBackOff maxBackOff.
  destruct (Z.gtb_spec retries (IntSize p)); [lia |].
  destruct (Z.gtb_spec minBackOff (IntSize p)); [lia |].
  destruct (Z.gtb_spec maxBackOff (IntSize p)); [done | lia].
Qed.

Hypothesis bounds :
  retries <= IntSize p /\ minBackOff <= IntSize p /\ maxBackOff <= IntSize p.

Lemma SDKv2_resolve_email :
  apiKey ≠ "" -> email = "" ->
  SDKv2.resolve p c sdk version tf d w
  = (Invalid [SDKv2.error_diag email_not_set], w).
Proof.
  intros H1 H2. destruct bounds as (B1 & B2 & B3).
  unfold SDKv2.resolve. fold retries minBackOff maxBackOff apiKey email.
  pass_bounds.
  cbv zeta. rewrite decide_True by done. by rewrite decide_True.
Qed.

Lemma SDKv2_resolve_none :
  apiKey = "" -> apiToken = "" -> apiUserServiceKey = "" ->
  SDKv2.resolve p c sdk version tf d w
  = (Invalid [SDKv2.error_diag must_provide_one], w).
Proof.
  intros H1 H2 H3. destruct bounds as (B1 & B2 & B3).
  unfold SDKv2.resolve, SDKv2.resolve_account.
  fold retries minBackOff maxBackOff apiKey apiToken apiUserServiceKey.
  pass_bounds.
  cbv zeta. rewrite (decide_False (P := apiKey ≠ "")) by tauto.
  by rewrite decide_True.
Qed.

Lemma SDKv2_resolve_some :
  (apiKey ≠ "" -> email ≠ "") ->
  ¬ (apiKey = "" /\ apiToken = "" /\ apiUserServiceKey = "") ->
  SDKv2.resolve p c sdk version tf d w
  = (Resolved (resolved_config email apiKey apiUserServiceKey apiToken
                 (SDKv2.options p c sdk version tf d w) accountID),
     logged w accountID).
Proof.
  intros H1 H2. destruct bounds as (B1 & B2 & B3).
  unfold SDKv2.resolve, SDKv2.resolve_account, resolved_config, logged, account_option.
  fold retries minBackOff maxBackOff apiKey apiToken apiUserServiceKey email accountID.
  pass_bounds.
  cbv zeta. split_decisions; same_config.
Qed.
End SDKv2_resolve.

(** ** The phases of the framework [Configure] *)

Section Framework_resolve.
Variables (p : platform) (c : Consts) (sdk version : string).
Variables (req : Framework.ConfigureRequest) (w : World).

Let diags := fst (Framework.Config_Get req).
Let data := snd (Framework.Config_Get req).
Let retries := Framework.retries c data w.
Let minBackOff := Framework.minBackOff c data w.
Let maxBackOff := Framework.maxBackOff c data w.
Let apiKey := Framework.apiKey c data w.
Let apiToken := Framework.apiToken c data w.
Let apiUserServiceKey := Framework.apiUserServiceKey c data w.
Let email := Framework.email c data w.
Let accountID := Framework.accountID c data w.

Lemma Framework_resolve_decode :
  HasError diags = true ->
  Framework.resolve p c sdk version req w = (Invalid diags, w).
Proof.
  subst diags. unfold Framework.resolve.
  destruct (Framework.Config_Get req) as [ds dt]; simpl. by intros ->.
Qed.

Hypothesis decoded : HasError diags = false.

Lemma Framework_resolve_retries :
  retries > IntSize p ->
  Framework.resolve p c sdk version req w
  = (Invalid (Framework.AddError diags (too_large "retries" retries)
                (too_large "retries" retries)), w).
Proof.
  subst diags data retries. unfold Framework.resolve. intros H.
  destruct (Framework.Config_Get req) as [ds dt]; simpl in *. rewrite decoded.
  destruct (Z.gtb_spec (Framework.retries c dt w) (IntSize p)); [done | lia].
Qed.

Lemma Framework_resolve_min_backoff :
  retries <= IntSize p -> minBackOff > IntSize p ->
  Framework.resolve p c sdk version req w
  = (Invalid (Framework.AddError diags (too_large "min_backoff" minBackOff)
                (too_large "min_backoff" minBackOff)), w).
Proof.
  subst diags data retries minBackOff. unfold Framework.resolve. intros H1 H2.
  destruct (Framework.Config_Get req) as [ds dt]; simpl in *. rewrite decoded.
  destruct (Z.gtb_spec (Framework.retries c dt w) (IntSize p)); [lia |].
  destruct (Z.gtb_spec (Framework.minBackOff c dt w) (IntSize p)); [done | lia].
Qed.

Lemma Framework_resolve_max_backoff :
  retries <= IntSize p -> minBackOff <= IntSize p -> maxBackOff > IntSize p ->
  Framework.resolve p c sdk version req w
  = (Invalid (Framework.AddError diags (too_large "max_backoff" maxBackOff)
                (too_large "max_backoff" maxBackOff)), w).
Proof.
  subst diags data retries minBackOff maxBackOff. unfold Framework.resolve.
  intros H1 H2 H3.
  destruct (Framework.Config_Get req) as [ds dt]; simpl in *. rewrite decoded.
  destruct (Z.gtb_spec (Framework.retries c dt w) (IntSize p)); [lia |].
  destruct (Z.gtb_spec (Framework.minBackOff c dt w) (IntSize p)); [lia |].
  destruct (Z.gtb_spec (Framework.maxBackOff c dt w) (IntSize p)); [done | lia].
Qed.

Hypothesis bounds :
  retries <= IntSize p /\ minBackOff <= IntSize p /\ maxBackOff <= IntSize p.

Lemma Framework_resolve_email :
  apiKey ≠ "" -> email = "" ->
  Framework.resolve p c sdk version req w
  = (Invalid (Framework.AddError diags email_not_set email_required), w).
Proof.
  subst diags data retries minBackOff maxBackOff apiKey email.
  intros H1 H2. destruct bounds as (B1 & B2 & B3). unfold Framework.resolve.
  destruct (Framework.Config_Get req) as [ds dt]; cbn [fst snd] in *.
  rewrite decoded. pass_bounds.
  cbv zeta. rewrite decide_True by done. by rewrite decide_True.
Qed.

Lemma Framework_resolve_none :
  apiKey = "" -> apiToken = "" -> apiUserServiceKey = "" ->
  Framework.resolve p c sdk version req w
  = (Invalid (Framework.AddError diags must_provide_one must_provide_one), w).
Proof.
  subst diags data retries minBackOff maxBackOff apiKey apiToken apiUserServiceKey.
  intros H1 H2 H3. destruct bounds as (B1 & B2 & B3).
  unfold Framework.resolve, Framework.resolve_account.
  destruct (Framework.Config_Get req) as [ds dt]; cbn [fst snd] in *.
  rewrite decoded. pass_bounds.
  cbv zeta. rewrite (decide_False (P := Framework.apiKey c dt w ≠ "")) by tauto.
  by rewrite decide_True.
Qed.

Lemma Framework_resolve_some :
  (apiKey ≠ "" -> email ≠ "") ->
  ¬ (apiKey = "" /\ apiToken = "" /\ apiUserServiceKey = "") ->
  Framework.resolve p c sdk version req w
  = (Resolved (resolved_config email apiKey apiUserServiceKey apiToken
                 (Framework.options p c sdk version
                    (Framework.TerraformVersion req) data w) accountID),
     logged w accountID).
Proof.
  subst diags data retries minBackOff maxBackOff apiKey apiToken
    apiUserServiceKey email accountID.
  intros H1 H2. destruct bounds as (B1 & B2 & B3).
  unfold Framework.resolve, Framework.resolve_account, resolved_config, logged,
    account_option.
  destruct (Framework.Config_Get req) as [ds dt]; cbn [fst snd] in *.
  rewrite decoded. pass_bounds.
  cbv zeta. split_decisions; same_config.
Qed.
End Framework_resolve.

(** ** Bound checks *)

Lemma names_too_large (severity : Severity) (field : string) (value : Z) (detail : string) :
  let diag := mkDiagnostic severity (too_large field value) detail in
  names field diag = true /\ names (pretty value) diag = true.
Proof.
  unfold names; simpl. by rewrite too_large_field, too_large_value.
Qed.

Lemma SDKv2_configure_invalid (p : platform) (c : Consts) (sdk version tf : string)
    (d : SDKv2.ResourceData.t) (w w' : World) (diags : Diagnostics) :
  SDKv2.resolve p c sdk version tf d w = (Invalid diags, w') ->
  forall (API : Type) (Client : Config.t -> World -> (API + string) * World),
    SDKv2.configure p c sdk Client version tf d w = ((None, diags), w').
Proof. intros H API Client. unfold SDKv2.configure. by rewrite H. Qed.

Lemma Framework_Configure_invalid (p : platform) (c : Consts) (sdk version : string)
    (req : Framework.ConfigureRequest) (w w' : World) (diags : Diagnostics) :
  Framework.resolve p c sdk version req w = (Invalid diags, w') ->
  forall (API : Type) (Client : Config.t -> World -> (API + string) * World),
    Framework.Configure p c sdk Client version req w
    = (Framework.mkResponse diags None None, w').
Proof. intros H API Client. unfold Framework.Configure. by rewrite H. Qed.

(** ** Credential modes *)

Lemma modes_zero (a b c : string) :
  length (filter (λ s, s ≠ "") [a; b; c]) = 0%nat <-> a = "" /\ b = "" /\ c = "".
Proof.
  rewrite !filter_cons, filter_nil.
  destruct (decide (a ≠ "")) as [?|?%dec_stable], (decide (b ≠ "")) as [?|?%dec_stable],
    (decide (c ≠ "")) as [?|?%dec_stable]; simpl; split; intros; try done; tauto.
Qed.

Lemma SDKv2_modes_zero (c : Consts) (d : SDKv2.ResourceData.t) (w : World) :
  SDKv2.modes c d w = 0%nat <->
  SDKv2.apiKey c d w = "" /\ SDKv2.apiToken c d w = ""
  /\ SDKv2.apiUserServiceKey c d w = "".
Proof. apply modes_zero. Qed.

Lemma Framework_modes_zero (c : Consts) (data : Framework.CloudflareProviderModel.t)
    (w : World) :
  Framework.modes c data w = 0%nat <->
  Framework.apiKey c data w = "" /\ Framework.apiToken c data w = ""
  /\ Framework.apiUserServiceKey c data w = "".
Proof. apply modes_zero. Qed.

(** C1, as the code has it: with the bound checks passed, no credential mode
    at all fails with the diagnostic that lists the three fields and no
    client is returned; exactly one mode (with the email, when it is the API
    key) passes the credential checks and reaches the configuration of the
    client. *)
Theorem C1_credential_modes (p : platform) (c : Consts) (sdk version tf : string)
    (d : SDKv2.ResourceData.t) (req : Framework.ConfigureRequest) (w : World) :
  lists_credential_fields (SDKv2.error_diag must_provide_one) = true
  /\
  (SDKv2.within_bounds p c d w ->
   (SDKv2.modes c d w = 0%nat ->
    forall (API : Type) (Client : Config.t -> World -> (API + string) * World),
      SDKv2.configure p c sdk Client version tf d w
      = ((None, [SDKv2.error_diag must_provide_one]), w))
   /\
   (SDKv2.modes c d w = 1%nat ->
    (SDKv2.apiKey c d w ≠ "" -> SDKv2.email c d w ≠ "") ->
    SDKv2.resolve p c sdk version tf d w
    = (Resolved
         (resolved_config (SDKv2.email c d w) (SDKv2.apiKey c d w)
            (SDKv2.apiUserServiceKey c d w) (SDKv2.apiToken c d w)
            (SDKv2.options p c sdk version tf d w) (SDKv2.accountID c d w)),
       logged w (SDKv2.accountID c d w))))
  /\
  (let diags := fst (Framework.Config_Get req) in
   let data := snd (Framework.Config_Get req) in
   HasError diags = false -> Framework.within_bounds p c data w ->
   (Framework.modes c data w = 0%nat ->
    forall (API : Type) (Client : Config.t -> World -> (API + string) * World),
      Framework.Configure p c sdk Client version req w
      = (Framework.mkResponse
           (diags ++ [mkDiagnostic Error must_provide_one must_provide_one])%list
           None None, w))
   /\
   (Framework.modes c data w = 1%nat ->
    (Framework.apiKey c data w ≠ "" -> Framework.email c data w ≠ "") ->
    Framework.resolve p c sdk version req w
    = (Resolved
         (resolved_config (Framework.email c data w) (Framework.apiKey c data w)
            (Framework.apiUserServiceKey c data w) (Framework.apiToken c data w)
            (Framework.options p c sdk version (Framework.TerraformVersion req) data w)
            (Framework.accountID c data w)),
       logged w (Framework.accountID c data w)))).
Proof.
  split; [reflexivity |]. split.
  - intros Hb. split.
    + intros (Hk & Ht & Hu)%SDKv2_modes_zero.
      by apply SDKv2_configure_invalid, SDKv2_resolve_none.
    + intros Hm He. apply SDKv2_resolve_some; [done | done |].
      intros H%SDKv2_modes_zero. lia.
  - cbv zeta. intros Hdec Hb. split.
    + intros (Hk & Ht & Hu)%Framework_modes_zero.
      by apply Framework_Configure_invalid, Framework_resolve_none.
    + intros Hm He. apply Framework_resolve_some; [done | done | done |].
      intros H%Framework_modes_zero. lia.
Qed.

Lemma C1_credential_modes_witness :
  (SDKv2.resolve GOARCH64 sample_consts "2.10.1" "test" "1.3.0" Samples.sdk_token w0
   = (Resolved
        (resolved_config "" "" "" sample_token
           (SDKv2.options GOARCH64 sample_consts "2.10.1" "test" "1.3.0"
              Samples.sdk_token w0) ""), w0)
   /\
   Framework.resolve GOARCH64 sample_consts "2.10.1" "test"
     (Samples.request Samples.fw_token) w0
   = (Resolved
        (resolved_config "" "" "" sample_token
           (Framework.options GOARCH64 sample_consts "2.10.1" "test" "1.3.0"
              Samples.fw_token w0) ""), w0))
  /\
  ((forall (API : Type) (Client : Config.t -> World -> (API + string) * World),
      SDKv2.configure GOARCH64 sample_consts "2.10.1" Client "test" "1.3.0"
        SDKv2.unset w0
      = ((None, [SDKv2.error_diag must_provide_one]), w0))
   /\
   (forall (API : Type) (Client : Config.t -> World -> (API + string) * World),
      Framework.Configure GOARCH64 sample_consts "2.10.1" Client "test"
        (Samples.request Framework.null) w0
      = (Framework.mkResponse [mkDiagnostic Error must_provide_one must_provide_one]
           None None, w0))).
Proof.
  destruct (C1_credential_modes GOARCH64 sample_consts "2.10.1" "test" "1.3.0"
              Samples.sdk_token (Samples.request Samples.fw_token) w0)
    as (_ & Hsdk & Hfw).
  destruct (C1_credential_modes GOARCH64 sample_consts "2.10.1" "test" "1.3.0"
              SDKv2.unset (Samples.request Framework.null) w0)
    as (_ & Hsdk0 & Hfw0).
  split; split.
  - apply Hsdk; [by vm_compute | reflexivity | by vm_compute].
  - apply Hfw; [reflexivity | by vm_compute | reflexivity | by vm_compute].
  - apply Hsdk0; [by vm_compute | reflexivity].
  - apply Hfw0; [reflexivity | by vm_compute | reflexivity].
Defined.

(** C1 as stated fails: with a token and a user service key both supplied,
    two modes, the credential checks pass and both reach the configuration
    of the client; with no mode and retries above the bound, the diagnostic
    is the one of retries, which lists none of the three fields. *)
Lemma C1_counterexample :
  (SDKv2.modes sample_consts Samples.sdk_two_modes w0 = 2%nat /\
   exists config,
     SDKv2.resolve GOARCH64 sample_consts "2.10.1" "test" "1.3.0"
       Samples.sdk_two_modes w0 = (Resolved config, w0)
     /\ Config.APIToken config = sample_token
     /\ Config.APIUserServiceKey config = "v1.0-0123456789abcdef")
  /\
  (Framework.modes sample_consts Samples.fw_two_modes w0 = 2%nat /\
   exists config,
     Framework.resolve GOARCH64 sample_consts "2.10.1" "test"
       (Samples.request Samples.fw_two_modes) w0 = (Resolved config, w0)
     /\ Config.APIToken config = sample_token
     /\ Config.APIUserServiceKey config = "v1.0-0123456789abcdef")
  /\
  (SDKv2.modes sample_consts Samples.sdk_no_mode_retries65 w0 = 0%nat /\
   SDKv2.resolve GOARCH64 sample_consts "2.10.1" "test" "1.3.0"
     Samples.sdk_no_mode_retries65 w0
   = (Invalid [SDKv2.error_diag (too_large "retries" 65)], w0)
   /\ lists_credential_fields (SDKv2.error_diag (too_large "retries" 65)) = false).
Proof.
  split; [| split].
  - split; [reflexivity |]. eexists. split; [vm_compute; reflexivity |]. by split.
  - split; [reflexivity |]. eexists. split; [vm_compute; reflexivity |]. by split.
  - split; [reflexivity |]. split; by vm_compute.
Qed.

(** ** The email co-requirement *)

(** C3, as the code has it: with the bound checks passed, an API key
    without an email fails with a diagnostic that names the email field
    and no client is returned; the diagnostic of the framework provider
    names the api_key field too, in its detail. *)
Theorem C3_email_required (p : platform) (c : Consts) (sdk version tf : string)
    (d : SDKv2.ResourceData.t) (req : Framework.ConfigureRequest) (w : World) :
  (SDKv2.within_bounds p c d w ->
   SDKv2.apiKey c d w ≠ "" -> SDKv2.email c d w = "" ->
   let diag := SDKv2.error_diag email_not_set in
   names EmailSchemaKey diag = true /\
   forall (API : Type) (Client : Config.t -> World -> (API + string) * World),
     SDKv2.configure p c sdk Client version tf d w = ((None, [diag]), w))
  /\
  (let diags := fst (Framework.Config_Get req) in
   let data := snd (Framework.Config_Get req) in
   HasError diags = false -> Framework.within_bounds p c data w ->
   Framework.apiKey c data w ≠ "" -> Framework.email c data w = "" ->
   let diag := mkDiagnostic Error email_not_set email_required in
   names EmailSchemaKey diag = true /\ names APIKeySchemaKey diag = true /\
   forall (API : Type) (Client : Config.t -> World -> (API + string) * World),
     Framework.Configure p c sdk Client version req w
     = (Framework.mkResponse (diags ++ [diag])%list None None, w)).
Proof.
  split.
  - intros Hb Hk He. split; [reflexivity |].
    by apply SDKv2_configure_invalid, SDKv2_resolve_email.
  - cbv zeta. intros Hdec Hb Hk He. split; [reflexivity |]. split; [reflexivity |].
    by apply Framework_Configure_invalid, Framework_resolve_email.
Qed.

Lemma C3_email_required_witness :
  (forall (API : Type) (Client : Config.t -> World -> (API + string) * World),
     SDKv2.configure GOARCH64 sample_consts "2.10.1" Client "test" "1.3.0"
       Samples.sdk_key_only w0
     = ((None, [SDKv2.error_diag email_not_set]), w0))
  /\
  (forall (API : Type) (Client : Config.t -> World -> (API + string) * World),
     Framework.Configure GOARCH64 sample_consts "2.10.1" Client "test"
       (Samples.request Samples.fw_key_only) w0
     = (Framework.mkResponse [mkDiagnostic Error email_not_set email_required]
          None None, w0)).
Proof.
  destruct (C3_email_required GOARCH64 sample_consts "2.10.1" "test" "1.3.0"
              Samples.sdk_key_only (Samples.request Samples.fw_key_only) w0)
    as [Hsdk Hfw].
  split.
  - apply Hsdk; [by vm_compute | by vm_compute | reflexivity].
  - apply Hfw; [reflexivity | by vm_compute | by vm_compute | reflexivity].
Defined.

(** C3 as stated fails: the diagnostic of the SDKv2 provider for an API key
    without an email names the email field only, not the api_key field. *)
Lemma C3_counterexample :
  SDKv2.apiKey sample_consts Samples.sdk_key_only w0 = sample_key
  /\ SDKv2.email sample_consts Samples.sdk_key_only w0 = ""
  /\ SDKv2.resolve GOARCH64 sample_consts "2.10.1" "test" "1.3.0"
       Samples.sdk_key_only w0
     = (Invalid [SDKv2.error_diag email_not_set], w0)
  /\ names EmailSchemaKey (SDKv2.error_diag email_not_set) = true
  /\ names APIKeySchemaKey (SDKv2.error_diag email_not_set) = false.
Proof. repeat split; by vm_compute. Qed.

(** ** Precedence *)

Ltac unfold_locals :=
  unfold SDKv2_resolved, SDKv2_set, SDKv2_explicit, Framework_resolved, Framework_set,
    Framework_explicit, of_tfString, of_tfInt64, three_step, read, env_key,
    builtin_default, zero_value,
    SDKv2.baseHostname, SDKv2.basePath, SDKv2.rps, SDKv2.retries, SDKv2.minBackOff,
    SDKv2.maxBackOff, SDKv2.accountID, SDKv2.apiKey, SDKv2.apiToken,
    SDKv2.apiUserServiceKey, SDKv2.email, SDKv2.GetOk_string, SDKv2.GetOk_int,
    SDKv2.Get_string, SDKv2.Get_int,
    Framework.baseHostname, Framework.basePath, Framework.rps, Framework.retries,
    Framework.minBackOff, Framework.maxBackOff, Framework.accountID, Framework.apiKey,
    Framework.apiToken, Framework.apiUserServiceKey, Framework.email,
    GetDefaultFromEnv.

Ltac compute_cases :=
  cbn [fst snd negb fmap option_fmap option_map default Field.is_int
         Framework.String_IsNull Framework.Int64_IsNull
         Framework.ValueString Framework.ValueInt64].

Ltac split_cases :=
  repeat (progress
            (match goal with
             | |- context [default _ ?x] => destruct x
             | |- context [Framework.String_IsNull ?x] => destruct x
             | |- context [Framework.Int64_IsNull ?x] => destruct x
             end; compute_cases));
  repeat first
    [ case_bool_decide
    | case_decide
    | match goal with
      | |- context [environ ?w !! ?k] => destruct (environ w !! k)
      end ];
  compute_cases; try done; try congruence.

Lemma SDKv2_precedence (c : Consts) (f : Field.t) (d : SDKv2.ResourceData.t) (w : World) :
  (f = Field.email -> SDKv2.apiKey c d w ≠ "") ->
  SDKv2_resolved c f d w
  = three_step f (SDKv2_set f d) (environ w !! env_key c f) (builtin_default c f).
Proof.
  intros Hk. destruct f; try (cbn [SDKv2_resolved]; rewrite decide_True by auto);
    clear Hk; unfold_locals; compute_cases; split_cases.
Qed.

Lemma Framework_precedence (c : Consts) (f : Field.t)
    (data : Framework.CloudflareProviderModel.t) (w : World) :
  f ≠ Field.min_backoff -> f ≠ Field.max_backoff ->
  (f = Field.email -> Framework.apiKey c data w ≠ "") ->
  Framework_resolved c f data w
  = three_step f (Framework_set f data) (environ w !! env_key c f) (builtin_default c f).
Proof.
  intros Hmin Hmax Hk.
  destruct f; try done; try (cbn [Framework_resolved]; rewrite decide_True by auto);
    clear Hk; unfold_locals; compute_cases; split_cases.
Qed.

(** C2, as the code has it: every field of the SDKv2 provider, and every
    field of the framework provider other than the two backoffs, resolves by
    the three-step precedence, where a field counts as set when it is set to
    a non-zero value (SDKv2), non-empty (framework hostname and base path)
    or non-null (the other framework fields); the email is resolved only
    when the API key resolved non-empty. *)
Theorem C2_precedence (c : Consts) (f : Field.t) (d : SDKv2.ResourceData.t)
    (data : Framework.CloudflareProviderModel.t) (w : World) :
  ((f = Field.email -> SDKv2.apiKey c d w ≠ "") ->
   SDKv2_resolved c f d w
   = three_step f (SDKv2_set f d) (environ w !! env_key c f) (builtin_default c f))
  /\
  (f ≠ Field.min_backoff -> f ≠ Field.max_backoff ->
   (f = Field.email -> Framework.apiKey c data w ≠ "") ->
   Framework_resolved c f data w
   = three_step f (Framework_set f data) (environ w !! env_key c f)
       (builtin_default c f)).
Proof. split; [apply SDKv2_precedence | apply Framework_precedence]. Qed.

Lemma C2_precedence_witness :
  SDKv2_resolved sample_consts Field.email Samples.sdk_key_only Samples.w_email
  = VString "someone@example.com"
  /\
  Framework_resolved sample_consts Field.email Samples.fw_key_only Samples.w_email
  = VString "someone@example.com".
Proof.
  destruct (C2_precedence sample_consts Field.email Samples.sdk_key_only
              Samples.fw_key_only Samples.w_email) as [Hsdk Hfw].
  split.
  - etrans; [apply Hsdk; intros _; by vm_compute | by vm_compute].
  - etrans; [apply Hfw; [done | done | intros _; by vm_compute] | by vm_compute].
Defined.

(** C2 as stated fails for the email: with a token and no API key, the
    email of the environment is not used, the resolved email is empty and
    so is the email of the client configuration, where the three-step rule
    gives the value of the environment variable. *)
Lemma C2_counterexample :
  SDKv2_resolved sample_consts Field.email Samples.sdk_token Samples.w_email
  = VString ""
  /\
  three_step Field.email (SDKv2_set Field.email Samples.sdk_token)
    (environ Samples.w_email !! env_key sample_consts Field.email)
    (builtin_default sample_consts Field.email)
  = VString "someone@example.com"
  /\
  exists config,
    SDKv2.resolve GOARCH64 sample_consts "2.10.1" "test" "1.3.0" Samples.sdk_token
      Samples.w_email = (Resolved config, Samples.w_email)
    /\ Config.APIToken config = sample_token /\ Config.Email config = "".
Proof.
  split; [by vm_compute |]. split; [by vm_compute |].
  eexists. split; [vm_compute; reflexivity |]. by split.
Qed.

(** ** Explicit zero and empty values *)

Lemma SDKv2_set_zero (f : Field.t) (d : SDKv2.ResourceData.t) :
  SDKv2_explicit f d = Some (zero_value f) -> SDKv2_set f d = None.
Proof.
  unfold SDKv2_set. intros ->. destruct f; unfold zero_value; simpl; first [done | by case_decide].
Qed.

(** C6, as the code has it: in the SDKv2 provider an explicit zero or empty
    string is not told from an unset field, the field resolves from the
    environment or the default; so do an empty hostname and base path in the
    framework provider; the other framework fields, the backoffs apart, use
    an explicit zero or empty string as the resolved value. *)
Theorem C6_explicit_zero (c : Consts) (f : Field.t) (d : SDKv2.ResourceData.t)
    (data : Framework.CloudflareProviderModel.t) (w : World) :
  (SDKv2_explicit f d = Some (zero_value f) ->
   (f = Field.email -> SDKv2.apiKey c d w ≠ "") ->
   SDKv2_resolved c f d w
   = three_step f None (environ w !! env_key c f) (builtin_default c f))
  /\
  (Framework_explicit f data = Some (zero_value f) ->
   match f with
   | Field.api_hostname | Field.api_base_path =>
       Framework_resolved c f data w
       = three_step f None (environ w !! env_key c f) (builtin_default c f)
   | Field.min_backoff | Field.max_backoff => True
   | _ => Framework_resolved c f data w = zero_value f
   end).
Proof.
  split.
  - intros Hz Hk. rewrite SDKv2_precedence by done. by rewrite SDKv2_set_zero.
  - destruct f; try done; unfold_locals; compute_cases; unfold zero_value;
      compute_cases; split_cases.
Qed.

Lemma C6_explicit_zero_witness :
  SDKv2_resolved sample_consts Field.rps Samples.sdk_rps_zero Samples.w_rps = VInt 7
  /\
  Framework_resolved sample_consts Field.rps Samples.fw_rps_zero Samples.w_rps = VInt 0.
Proof.
  destruct (C6_explicit_zero sample_consts Field.rps Samples.sdk_rps_zero
              Samples.fw_rps_zero Samples.w_rps) as [Hsdk Hfw].
  split.
  - etrans; [apply Hsdk; [reflexivity | done] | by vm_compute].
  - apply Hfw. reflexivity.
Defined.

(** C6 as stated fails: the SDKv2 provider, given the rate limit explicitly
    zero, falls back to the environment variable; the framework provider,
    given the hostname explicitly empty, does the same. *)
Lemma C6_counterexample :
  (SDKv2_explicit Field.rps Samples.sdk_rps_zero = Some (VInt 0)
   /\ SDKv2_resolved sample_consts Field.rps Samples.sdk_rps_zero Samples.w_rps
      = VInt 7)
  /\
  (Framework_explicit Field.api_hostname Samples.fw_hostname_empty = Some (VString "")
   /\ Framework_resolved sample_consts Field.api_hostname Samples.fw_hostname_empty
        Samples.w_hostname
      = VString "api.example.com").
Proof. repeat split; by vm_compute. Qed.

(** ** Integers from the environment *)

Lemma three_step_env (f : Field.t) (s default : string) :
  s ≠ "" -> three_step f None (Some s) default = read f s.
Proof. intros H. unfold three_step. by rewrite decide_True. Qed.

Lemma read_malformed (f : Field.t) (s : string) :
  Field.is_int f = true -> malformed s -> read f s = VInt 0.
Proof. intros Hf Hs. unfold read. by rewrite Hf, ParseInt_malformed. Qed.

Lemma read_valid (f : Field.t) (s : string) :
  Field.is_int f = true -> valid_int_syntax s = true ->
  read f s = VInt (clamp64 (int_value s)).
Proof. intros Hf Hs. unfold read. by rewrite Hf, ParseInt_valid. Qed.

Lemma clamp64_above (v : Z) : v > MaxInt64 -> clamp64 v = MaxInt64.
Proof. unfold clamp64. intros H. destruct (Z.gtb_spec v MaxInt64); [done | lia]. Qed.

Lemma clamp64_below (v : Z) : v < MinInt64 -> clamp64 v = MinInt64.
Proof.
  unfold clamp64. intros H.
  assert (MinInt64 < MaxInt64) by done.
  destruct (Z.gtb_spec v MaxInt64); [lia |].
  destruct (Z.ltb_spec v MinInt64); [done | lia].
Qed.

Lemma Framework_env_branch (c : Consts) (f : Field.t)
    (data : Framework.CloudflareProviderModel.t) (w : World) :
  Field.is_int f = true -> Framework_explicit (Framework_tested f) data = None ->
  Framework_resolved c f data w
  = three_step f None (environ w !! env_key c f) (builtin_default c f).
Proof.
  intros Hf. destruct f; try done; unfold Framework_tested;
    unfold_locals; compute_cases; split_cases.
Qed.

(** ** The backoff branches of the framework provider *)

(** C10: in the framework provider both backoff branches test the
    min_backoff attribute and read the max_backoff attribute.  When
    min_backoff is not null, both resolved backoffs are the value of
    max_backoff (0 when it is null), whatever the value of min_backoff and
    the environment; when min_backoff is null, both come from their
    environment variable or default, whatever max_backoff is. *)
Theorem C10_backoff_branches (c : Consts)
    (data data' : Framework.CloudflareProviderModel.t) (w w' : World) :
  (Framework.Int64_IsNull (Framework.CloudflareProviderModel.MinBackOff data) = false ->
   let max_backoff :=
     Framework.ValueInt64 (Framework.CloudflareProviderModel.MaxBackoff data) in
   Framework.minBackOff c data w = max_backoff
   /\ Framework.maxBackOff c data w = max_backoff
   /\ (Framework.CloudflareProviderModel.MaxBackoff data = Framework.Int64Null ->
       max_backoff = 0)
   /\ (Framework.Int64_IsNull (Framework.CloudflareProviderModel.MinBackOff data')
       = false ->
       Framework.CloudflareProviderModel.MaxBackoff data'
       = Framework.CloudflareProviderModel.MaxBackoff data ->
       Framework.minBackOff c data' w' = Framework.minBackOff c data w
       /\ Framework.maxBackOff c data' w' = Framework.maxBackOff c data w))
  /\
  (Framework.CloudflareProviderModel.MinBackOff data = Framework.Int64Null ->
   Framework_resolved c Field.min_backoff data w
   = three_step Field.min_backoff None (environ w !! env_key c Field.min_backoff)
       (builtin_default c Field.min_backoff)
   /\ Framework_resolved c Field.max_backoff data w
      = three_step Field.max_backoff None (environ w !! env_key c Field.max_backoff)
          (builtin_default c Field.max_backoff)).
Proof.
  split.
  - intros Hmin. unfold Framework.minBackOff, Framework.maxBackOff. rewrite Hmin.
    cbn [negb]. split; [reflexivity |]. split; [reflexivity |]. split.
    + by intros ->.
    + intros Hmin' ->. by rewrite Hmin'.
  - intros Hmin. split; apply Framework_env_branch; try done;
      unfold Framework_tested, Framework_explicit, of_tfInt64; by rewrite Hmin.
Qed.

Lemma C10_backoff_branches_witness :
  (Framework.minBackOff sample_consts Samples.fw_min_only w0 = 0
   /\ Framework.maxBackOff sample_consts Samples.fw_min_only w0 = 0)
  /\
  (Framework_resolved sample_consts Field.min_backoff Samples.fw_max_only w0 = VInt 1
   /\ Framework_resolved sample_consts Field.max_backoff Samples.fw_max_only w0
      = VInt 30).
Proof.
  destruct (C10_backoff_branches sample_consts Samples.fw_min_only Samples.fw_min_only
              w0 w0) as [Hset _].
  destruct (C10_backoff_branches sample_consts Samples.fw_max_only Samples.fw_max_only
              w0 w0) as [_ Hnull].
  split.
  - destruct Hset as (Hmin & Hmax & _); [reflexivity |]. by split.
  - destruct Hnull as (Hmin & Hmax); [reflexivity |].
    split; (etrans; [eassumption | by vm_compute]).
Defined.

(** ** Both bodies as one function of the locals *)

Lemma SDKv2_resolve_shape (p : platform) (c : Consts) (sdk version tf : string)
    (d : SDKv2.ResourceData.t) (w : World) :
  SDKv2.resolve p c sdk version tf d w
  = resolution_of p (λ summary _, [SDKv2.error_diag summary])
      (SDKv2.retries c d w) (SDKv2.minBackOff c d w) (SDKv2.maxBackOff c d w)
      (SDKv2.email c d w) (SDKv2.apiKey c d w) (SDKv2.apiUserServiceKey c d w)
      (SDKv2.apiToken c d w) (SDKv2.accountID c d w)
      (SDKv2.options p c sdk version tf d w) w.
Proof.
  unfold resolution_of.
  destruct (Z.gtb_spec (SDKv2.retries c d w) (IntSize p)) as [H1|H1];
    [apply SDKv2_resolve_retries; lia |].
  destruct (Z.gtb_spec (SDKv2.minBackOff c d w) (IntSize p)) as [H2|H2];
    [apply SDKv2_resolve_min_backoff; lia |].
  destruct (Z.gtb_spec (SDKv2.maxBackOff c d w) (IntSize p)) as [H3|H3];
    [apply SDKv2_resolve_max_backoff; lia |].
  destruct (decide (SDKv2.apiKey c d w ≠ "" /\ SDKv2.email c d w = "")) as [[Hk He]|Hke];
    [apply SDKv2_resolve_email; first [done | lia] |].
  destruct (decide (SDKv2.apiKey c d w = "" /\ SDKv2.apiToken c d w = ""
                    /\ SDKv2.apiUserServiceKey c d w = "")) as [(Hk & Ht & Hu)|Hnone];
    [apply SDKv2_resolve_none; first [done | lia] |].
  apply SDKv2_resolve_some; [lia | | done].
  intros Hk He. by apply Hke.
Qed.

Lemma Framework_resolve_shape (p : platform) (c : Consts) (sdk version : string)
    (req : Framework.ConfigureRequest) (w : World) :
  let diags := fst (Framework.Config_Get req) in
  let data := snd (Framework.Config_Get req) in
  Framework.resolve p c sdk version req w
  = if HasError diags then (Invalid diags, w)
    else
      resolution_of p (Framework.AddError diags)
        (Framework.retries c data w) (Framework.minBackOff c data w)
        (Framework.maxBackOff c data w)
        (Framework.email c data w) (Framework.apiKey c data w)
        (Framework.apiUserServiceKey c data w) (Framework.apiToken c data w)
        (Framework.accountID c data w)
        (Framework.options p c sdk version (Framework.TerraformVersion req) data w) w.
Proof.
  cbv zeta. destruct (HasError (fst (Framework.Config_Get req))) eqn:Hdec.
  { by apply Framework_resolve_decode. }
  unfold resolution_of.
  destruct (Z.gtb_spec (Framework.retries c (snd (Framework.Config_Get req)) w) (IntSize p)) as [H1|H1];
    [apply Framework_resolve_retries; first [done | lia] |].
  destruct (Z.gtb_spec (Framework.minBackOff c (snd (Framework.Config_Get req)) w) (IntSize p)) as [H2|H2];
    [apply Framework_resolve_min_backoff; first [done | lia] |].
  destruct (Z.gtb_spec (Framework.maxBackOff c (snd (Framework.Config_Get req)) w) (IntSize p)) as [H3|H3];
    [apply Framework_resolve_max_backoff; first [done | lia] |].
  destruct (decide (Framework.apiKey c (snd (Framework.Config_Get req)) w ≠ "" /\ Framework.email c (snd (Framework.Config_Get req)) w = ""))
    as [[Hk He]|Hke]; [apply Framework_resolve_email; first [done | lia] |].
  destruct (decide (Framework.apiKey c (snd (Framework.Config_Get req)) w = "" /\ Framework.apiToken c (snd (Framework.Config_Get req)) w = ""
                    /\ Framework.apiUserServiceKey c (snd (Framework.Config_Get req)) w = ""))
    as [(Hk & Ht & Hu)|Hnone]; [apply Framework_resolve_none; first [done | lia] |].
  apply Framework_resolve_some; [done | lia | | done].
  intros Hk He. by apply Hke.
Qed.

Lemma resolution_of_world (p : platform) (diag_of : string -> string -> Diagnostics)
    (r mn mx : Z) (e k u t a : string) (o : list Option) (w w' : World) :
  fst (resolution_of p diag_of r mn mx e k u t a o w)
  = fst (resolution_of p diag_of r mn mx e k u t a o w').
Proof. unfold resolution_of. by repeat case_match. Qed.

Lemma resolution_of_after (p : platform) (diag_of : string -> string -> Diagnostics)
    (r mn mx : Z) (e k u t a : string) (o : list Option) (w : World) :
  snd (resolution_of p diag_of r mn mx e k u t a o w) = w
  \/ exists msg, snd (resolution_of p diag_of r mn mx e k u t a o w) = tflog_Info w msg.
Proof.
  unfold resolution_of, logged. repeat case_match; simpl; eauto.
Qed.

(** ** The process after the checks *)

Lemma SDKv2_resolve_tflog (p : platform) (c : Consts) (sdk version tf : string)
    (d : SDKv2.ResourceData.t) (w : World) (msg : string) :
  fst (SDKv2.resolve p c sdk version tf d (tflog_Info w msg))
  = fst (SDKv2.resolve p c sdk version tf d w).
Proof.
  rewrite !SDKv2_resolve_shape.
  rewrite (resolution_of_world _ _ _ _ _ _ _ _ _ _ _ (tflog_Info w msg) w).
  reflexivity.
Qed.

Lemma Framework_resolve_tflog (p : platform) (c : Consts) (sdk version : string)
    (req : Framework.ConfigureRequest) (w : World) (msg : string) :
  fst (Framework.resolve p c sdk version req (tflog_Info w msg))
  = fst (Framework.resolve p c sdk version req w).
Proof.
  rewrite !Framework_resolve_shape. cbv zeta.
  destruct (HasError (fst (Framework.Config_Get req))); [done |].
  rewrite (resolution_of_world _ _ _ _ _ _ _ _ _ _ _ (tflog_Info w msg) w).
  reflexivity.
Qed.

Lemma SDKv2_resolve_after (p : platform) (c : Consts) (sdk version tf : string)
    (d : SDKv2.ResourceData.t) (w : World) :
  snd (SDKv2.resolve p c sdk version tf d w) = w
  \/ exists msg, snd (SDKv2.resolve p c sdk version tf d w) = tflog_Info w msg.
Proof. rewrite SDKv2_resolve_shape. apply resolution_of_after. Qed.

Lemma Framework_resolve_after (p : platform) (c : Consts) (sdk version : string)
    (req : Framework.ConfigureRequest) (w : World) :
  snd (Framework.resolve p c sdk version req w) = w
  \/ exists msg, snd (Framework.resolve p c sdk version req w) = tflog_Info w msg.
Proof.
  rewrite Framework_resolve_shape. cbv zeta.
  destruct (HasError (fst (Framework.Config_Get req))); [by left |].
  apply resolution_of_after.
Qed.

(** ** The rate limit *)

Lemma resolution_of_options (p : platform) (diag_of : string -> string -> Diagnostics)
    (r mn mx : Z) (e k u t a : string) (o o' : list Option) (w : World) :
  match resolution_of p diag_of r mn mx e k u t a o w with
  | (Invalid diags, w') =>
      resolution_of p diag_of r mn mx e k u t a o' w = (Invalid diags, w')
  | (Resolved config, w') =>
      Config.Options config = (o ++ account_option a)%list
      /\ resolution_of p diag_of r mn mx e k u t a o' w
         = (Resolved (Config.set_Options (o' ++ account_option a)%list config), w')
  end.
Proof.
  unfold resolution_of.
  destruct (r >? IntSize p); [done |]. destruct (mn >? IntSize p); [done |].
  destruct (mx >? IntSize p); [done |].
  destruct (decide (k ≠ "" /\ e = "")); [done |].
  destruct (decide (k = "" /\ t = "" /\ u = "")); [done |].
  by split.
Qed.

Lemma SDKv2_with_rps_options (p : platform) (c : Consts) (sdk version tf : string)
    (d : SDKv2.ResourceData.t) (w : World) (r : Z) :
  r ≠ 0 ->
  SDKv2.options p c sdk version tf (SDKv2_with_rps (Some r) d) w
  = UsingRateLimit (float64_of_int64 r) :: tail (SDKv2.options p c sdk version tf d w).
Proof.
  intros Hr. destruct d. unfold SDKv2.options, SDKv2.rps, SDKv2.GetOk_int.
  cbn [SDKv2_with_rps SDKv2.ResourceData.rps SDKv2.Get_int default snd].
  by rewrite (bool_decide_eq_true_2 (r ≠ 0)).
Qed.

Lemma SDKv2_rps_unbounded (p : platform) (c : Consts) (sdk version tf : string)
    (d : SDKv2.ResourceData.t) (w : World) (r : Z) :
  r ≠ 0 ->
  match SDKv2.resolve p c sdk version tf d w with
  | (Invalid diags, w') =>
      SDKv2.resolve p c sdk version tf (SDKv2_with_rps (Some r) d) w
      = (Invalid diags, w')
  | (Resolved config, w') =>
      SDKv2.resolve p c sdk version tf (SDKv2_with_rps (Some r) d) w
      = (Resolved
           (Config.set_Options (UsingRateLimit (float64_of_int64 r) :: tail (Config.Options config))
              config), w')
  end.
Proof.
  intros Hr. rewrite !SDKv2_resolve_shape, SDKv2_with_rps_options by done.
  replace (SDKv2.retries c (SDKv2_with_rps (Some r) d) w) with (SDKv2.retries c d w)
    by (by destruct d).
  replace (SDKv2.minBackOff c (SDKv2_with_rps (Some r) d) w)
    with (SDKv2.minBackOff c d w) by (by destruct d).
  replace (SDKv2.maxBackOff c (SDKv2_with_rps (Some r) d) w)
    with (SDKv2.maxBackOff c d w) by (by destruct d).
  replace (SDKv2.email c (SDKv2_with_rps (Some r) d) w) with (SDKv2.email c d w)
    by (by destruct d).
  replace (SDKv2.apiKey c (SDKv2_with_rps (Some r) d) w) with (SDKv2.apiKey c d w)
    by (by destruct d).
  replace (SDKv2.apiUserServiceKey c (SDKv2_with_rps (Some r) d) w)
    with (SDKv2.apiUserServiceKey c d w) by (by destruct d).
  replace (SDKv2.apiToken c (SDKv2_with_rps (Some r) d) w) with (SDKv2.apiToken c d w)
    by (by destruct d).
  replace (SDKv2.accountID c (SDKv2_with_rps (Some r) d) w)
    with (SDKv2.accountID c d w) by (by destruct d).
  pose proof (resolution_of_options p (λ summary _, [SDKv2.error_diag summary])
                (SDKv2.retries c d w) (SDKv2.minBackOff c d w) (SDKv2.maxBackOff c d w)
                (SDKv2.email c d w) (SDKv2.apiKey c d w)
                (SDKv2.apiUserServiceKey c d w) (SDKv2.apiToken c d w)
                (SDKv2.accountID c d w) (SDKv2.options p c sdk version tf d w)
                (UsingRateLimit (float64_of_int64 r)
                 :: tail (SDKv2.options p c sdk version tf d w)) w)
    as H.
  destruct (resolution_of _ _ _ _ _ _ _ _ _ _ (SDKv2.options p c sdk version tf d w) w)
    as [[diags | config] w']; [exact H |].
  destruct H as [Ho ->]. by rewrite Ho.
Qed.

Lemma Framework_with_RPS_options (p : platform) (c : Consts) (sdk version tfv : string)
    (data : Framework.CloudflareProviderModel.t) (w : World) (r : Z) :
  Framework.options p c sdk version tfv
    (Framework_with_RPS (Framework.Int64Value r) data) w
  = UsingRateLimit (float64_of_int64 r) :: tail (Framework.options p c sdk version tfv data w).
Proof. by destruct data. Qed.

Lemma Framework_rps_unbounded (p : platform) (c : Consts) (sdk version : string)
    (req : Framework.ConfigureRequest) (w : World) (r : Z) :
  let req' :=
    with_data (Framework_with_RPS (Framework.Int64Value r)
                 (snd (Framework.Config_Get req))) req in
  match Framework.resolve p c sdk version req w with
  | (Invalid diags, w') =>
      Framework.resolve p c sdk version req' w = (Invalid diags, w')
  | (Resolved config, w') =>
      Framework.resolve p c sdk version req' w
      = (Resolved
           (Config.set_Options (UsingRateLimit (float64_of_int64 r) :: tail (Config.Options config))
              config), w')
  end.
Proof.
  cbv zeta. rewrite !Framework_resolve_shape. cbv zeta. unfold with_data.
  cbn [Framework.Config_Get Framework.TerraformVersion fst snd].
  destruct (HasError (fst (Framework.Config_Get req))); [done |].
  rewrite Framework_with_RPS_options.
  set (data := snd (Framework.Config_Get req)).
  replace (Framework.retries c (Framework_with_RPS (Framework.Int64Value r) data) w)
    with (Framework.retries c data w) by (by destruct data).
  replace (Framework.minBackOff c (Framework_with_RPS (Framework.Int64Value r) data) w)
    with (Framework.minBackOff c data w) by (by destruct data).
  replace (Framework.maxBackOff c (Framework_with_RPS (Framework.Int64Value r) data) w)
    with (Framework.maxBackOff c data w) by (by destruct data).
  replace (Framework.email c (Framework_with_RPS (Framework.Int64Value r) data) w)
    with (Framework.email c data w) by (by destruct data).
  replace (Framework.apiKey c (Framework_with_RPS (Framework.Int64Value r) data) w)
    with (Framework.apiKey c data w) by (by destruct data).
  replace (Framework.apiUserServiceKey c
             (Framework_with_RPS (Framework.Int64Value r) data) w)
    with (Framework.apiUserServiceKey c data w) by (by destruct data).
  replace (Framework.apiToken c (Framework_with_RPS (Framework.Int64Value r) data) w)
    with (Framework.apiToken c data w) by (by destruct data).
  replace (Framework.accountID c (Framework_with_RPS (Framework.Int64Value r) data) w)
    with (Framework.accountID c data w) by (by destruct data).
  pose proof (resolution_of_options p
                (Framework.AddError (fst (Framework.Config_Get req)))
                (Framework.retries c data w) (Framework.minBackOff c data w)
                (Framework.maxBackOff c data w) (Framework.email c data w)
                (Framework.apiKey c data w) (Framework.apiUserServiceKey c data w)
                (Framework.apiToken c data w) (Framework.accountID c data w)
                (Framework.options p c sdk version (Framework.TerraformVersion req)
                   data w)
                (UsingRateLimit (float64_of_int64 r)
                 :: tail (Framework.options p c sdk version
                            (Framework.TerraformVersion req) data w)) w) as H.
  destruct (resolution_of _ _ _ _ _ _ _ _ _ _
              (Framework.options p c sdk version (Framework.TerraformVersion req)
                 data w) w) as [[diags | config] w']; [exact H |].
  destruct H as [Ho ->]. by rewrite Ho.
Qed.

(** [float64(x)] keeps every integer of at most 53 bits, and 2^53. *)
Lemma float64_of_int64_exact (z : Z) : Z.abs z <= 2 ^ 53 -> float64_of_int64 z = z.
Proof.
  intros Hz. unfold float64_of_int64. cbv zeta.
  destruct (Z.ltb_spec (Z.abs z) (2 ^ 53)) as [Hlt | Hge]; [done |].
  assert (Z.abs z = 2 ^ 53) as Ha by lia. rewrite Ha.
  change (Z.log2 (2 ^ 53) - 52) with 1.
  change (2 ^ 53 mod 2 ^ 1) with 0. change (2 ^ 53 / 2 ^ 1) with (2 ^ 52).
  change (2 ^ (1 - 1)) with 1. cbn [Z.gtb Z.eqb Z.compare orb andb].
  change (2 ^ 52 * 2 ^ 1) with (2 ^ 53). rewrite <- Ha. lia.
Qed.

(** Beyond that it rounds: by at most half a unit of the last of the 53
    bits, which for an [int64] is at most 1024. *)
Lemma float64_of_int64_near (z : Z) :
  MinInt64 <= z <= MaxInt64 -> Z.abs (float64_of_int64 z - z) <= 1024.
Proof.
  intros Hz. unfold float64_of_int64. cbv zeta.
  destruct (Z.ltb_spec (Z.abs z) (2 ^ 53)) as [Hlt | Hge]; [lia |].
  set (a := Z.abs z) in *.
  assert (a <= 2 ^ 63) as Hmax by (unfold a, MinInt64, MaxInt64 in *; lia).
  assert (53 <= Z.log2 a <= 63) as Hlog.
  { split; [apply Z.log2_le_pow2; lia |].
    transitivity (Z.log2 (2 ^ 63)); [apply Z.log2_le_mono; lia |].
    by rewrite Z.log2_pow2. }
  set (e := Z.log2 a - 52).
  assert (1 <= e <= 11) as He by (unfold e; lia).
  assert (2 ^ e = 2 * 2 ^ (e - 1)) as Hpow.
  { rewrite <- Z.pow_succ_r by lia. f_equal. lia. }
  assert (0 < 2 ^ (e - 1) <= 1024) as Hhalf.
  { split; [apply Z.pow_pos_nonneg; lia |].
    change 1024 with (2 ^ 10). apply Z.pow_le_mono_r; lia. }
  pose proof (Z.div_mod a (2 ^ e) ltac:(lia)) as Hdiv.
  pose proof (Z.mod_pos_bound a (2 ^ e) ltac:(lia)) as Hmod.
  set (q := a / 2 ^ e) in *. set (r := a mod 2 ^ e) in *.
  set (half := 2 ^ (e - 1)) in *.
  assert (forall q', Z.abs (q' * 2 ^ e - a) <= 1024 ->
                     Z.abs (Z.sgn z * (q' * 2 ^ e) - z) <= 1024) as Hsign.
  { intros q' Hq'. unfold a in *. destruct (Z.sgn_spec z) as [[? ->] | [[? ->] | [? ->]]]; lia. }
  destruct ((r >? half) || ((r =? half) && Z.odd q)) eqn:Hup; apply Hsign.
  - assert (half <= r) as Hr.
    { apply orb_true_iff in Hup as [Hgt%Z.gtb_lt | [Heq%Z.eqb_eq _]%andb_true_iff]; lia. }
    nia.
  - assert (r <= half) as Hr.
    { apply orb_false_iff in Hup as [Hgt _]. destruct (Z.gtb_spec r half); [done | lia]. }
    nia.
Qed.

(** C5, as the code has it: the rate limit has no bound check.  Replacing
    the explicit rps by any value (non-zero for the SDKv2 provider, where
    zero counts as unset) changes nothing of the outcome of resolution but
    the rate-limit option, which carries [float64(rps)]: the value itself up
    to 2^53 in magnitude, and for an [int64] beyond that a number within
    1024 of it. *)
Theorem C5_rps_unbounded (p : platform) (c : Consts) (sdk version tf : string)
    (d : SDKv2.ResourceData.t) (req : Framework.ConfigureRequest) (w : World) (r : Z) :
  (r ≠ 0 ->
   match SDKv2.resolve p c sdk version tf d w with
   | (Invalid diags, w') =>
       SDKv2.resolve p c sdk version tf (SDKv2_with_rps (Some r) d) w
       = (Invalid diags, w')
   | (Resolved config, w') =>
       SDKv2.resolve p c sdk version tf (SDKv2_with_rps (Some r) d) w
       = (Resolved
            (Config.set_Options
               (UsingRateLimit (float64_of_int64 r) :: tail (Config.Options config))
               config), w')
   end)
  /\
  (let req' :=
     with_data (Framework_with_RPS (Framework.Int64Value r)
                  (snd (Framework.Config_Get req))) req in
   match Framework.resolve p c sdk version req w with
   | (Invalid diags, w') =>
       Framework.resolve p c sdk version req' w = (Invalid diags, w')
   | (Resolved config, w') =>
       Framework.resolve p c sdk version req' w
       = (Resolved
            (Config.set_Options
               (UsingRateLimit (float64_of_int64 r) :: tail (Config.Options config))
               config), w')
   end)
  /\ (Z.abs r <= 2 ^ 53 -> float64_of_int64 r = r)
  /\ (MinInt64 <= r <= MaxInt64 -> Z.abs (float64_of_int64 r - r) <= 1024).
Proof.
  split; [apply SDKv2_rps_unbounded |]. split; [apply Framework_rps_unbounded |].
  split; [apply float64_of_int64_exact | apply float64_of_int64_near].
Qed.

Lemma C5_rps_unbounded_witness :
  SDKv2.resolve GOARCH64 sample_consts "2.10.1" "test" "1.3.0"
    (SDKv2_with_rps (Some 1000) Samples.sdk_token) w0
  = (Resolved
       (Config.mk "" "" "" sample_token
          [UsingRateLimit 1000; UsingRetryPolicy 3 1 30;
           BaseURL "https://api.cloudflare.com/client/v4"; Debug false;
           UserAgent (UserAgentDefault sample_consts "1.3.0" "2.10.1" "test")]), w0).
Proof.
  destruct (C5_rps_unbounded GOARCH64 sample_consts "2.10.1" "test" "1.3.0"
              Samples.sdk_token (Samples.request Samples.fw_token) w0 1000)
    as [Hsdk _].
  exact (Hsdk ltac:(done)).
Defined.

(** C5 as stated fails: a rate limit far above the integer-width bound
    passes resolution in both providers and reaches the rate-limit option,
    here unchanged. *)
Lemma C5_counterexample :
  (1000 >? IntSize GOARCH64) = true
  /\
  (SDKv2.rps sample_consts (SDKv2_with_rps (Some 1000) Samples.sdk_token) w0 = 1000
   /\ exists config,
        SDKv2.resolve GOARCH64 sample_consts "2.10.1" "test" "1.3.0"
          (SDKv2_with_rps (Some 1000) Samples.sdk_token) w0 = (Resolved config, w0)
        /\ head (Config.Options config) = Some (UsingRateLimit 1000))
  /\
  (Framework.rps sample_consts
     (Framework_with_RPS (Framework.Int64Value 1000) Samples.fw_token) w0 = 1000
   /\ exists config,
        Framework.resolve GOARCH64 sample_consts "2.10.1" "test"
          (Samples.request
             (Framework_with_RPS (Framework.Int64Value 1000) Samples.fw_token)) w0
        = (Resolved config, w0)
        /\ head (Config.Options config) = Some (UsingRateLimit 1000)).
Proof.
  split; [reflexivity |]. split.
  - split; [reflexivity |]. eexists. split; [vm_compute; reflexivity | reflexivity].
  - split; [reflexivity |]. eexists. split; [vm_compute; reflexivity | reflexivity].
Qed.

(** ** Bound checks: the failure *)

Lemma Framework_backoff_precedence (c : Consts) (f : Field.t)
    (data : Framework.CloudflareProviderModel.t) (w : World) :
  Framework.CloudflareProviderModel.MinBackOff data
  = Framework.CloudflareProviderModel.MaxBackoff data ->
  f = Field.min_backoff \/ f = Field.max_backoff ->
  Framework_resolved c f data w
  = three_step f (Framework_set f data) (environ w !! env_key c f) (builtin_default c f).
Proof.
  intros Hsame [-> | ->]; destruct data as [k u e mn rp a b t r mx l h];
    cbn in Hsame; subst mx; destruct mn; unfold_locals;
    cbn [Framework.CloudflareProviderModel.MinBackOff
           Framework.CloudflareProviderModel.MaxBackoff];
    compute_cases; split_cases.
Qed.




(** ** Integers from the environment: what the text resolves to *)

Lemma ParseUint_loop_overflow (ds rest : string) (n : Z) :
  all_digits ds = true -> 0 <= n <= maxUint64 -> decimal n ds > maxUint64 ->
  ParseUint_loop n (ds +:+ rest) = (maxUint64, Some ErrRange).
Proof.
  revert n. induction ds as [|c ds IH]; intros n Hs Hn Hover; simpl in *; [lia |].
  apply andb_true_iff in Hs as [Hc Hs].
  destruct (digit_of_byte_digit c Hc) as [-> Hd].
  unfold maxUint64 in *.
  change (2 ^ 64) with 18446744073709551616 in *.
  change ((18446744073709551616 - 1) / 10 + 1) with 1844674407370955162.
  destruct (Z.geb_spec (byte c - 48) 10) as [?|_]; [lia |].
  destruct (Z.geb_spec n 1844674407370955162) as [Hcut|Hcut]; [done |].
  destruct (Z_lt_dec (n * 10 + (byte c - 48)) 18446744073709551616) as [Hfit|Hwrap].
  - rewrite Z.mod_small by lia.
    destruct (Z.ltb_spec (n * 10 + (byte c - 48)) (n * 10)) as [?|_]; [lia |].
    destruct (Z.gtb_spec (n * 10 + (byte c - 48)) (18446744073709551616 - 1)) as [?|_];
      [lia |].
    simpl. apply IH; [done | lia | done].
  - replace ((n * 10 + (byte c - 48)) mod 18446744073709551616)
      with (n * 10 + (byte c - 48) - 18446744073709551616).
    2:{ apply Z.mod_unique with 1; lia. }
    destruct (Z.ltb_spec (n * 10 + (byte c - 48) - 18446744073709551616) (n * 10))
      as [_|?]; [done | lia].
Qed.

Lemma ParseUint_overflowing (s : string) :
  unsigned_overflowing s -> ParseUint s = (maxUint64, Some ErrRange).
Proof.
  intros (ds & rest & -> & Hds & Hover).
  assert (ds ≠ "") as Hne.
  { intros ->. cbn in Hover. unfold maxUint64 in Hover. lia. }
  assert (ParseUint (ds +:+ rest) = ParseUint_loop 0 (ds +:+ rest)) as ->
    by (by destruct ds).
  apply ParseUint_loop_overflow; [done | | done]. unfold maxUint64. lia.
Qed.

Lemma ParseInt_overflowing (s : string) :
  overflowing s ->
  ParseInt s = (if negative s then MinInt64 else MaxInt64, Some ErrRange).
Proof.
  destruct s as [|c s']; [done |]. unfold overflowing, is_sign, ParseInt, negative.
  destruct (Ascii.eqb c "+") eqn:Ep; cbn [orb].
  { intros H. rewrite (ParseUint_overflowing _ H).
    assert (Ascii.eqb c "-" = false) as ->.
    { apply Ascii.eqb_eq in Ep as ->. done. }
    done. }
  destruct (Ascii.eqb c "-") eqn:Em; cbn [orb].
  { intros H. by rewrite (ParseUint_overflowing _ H). }
  intros H. by rewrite (ParseUint_overflowing _ H).
Qed.

Lemma read_from_env_text (f : Field.t) (s : string) :
  Field.is_int f = true -> from_env_text s (read f s).
Proof.
  intros Hf. split; [| split; [| split]].
  - by apply read_malformed.
  - intros Hv Hbig. by rewrite read_valid, clamp64_above.
  - intros Hv Hsmall. by rewrite read_valid, clamp64_below.
  - intros Hover. unfold read. by rewrite Hf, ParseInt_overflowing.
Qed.

(** ** Integers from the environment: a malformed text counts as 0 *)

Lemma GetDefaultFromEnv_setenv_ne (w : World) (key value key' default : string) :
  key' ≠ key ->
  GetDefaultFromEnv (setenv key value w) key' default = GetDefaultFromEnv w key' default.
Proof.
  intros Hne. unfold GetDefaultFromEnv, setenv. cbn [environ].
  by rewrite lookup_insert_ne.
Qed.

Lemma ParseInt_setenv_zero (w : World) (key s key' default : string) :
  environ w !! key = Some s -> s ≠ "" -> malformed s ->
  fst (ParseInt (GetDefaultFromEnv (setenv key "0" w) key' default))
  = fst (ParseInt (GetDefaultFromEnv w key' default)).
Proof.
  intros Henv Hs Hbad. destruct (decide (key' = key)) as [-> | Hne].
  - unfold GetDefaultFromEnv, setenv. cbn [environ].
    rewrite lookup_insert_eq, Henv, !decide_True by done.
    by rewrite (ParseInt_malformed s) by done.
  - by rewrite GetDefaultFromEnv_setenv_ne.
Qed.

Section malformed_as_zero.
Variables (p : platform) (c : Consts) (sdk version tf : string).
Variables (f : Field.t) (w : World) (s : string).
Hypothesis in_env : environ w !! env_key c f = Some s.
Hypothesis not_empty : s ≠ "".
Hypothesis bad : malformed s.
Hypothesis apart : own_key c f.

Let w' := setenv (env_key c f) "0" w.

Lemma SDKv2_locals_zero (d : SDKv2.ResourceData.t) :
  SDKv2.rps c d w' = SDKv2.rps c d w
  /\ SDKv2.retries c d w' = SDKv2.retries c d w
  /\ SDKv2.minBackOff c d w' = SDKv2.minBackOff c d w
  /\ SDKv2.maxBackOff c d w' = SDKv2.maxBackOff c d w
  /\ SDKv2.baseHostname c d w' = SDKv2.baseHostname c d w
  /\ SDKv2.basePath c d w' = SDKv2.basePath c d w
  /\ SDKv2.apiToken c d w' = SDKv2.apiToken c d w
  /\ SDKv2.apiKey c d w' = SDKv2.apiKey c d w
  /\ SDKv2.email c d w' = SDKv2.email c d w
  /\ SDKv2.apiUserServiceKey c d w' = SDKv2.apiUserServiceKey c d w
  /\ SDKv2.accountID c d w' = SDKv2.accountID c d w.
Proof.
  assert (forall g default, Field.is_int g = false ->
            GetDefaultFromEnv w' (env_key c g) default
            = GetDefaultFromEnv w (env_key c g) default) as Htext.
  { intros g default Hg. apply GetDefaultFromEnv_setenv_ne. by apply apart. }
  assert (forall key default,
            fst (ParseInt (GetDefaultFromEnv w' key default))
            = fst (ParseInt (GetDefaultFromEnv w key default))) as Hint.
  { intros key default. by apply (ParseInt_setenv_zero w (env_key c f) s). }
  unfold SDKv2.rps, SDKv2.retries, SDKv2.minBackOff, SDKv2.maxBackOff,
    SDKv2.baseHostname, SDKv2.basePath, SDKv2.apiToken, SDKv2.apiKey, SDKv2.email,
    SDKv2.apiUserServiceKey, SDKv2.accountID.
  rewrite !Hint.
  rewrite (Htext Field.api_hostname), (Htext Field.api_base_path),
    (Htext Field.api_token), (Htext Field.api_key), (Htext Field.email),
    (Htext Field.api_user_service_key), (Htext Field.account_id) by done.
  repeat split.
Qed.

Lemma SDKv2_resolve_zero (d : SDKv2.ResourceData.t) :
  fst (SDKv2.resolve p c sdk version tf d w')
  = fst (SDKv2.resolve p c sdk version tf d w).
Proof.
  rewrite !SDKv2_resolve_shape. unfold SDKv2.options.
  destruct (SDKv2_locals_zero d)
    as (-> & -> & -> & -> & -> & -> & -> & -> & -> & -> & ->).
  apply resolution_of_world.
Qed.

Lemma Framework_locals_zero (data : Framework.CloudflareProviderModel.t) :
  Framework.rps c data w' = Framework.rps c data w
  /\ Framework.retries c data w' = Framework.retries c data w
  /\ Framework.minBackOff c data w' = Framework.minBackOff c data w
  /\ Framework.maxBackOff c data w' = Framework.maxBackOff c data w
  /\ Framework.baseHostname c data w' = Framework.baseHostname c data w
  /\ Framework.basePath c data w' = Framework.basePath c data w
  /\ Framework.apiToken c data w' = Framework.apiToken c data w
  /\ Framework.apiKey c data w' = Framework.apiKey c data w
  /\ Framework.email c data w' = Framework.email c data w
  /\ Framework.apiUserServiceKey c data w' = Framework.apiUserServiceKey c data w
  /\ Framework.accountID c data w' = Framework.accountID c data w.
Proof.
  assert (forall g default, Field.is_int g = false ->
            GetDefaultFromEnv w' (env_key c g) default
            = GetDefaultFromEnv w (env_key c g) default) as Htext.
  { intros g default Hg. apply GetDefaultFromEnv_setenv_ne. by apply apart. }
  assert (forall key default,
            fst (ParseInt (GetDefaultFromEnv w' key default))
            = fst (ParseInt (GetDefaultFromEnv w key default))) as Hint.
  { intros key default. by apply (ParseInt_setenv_zero w (env_key c f) s). }
  unfold Framework.rps, Framework.retries, Framework.minBackOff, Framework.maxBackOff,
    Framework.baseHostname, Framework.basePath, Framework.apiToken, Framework.apiKey,
    Framework.email, Framework.apiUserServiceKey, Framework.accountID.
  rewrite !Hint.
  rewrite (Htext Field.api_hostname), (Htext Field.api_base_path),
    (Htext Field.api_token), (Htext Field.api_key), (Htext Field.email),
    (Htext Field.api_user_service_key), (Htext Field.account_id) by done.
  repeat split.
Qed.

Lemma Framework_resolve_zero (req : Framework.ConfigureRequest) :
  fst (Framework.resolve p c sdk version req w')
  = fst (Framework.resolve p c sdk version req w).
Proof.
  rewrite !Framework_resolve_shape. cbv zeta.
  destruct (HasError (fst (Framework.Config_Get req))); [done |].
  unfold Framework.options.
  destruct (Framework_locals_zero (snd (Framework.Config_Get req)))
    as (-> & -> & -> & -> & -> & -> & -> & -> & -> & -> & ->).
  apply resolution_of_world.
Qed.
End malformed_as_zero.


Lemma malformed_ten : malformed "ten".
Proof. right. exists "", "t"%char, "en". by vm_compute. Qed.

Lemma overflowing_nines : overflowing "99999999999999999999x".
Proof. exists "99999999999999999999", "x". by vm_compute. Qed.

Lemma own_key_sample (f : Field.t) : Field.is_int f = true -> own_key sample_consts f.
Proof. intros Hf g Hg. destruct f, g; first [done | by vm_compute]. Qed.



(** ** The account option *)

Lemma resolved_options (p : platform) (diag_of : string -> string -> Diagnostics)
    (r mn mx : Z) (e k u t a : string) (o : list Option) (w w' : World)
    (config : Config.t) :
  resolution_of p diag_of r mn mx e k u t a o w = (Resolved config, w') ->
  Config.Options config = (o ++ account_option a)%list.
Proof.
  intros H. pose proof (resolution_of_options p diag_of r mn mx e k u t a o o w) as Ho.
  rewrite H in Ho. by destruct Ho.
Qed.

Lemma SDKv2_accountID_input (c : Consts) (d : SDKv2.ResourceData.t) (w : World) :
  (forall a, a ≠ "" -> SDKv2.ResourceData.account_id d = Some a ->
             SDKv2.accountID c d w = a)
  /\ (forall a, a ≠ "" -> SDKv2.ResourceData.account_id d = None ->
                environ w !! AccountIDEnvVarKey c = Some a -> SDKv2.accountID c d w = a)
  /\ (SDKv2.ResourceData.account_id d = None ->
      environ w !! AccountIDEnvVarKey c = None -> SDKv2.accountID c d w = "").
Proof.
  unfold SDKv2.accountID, SDKv2.GetOk_string, SDKv2.Get_string, GetDefaultFromEnv.
  split; [| split].
  - intros a Ha ->. cbn. by rewrite bool_decide_eq_true_2.
  - intros a Ha -> ->. cbn. by rewrite decide_True.
  - by intros -> ->.
Qed.

Lemma Framework_accountID_input (c : Consts)
    (data : Framework.CloudflareProviderModel.t) (w : World) :
  let explicit := explicit_text (Framework.CloudflareProviderModel.AccountID data) in
  (forall a, a ≠ "" -> explicit = Some a -> Framework.accountID c data w = a)
  /\ (forall a, a ≠ "" -> explicit = None ->
                environ w !! AccountIDEnvVarKey c = Some a ->
                Framework.accountID c data w = a)
  /\ (explicit = None -> environ w !! AccountIDEnvVarKey c = None ->
      Framework.accountID c data w = "").
Proof.
  unfold Framework.accountID, explicit_text, GetDefaultFromEnv. cbv zeta.
  destruct (Framework.CloudflareProviderModel.AccountID data) as [| | id];
    cbn; repeat split; intros; simplify_eq; try done.
  - rewrite H1. by rewrite decide_True.
  - by rewrite H0.
Qed.

Lemma account_option_some (a : string) : a ≠ "" -> account_option a = [UsingAccount a].
Proof. intros Ha. unfold account_option. by rewrite decide_True. Qed.



Import DLP.

(** ** The DLP conversions *)

Lemma dlpPatternToAPI_of_schema (pattern : DLPPattern) :
  dlpPatternToAPI (dlpPatternToSchema pattern)
  = if decide (Regex pattern = "") then None else Some pattern.
Proof.
  destruct pattern as [regex validation].
  unfold dlpPatternToAPI, dlpPatternToSchema. cbn [Regex Validation].
  destruct (decide (regex = "")) as [-> | Hr].
  - rewrite (decide_False (P := "" ≠ "")) by auto.
    destruct (decide (validation ≠ "")); by simplify_map_eq.
  - rewrite (decide_True (P := regex ≠ "")) by done.
    destruct (decide (validation ≠ "")) as [Hv | Hv%dec_stable];
      simplify_map_eq; [done | by subst].
Qed.

(** X1: a pattern written to its schema map and read back is the same
    pattern, unless its regex is empty: then the map has no regex and
    reading it panics.  The map has no other keys than regex and
    validation, and never holds an empty string. *)
Theorem dlpPattern_schema (pattern : DLPPattern) :
  dlpPatternToAPI (dlpPatternToSchema pattern)
  = (if decide (Regex pattern = "") then None else Some pattern)
  /\ forall key v,
       dlpPatternToSchema pattern !! key = Some v ->
       exists s, v = IString s /\ s ≠ ""
         /\ ((key = "regex" /\ s = Regex pattern)
             \/ (key = "validation" /\ s = Validation pattern)).
Proof.
  split; [apply dlpPatternToAPI_of_schema |]. intros key v.
  unfold dlpPatternToSchema.
  destruct (decide (Regex pattern ≠ "")), (decide (Validation pattern ≠ ""));
    intros H;
    repeat match type of H with
           | <[?k := _]> _ !! key = _ =>
               destruct (decide (k = key)) as [<- | ?];
               [rewrite lookup_insert_eq in H | rewrite lookup_insert_ne in H by done]
           end;
    simplify_eq; try (rewrite lookup_empty in H; done); eauto 10.
Qed.

Lemma dlpPattern_schema_witness :
  exists s, IString "[0-9]+" = IString s /\ s ≠ ""
    /\ (("regex" = "regex" /\ s = Regex DLPSamples.pattern_digits)
        \/ ("regex" = "validation" /\ s = Validation DLPSamples.pattern_digits)).
Proof.
  apply (proj2 (dlpPattern_schema DLPSamples.pattern_digits) "regex").
  by vm_compute.
Defined.

Lemma dlpEntryToSchema_name (entry : DLPEntry) :
  as_string (dlpEntryToSchema entry !! "name")
  = if decide (Name entry = "") then None else Some (Name entry).
Proof.
  unfold dlpEntryToSchema. destruct (decide (Name entry = "")) as [Hn | Hn].
  - rewrite (decide_False (P := Name entry ≠ "")) by auto.
    destruct (Pattern entry), (decide (ID entry ≠ "")); by simplify_map_eq.
  - rewrite (decide_True (P := Name entry ≠ "")) by auto.
    destruct (Pattern entry), (decide (ID entry ≠ "")); by simplify_map_eq.
Qed.

Lemma dlpEntryToSchema_id (entry : DLPEntry) :
  as_string (dlpEntryToSchema entry !! "id")
  = if decide (ID entry = "") then None else Some (ID entry).
Proof.
  unfold dlpEntryToSchema. destruct (decide (ID entry = "")) as [Hn | Hn].
  - rewrite (decide_False (P := ID entry ≠ "")) by auto.
    destruct (Pattern entry), (decide (Name entry ≠ "")); by simplify_map_eq.
  - rewrite (decide_True (P := ID entry ≠ "")) by auto.
    destruct (Pattern entry), (decide (Name entry ≠ "")); by simplify_map_eq.
Qed.

Lemma dlpEntryToSchema_enabled (entry : DLPEntry) :
  dlpEntryToSchema entry !! "enabled"
  = Some (IBool (match Enabled entry with Some b => b | None => false end)).
Proof.
  unfold dlpEntryToSchema.
  destruct (Pattern entry), (decide (Name entry ≠ "")), (decide (ID entry ≠ ""));
    by simplify_map_eq.
Qed.

Lemma dlpEntryToSchema_pattern (entry : DLPEntry) :
  dlpEntryToSchema entry !! "pattern"
  = (λ pattern, IList [IMap (dlpPatternToSchema pattern)]) <$> Pattern entry.
Proof.
  unfold dlpEntryToSchema.
  destruct (Pattern entry), (decide (Name entry ≠ "")), (decide (ID entry ≠ ""));
    by simplify_map_eq.
Qed.

Lemma dlpEntryToAPI_of_schema (entryType : string) (entry : DLPEntry) :
  dlpEntryToAPI entryType (dlpEntryToSchema entry)
  = if unreadable entry then None else Some (normal_entry entryType entry).
Proof.
  unfold dlpEntryToAPI, unreadable, normal_entry.
  rewrite dlpEntryToSchema_name, dlpEntryToSchema_id, dlpEntryToSchema_enabled,
    dlpEntryToSchema_pattern.
  destruct entry as [id name profile enabled type pattern created updated].
  cbn [ID Name ProfileID Enabled Type_ Pattern CreatedAt UpdatedAt].
  destruct (decide (name = "")) as [-> | Hname]; [done |].
  rewrite (bool_decide_eq_false_2 (name = "")) by done. cbn [orb].
  destruct pattern as [pattern |]; cbn [fmap option_fmap option_map as_list as_map].
  - rewrite dlpPatternToAPI_of_schema.
    destruct (decide (Regex pattern = "")) as [Hr | Hr].
    + rewrite bool_decide_eq_true_2 by done. by destruct (decide (id = "")).
    + rewrite bool_decide_eq_false_2 by done.
      destruct (decide (id = "")) as [-> | Hid], enabled as [[] |]; done.
  - destruct (decide (id = "")) as [-> | Hid], enabled as [[] |]; done.
Qed.

(** X2: the entries of a profile, written to schema maps as Read does and
    read back as Create and Update do, are the same entries with enabled
    made explicit, the type of the profile, and the profile id and dates
    cleared; the reading panics when one of them has no name or a pattern
    without regex. *)
Theorem dlpEntries_round_trip (entryType : string) (entries : list DLPEntry) :
  mapM (dlpEntryToAPI entryType) (map dlpEntryToSchema entries)
  = if existsb unreadable entries then None
    else Some (map (normal_entry entryType) entries).
Proof.
  induction entries as [| entry entries IH]; [done |].
  cbn [map existsb mapM]. rewrite dlpEntryToAPI_of_schema, IH.
  destruct (unreadable entry); [done |]. cbn.
  by destruct (existsb unreadable entries).
Qed.

(** X3: an entry read from a map has the type passed in, the name and id
    of the map, enabled set (true exactly when the map holds the boolean
    true), and no profile id or dates; if it has a name and, for its
    pattern, a regex, it survives the way to the schema map and back
    unchanged. *)
Theorem dlpEntryToAPI_result (entryType : string) (entryMap : gmap string iface)
    (entry : DLPEntry) :
  dlpEntryToAPI entryType entryMap = Some entry ->
  Type_ entry = entryType
  /\ as_string (entryMap !! "name") = Some (Name entry)
  /\ ID entry = default "" (as_string (entryMap !! "id"))
  /\ (exists enabled, Enabled entry = Some enabled
        /\ (enabled = true <-> entryMap !! "enabled" = Some (IBool true)))
  /\ ProfileID entry = "" /\ CreatedAt entry = None /\ UpdatedAt entry = None
  /\ (unreadable entry = false ->
      dlpEntryToAPI entryType (dlpEntryToSchema entry) = Some entry).
Proof.
  unfold dlpEntryToAPI at 1. intros H.
  assert (Type_ entry = entryType
          /\ as_string (entryMap !! "name") = Some (Name entry)
          /\ ID entry = default "" (as_string (entryMap !! "id"))
          /\ (exists enabled, Enabled entry = Some enabled
                /\ (enabled = true <-> entryMap !! "enabled" = Some (IBool true)))
          /\ ProfileID entry = "" /\ CreatedAt entry = None /\ UpdatedAt entry = None)
    as Hfields.
  { destruct (as_string (entryMap !! "name")) as [name |]; [| done].
    assert (exists enabled : bool,
               (match entryMap !! "enabled" with Some (IBool true) => true | _ => false end)
               = enabled
               /\ (enabled = true <-> entryMap !! "enabled" = Some (IBool true)))
      as (enabled & Henabled & Hiff).
    { eexists. split; [done |]. destruct (entryMap !! "enabled") as [[| [] | | |] |];
        split; intros; simplify_eq; done. }
    rewrite Henabled in H.
    destruct (as_string (entryMap !! "id")) as [id |];
      destruct (as_list (entryMap !! "pattern")) as [[| [| | | patternMap |] rest] |];
      cbn [as_map default] in *; try done;
      try (destruct (dlpPatternToAPI patternMap); [| done]);
      simplify_eq; cbn; eauto 10. }
  destruct Hfields as (Ht & Hn & Hi & He & Hp & Hc & Hu).
  repeat (split; [done |]).
  intros Hr. rewrite dlpEntryToAPI_of_schema, Hr.
  destruct He as (enabled & He & _).
  destruct entry. cbn in *. unfold normal_entry. cbn. by subst.
Qed.

Lemma dlpEntryToAPI_result_witness :
  Type_ DLPSamples.entry_ssn = "custom"
  /\ as_string (DLPSamples.map_ssn !! "name") = Some (Name DLPSamples.entry_ssn)
  /\ dlpEntryToAPI "custom" (dlpEntryToSchema DLPSamples.entry_ssn)
     = Some DLPSamples.entry_ssn.
Proof.
  destruct (dlpEntryToAPI_result "custom" DLPSamples.map_ssn DLPSamples.entry_ssn)
    as (Htype & Hname & _ & _ & _ & _ & _ & Hfixed); [by vm_compute |].
  split; [done |]. split; [done |]. apply Hfixed. by vm_compute.
Defined.

(** X4: reading an entry panics exactly when the name is missing or no
    string, or the pattern is a non-empty list whose first element is not a
    map with a string regex; an empty or mistyped pattern is ignored, and so
    are the elements after the first. *)
Theorem dlpEntryToAPI_panics (entryType : string) (entryMap : gmap string iface) :
  dlpEntryToAPI entryType entryMap = None <->
  as_string (entryMap !! "name") = None
  \/ exists first rest,
       entryMap !! "pattern" = Some (IList (first :: rest))
       /\ forall patternMap,
            first = IMap patternMap -> as_string (patternMap !! "regex") = None.
Proof.
  unfold dlpEntryToAPI.
  destruct (as_string (entryMap !! "name")) as [name |]; [| by split; auto].
  destruct (entryMap !! "pattern") as [[| | [| first rest] | |] |] eqn:Hp;
    cbn [as_list as_map];
    try (split; [by destruct (as_string (entryMap !! "id")) |
                 intros [? | (? & ? & ? & ?)]; simplify_eq]).
  destruct first as [| | | patternMap |]; cbn [as_map].
  1-3, 5: split; [intros _; right; eexists _, _; split; [done |]; intros; simplify_eq
                 | done].
  unfold dlpPatternToAPI.
  destruct (as_string (patternMap !! "regex")) as [regex |] eqn:Hr.
  - split.
    + destruct (as_string (entryMap !! "id")),
        (as_string (patternMap !! "validation")); done.
    + intros [? | (? & ? & ? & Hnone)]; [done |]. simplify_eq.
      specialize (Hnone _ eq_refl). congruence.
  - split; [| done]. intros _. right. eexists _, _. split; [done |].
    intros ? ?. by simplify_eq.
Qed.

(** ** strings.Split *)

Lemma Split_cons (sep : ascii) (s : string) :
  exists piece rest, Split sep s = piece :: rest.
Proof.
  destruct s as [| c s]; cbn; [eauto |].
  destruct (Ascii.eqb c sep); [eauto |]. destruct (Split sep s); eauto.
Qed.

Lemma Join_cons (sep piece next : string) (rest : list string) :
  Join sep (piece :: next :: rest) = piece +:+ sep +:+ Join sep (next :: rest).
Proof. reflexivity. Qed.

Lemma Join_Split (sep : ascii) (s : string) :
  Join (String sep "") (Split sep s) = s.
Proof.
  induction s as [| c s IH]; [done |]. cbn [Split].
  destruct (Split_cons sep s) as (piece & rest & Hs). rewrite Hs in *.
  destruct (Ascii.eqb_spec c sep) as [-> | Hne].
  - by rewrite Join_cons, IH.
  - destruct rest as [| next rest].
    + cbn [Join] in *. by rewrite IH.
    + rewrite Join_cons in *. by rewrite <- IH.
Qed.

Lemma Split_pieces (sep : ascii) (s : string) :
  length (Split sep s) = S (count_byte sep s)
  /\ Forall (λ piece, count_byte sep piece = 0%nat) (Split sep s).
Proof.
  induction s as [| c s [IHl IHf]]; [by repeat constructor |]. cbn [Split count_byte].
  destruct (Ascii.eqb_spec c sep) as [-> | Hne].
  - split; [cbn; by rewrite IHl | by constructor].
  - destruct (Split_cons sep s) as (piece & rest & Hs). rewrite Hs in *.
    split; [done |]. inversion IHf; subst. constructor; [| done].
    cbn. by rewrite (proj2 (Ascii.eqb_neq c sep)).
Qed.

Lemma count_byte_app (sep : ascii) (a b : string) :
  count_byte sep (a +:+ b) = (count_byte sep a + count_byte sep b)%nat.
Proof.
  induction a as [| c a IH]; [done |].
  change (String c a +:+ b) with (String c (a +:+ b)). cbn [count_byte].
  rewrite IH. lia.
Qed.

Lemma Join_inj (sep : ascii) (l1 l2 : list string) :
  Forall (λ piece, count_byte sep piece = 0%nat) l1 ->
  Forall (λ piece, count_byte sep piece = 0%nat) l2 ->
  l1 ≠ [] -> l2 ≠ [] ->
  Join (String sep "") l1 = Join (String sep "") l2 -> l1 = l2.
Proof.
  assert (forall a b a' b' : string,
             count_byte sep a = 0%nat -> count_byte sep a' = 0%nat ->
             a +:+ String sep b = a' +:+ String sep b' -> a = a' /\ b = b') as Hhead.
  { induction a as [| c a IH]; intros b [| c' a'] b' Ha Ha' Heq.
    - by simplify_eq.
    - change ("" +:+ String sep b) with (String sep b) in Heq.
      change (String c' a' +:+ String sep b') with (String c' (a' +:+ String sep b')) in Heq.
      simplify_eq. cbn in Ha'. by rewrite Ascii.eqb_refl in Ha'.
    - change ("" +:+ String sep b') with (String sep b') in Heq.
      change (String c a +:+ String sep b) with (String c (a +:+ String sep b)) in Heq.
      simplify_eq. cbn in Ha. by rewrite Ascii.eqb_refl in Ha.
    - change (String c a +:+ String sep b) with (String c (a +:+ String sep b)) in Heq.
      change (String c' a' +:+ String sep b') with (String c' (a' +:+ String sep b')) in Heq.
      simplify_eq. cbn in Ha, Ha'.
      destruct (IH b a' b') as [-> ->]; [lia | lia | done | done]. }
  assert (forall a b : string,
             count_byte sep (a +:+ String sep "" +:+ b)
             = S (count_byte sep a + count_byte sep b)) as Hcount.
  { intros a b. rewrite count_byte_app.
    change (String sep "" +:+ b) with (String sep b). cbn [count_byte].
    rewrite Ascii.eqb_refl. lia. }
  revert l2. induction l1 as [| a l1 IH]; intros l2 H1 H2 Hn1 Hn2 Heq; [done |].
  destruct l2 as [| a' l2]; [done |].
  inversion H1 as [| ? ? Ha H1']; inversion H2 as [| ? ? Ha' H2']; subst.
  destruct l1 as [| b l1], l2 as [| b' l2].
  - cbn in Heq. by subst.
  - rewrite Join_cons in Heq. cbn [Join] in Heq.
    apply (f_equal (count_byte sep)) in Heq. rewrite Hcount in Heq. lia.
  - rewrite Join_cons in Heq. cbn [Join] in Heq.
    apply (f_equal (count_byte sep)) in Heq. rewrite Hcount in Heq. lia.
  - rewrite !Join_cons in Heq.
    change (a +:+ String sep "" +:+ Join (String sep "") (b :: l1))
      with (a +:+ String sep (Join (String sep "") (b :: l1))) in Heq.
    change (a' +:+ String sep "" +:+ Join (String sep "") (b' :: l2))
      with (a' +:+ String sep (Join (String sep "") (b' :: l2))) in Heq.
    apply Hhead in Heq as [-> Hrest]; [| done | done].
    f_equal. by apply IH.
Qed.

(** The pieces of [Split] are the one non-empty list of texts without the
    separator that joined with the separator give the text back. *)
Lemma Split_spec (sep : ascii) (s : string) (pieces : list string) :
  Split sep s = pieces <->
  pieces ≠ []
  /\ Forall (λ piece, count_byte sep piece = 0%nat) pieces
  /\ Join (String sep "") pieces = s.
Proof.
  split.
  - intros <-. destruct (Split_cons sep s) as (piece & rest & Hs).
    split; [by rewrite Hs |]. split; [apply Split_pieces | apply Join_Split].
  - intros (Hne & Hall & Hjoin).
    apply (Join_inj sep); [apply Split_pieces | done | | done |].
    + destruct (Split_cons sep s) as (piece & rest & Hs). by rewrite Hs.
    + by rewrite Join_Split.
Qed.

(** ** The DLP profile resource *)

Section resource_properties.
Context {Server : Type}.
Variable GetDLPProfile :
  string -> string -> Server -> (DLPProfile.t + APIError) * Server.
Variable CreateDLPProfiles :
  string -> CreateDLPProfilesParams -> Server -> (list DLPProfile.t + APIError) * Server.
Variable UpdateDLPProfile :
  string -> UpdateDLPProfileParams -> Server -> (DLPProfile.t + APIError) * Server.
Variable DeleteDLPProfile : string -> string -> Server -> option APIError * Server.
Variables DLPProfileTypeCustom DLPProfileTypePredefined : string.
Variable NewSet : list (gmap string iface) -> list (gmap string iface).
Variable Quote : string -> string.
Variable Sprintf_v : DLPProfile.t -> string.

Let Read := resourceCloudflareDLPProfileRead Server GetDLPProfile NewSet.
Let Create :=
  resourceCloudflareDLPProfileCreate Server GetDLPProfile CreateDLPProfiles
    DLPProfileTypePredefined NewSet.
Let Update :=
  resourceCloudflareDLPProfileUpdate Server GetDLPProfile UpdateDLPProfile NewSet
    Quote Sprintf_v.
Let Delete :=
  resourceCloudflareDLPProfileDelete Server GetDLPProfile DeleteDLPProfile
    DLPProfileTypeCustom NewSet Quote.
Let Import_ := resourceCloudflareDLPProfileImport Server GetDLPProfile NewSet Quote.

Lemma Read_account_id (d : ResourceData.t) (st : State Server) :
  ResourceData.account_id (snd (fst (Read d st))) = ResourceData.account_id d.
Proof.
  unfold Read, resourceCloudflareDLPProfileRead.
  destruct (GetDLPProfile _ _ _) as [[profile | [[] text]] s]; cbn; [| done | done].
  by case_decide.
Qed.

(** X5: Read clears the id exactly when the API reports the profile as
    not found, which is no error: it then writes the one log line that the
    profile no longer exists and changes nothing else of the resource data.
    It reports an error exactly when the API gave another error, and has
    then changed nothing of the resource data.  In every other case the id
    stays, and the account id always does; the log gets no other line and
    the server is as the one API call left it. *)
Theorem Read_keeps (d : ResourceData.t) (st : State Server) :
  let answer :=
    GetDLPProfile (ResourceData.account_id d) (ResourceData.Id d) (server Server st) in
  let not_found :=
    match fst answer with inr err => notFound err | inl _ => false end in
  let failed :=
    match fst answer with inr err => negb (notFound err) | inl _ => false end in
  let '((diags, d'), st') := Read d st in
  ResourceData.account_id d' = ResourceData.account_id d
  /\ ResourceData.Id d' = (if not_found then "" else ResourceData.Id d)
  /\ (if not_found then d' = ResourceData.SetId "" d else True)
  /\ (if failed then diags ≠ [] /\ d' = d else diags = [])
  /\ log Server st'
     = (log Server st
        ++ if not_found
           then ["DLP Profile " +:+ ResourceData.Id d +:+ " no longer exists"]
           else [])%list
  /\ server Server st' = snd answer.
Proof.
  cbv zeta. unfold Read, resourceCloudflareDLPProfileRead.
  destruct (GetDLPProfile _ _ _) as [[profile | [[] text]] s]; cbn.
  - repeat split; try by case_decide. by rewrite app_nil_r.
  - done.
  - repeat split; try done. by rewrite app_nil_r.
Qed.

(** X6: Create panics exactly when the profile is not predefined and
    [dlpEntryToAPI] panics on an entry of the configuration; Update has no
    such guard and panics whenever [dlpEntryToAPI] does. *)
Theorem Create_Update_panic (d : ResourceData.t) (st : State Server) :
  let unreadable_entry :=
    Exists (λ entryMap, dlpEntryToAPI (ResourceData.type_ d) entryMap = None)
      (ResourceData.entry d) in
  (Create d st = None <->
   ResourceData.type_ d ≠ DLPProfileTypePredefined /\ unreadable_entry)
  /\ (Update d st = None <-> unreadable_entry).
Proof.
  cbv zeta. unfold Create, Update, resourceCloudflareDLPProfileCreate,
    resourceCloudflareDLPProfileUpdate. cbn [DLPProfile.Type_]. split.
  - destruct (decide (ResourceData.type_ d = DLPProfileTypePredefined)) as [Hp | Hp].
    { split; [done | by intros [? _]]. }
    rewrite <- mapM_None.
    destruct (mapM _ (ResourceData.entry d)) as [entries |]; [| by split].
    split; [| by intros [_ ?]].
    destruct (CreateDLPProfiles _ _ _) as [[[| first rest] | err] s]; done.
  - rewrite <- mapM_None.
    destruct (mapM _ (ResourceData.entry d)) as [entries |]; [| by split].
    split; [| done].
    destruct (UpdateDLPProfile _ _ _) as [[profile | err] s]; [| done].
    by case_decide.
Qed.

(** X7: Delete reports no error exactly when the profile type is custom
    and the API deleted it, whatever the read after it gives; it keeps the
    account id, and for another type it changes neither the resource data
    nor the server. *)
Theorem Delete_result (d : ResourceData.t) (st : State Server) :
  let '((diags, d'), st') := Delete d st in
  (diags = [] <->
   ResourceData.type_ d = DLPProfileTypeCustom
   /\ fst (DeleteDLPProfile (ResourceData.account_id d) (ResourceData.Id d)
             (server Server st)) = None)
  /\ ResourceData.account_id d' = ResourceData.account_id d
  /\ (ResourceData.type_ d ≠ DLPProfileTypeCustom ->
      d' = d /\ server Server st' = server Server st).
Proof.
  unfold Delete, resourceCloudflareDLPProfileDelete.
  destruct (decide (ResourceData.type_ d ≠ DLPProfileTypeCustom)) as [Ht | Ht%dec_stable].
  { cbn. split; [split; [done | by intros [? _]] | by split]. }
  cbn [server log tflog_line].
  destruct (DeleteDLPProfile _ _ _) as [[err |] s]; cbn [fst].
  { split; [split; [done | by intros [_ ?]] | by split]. }
  pose proof (Read_account_id d (with_server Server s
                (tflog_line Server
                   ("Deleting Cloudflare DLP Profile using ID: " +:+ ResourceData.Id d)
                   st))) as Hacc.
  unfold Read in Hacc.
  destruct (resourceCloudflareDLPProfileRead _ _ _ _ _) as [[diags d'] st'].
  cbn [fst snd] in Hacc. by split; [split | split].
Qed.

(** X8: Import fails, touching nothing, unless the id has exactly one
    slash; then the id is account, slash, profile, both without slash, and
    Import is Read on the resource data with these two set, its
    diagnostics dropped. *)
Theorem Import_id (d : ResourceData.t) (st : State Server) :
  (count_byte "/" (ResourceData.Id d) ≠ 1%nat ->
   exists text, Import_ d st = (inr text, st))
  /\
  (count_byte "/" (ResourceData.Id d) = 1%nat ->
   exists accountID dlpProfileID,
     ResourceData.Id d = accountID +:+ "/" +:+ dlpProfileID
     /\ count_byte "/" accountID = 0%nat /\ count_byte "/" dlpProfileID = 0%nat
     /\ exists line,
          Import_ d st
          = let '((_, d'), st') :=
              Read (ResourceData.SetId dlpProfileID
                      (ResourceData.Set_account_id accountID d))
                (tflog_line Server line st) in
            (inl d', st')).
Proof.
  unfold Import_, resourceCloudflareDLPProfileImport.
  pose proof (Split_pieces "/" (ResourceData.Id d)) as [Hlen Hall].
  pose proof (Join_Split "/" (ResourceData.Id d)) as Hjoin.
  destruct (Split "/" (ResourceData.Id d)) as [| a [| b [| c rest]]]; cbn in Hlen.
  - done.
  - split; [eauto | intros H; lia].
  - split; [intros H; lia |]. intros _. exists a, b.
    inversion Hall as [| ? ? Ha Hall']; subst. inversion Hall' as [| ? ? Hb _]; subst.
    rewrite <- Hjoin. repeat split; [done | done |]. by eexists.
  - split; [eauto | intros H; lia].
Qed.
End resource_properties.

Lemma Import_id_witness :
  (exists text,
     resourceCloudflareDLPProfileImport unit DLPSamples.get_missing id quote
       (ResourceData.mk "profile1" "" "" "" "" []) DLPSamples.st0
     = (inr text, DLPSamples.st0))
  /\
  (exists accountID dlpProfileID,
     "acct123/profile1" = accountID +:+ "/" +:+ dlpProfileID
     /\ fst (resourceCloudflareDLPProfileImport unit DLPSamples.get_missing id quote
               DLPSamples.imported DLPSamples.st0)
        = inl (ResourceData.mk "" accountID "" "" "" [])).
Proof.
  split.
  - apply (Import_id DLPSamples.get_missing id quote
             (ResourceData.mk "profile1" "" "" "" "" []) DLPSamples.st0).
    by vm_compute.
  - destruct (Import_id DLPSamples.get_missing id quote DLPSamples.imported
                DLPSamples.st0) as [_ H].
    destruct H as (accountID & dlpProfileID & Hid & _ & _ & line & Himport);
      [reflexivity |].
    exists "acct123", "profile1". split; reflexivity.
Defined.

(** ** The outcome of configure *)

Lemma resolution_of_invalid (p : platform) (diag_of : string -> string -> Diagnostics)
    (r mn mx : Z) (e k u t a : string) (o : list Option) (w w' : World)
    (diags : Diagnostics) :
  resolution_of p diag_of r mn mx e k u t a o w = (Invalid diags, w') ->
  w' = w /\ exists summary detail, diags = diag_of summary detail.
Proof.
  unfold resolution_of. intros H.
  repeat case_match; inversion H; subst; eauto.
Qed.

Lemma resolution_of_resolved (p : platform) (diag_of : string -> string -> Diagnostics)
    (r mn mx : Z) (e k u t a : string) (o : list Option) (w w' : World)
    (config : Config.t) :
  resolution_of p diag_of r mn mx e k u t a o w = (Resolved config, w') ->
  w' = logged w a /\ config = resolved_config e k u t o a
  /\ r <= IntSize p /\ mn <= IntSize p /\ mx <= IntSize p.
Proof.
  unfold resolution_of. intros H.
  destruct (Z.gtb_spec r (IntSize p)); [done |].
  destruct (Z.gtb_spec mn (IntSize p)); [done |].
  destruct (Z.gtb_spec mx (IntSize p)); [done |].
  repeat case_match; inversion H; subst; repeat split; lia.
Qed.

Lemma HasError_AddError (diags : Diagnostics) (summary detail : string) :
  HasError (Framework.AddError diags summary detail) = true.
Proof.
  unfold HasError, Framework.AddError. rewrite existsb_app. simpl.
  by rewrite orb_true_r.
Qed.

(** X9: configure gives back a client or an error, never both and never
    neither.  A client comes with no diagnostic of the SDKv2 provider and
    with those of the decoding, none of them an error, of the framework
    provider, and is what the constructor made of the resolved
    configuration; the framework provider sets it as both the data source
    and the resource data.  Without a client the SDKv2 provider reports
    exactly one error. *)
Theorem configure_client_or_error (p : platform) (c : Consts) (sdk version tf : string)
    (d : SDKv2.ResourceData.t) (req : Framework.ConfigureRequest) (w : World)
    (API : Type) (Client : Config.t -> World -> (API + string) * World) :
  (let '((client, diags), w') := SDKv2.configure p c sdk Client version tf d w in
   match client with
   | Some api =>
       diags = []
       /\ exists config w1,
            SDKv2.resolve p c sdk version tf d w = (Resolved config, w1)
            /\ Client config w1 = (inl api, w')
   | None => HasError diags = true /\ length diags = 1%nat
   end)
  /\
  (let '(resp, w') := Framework.Configure p c sdk Client version req w in
   Framework.DataSourceData resp = Framework.ResourceData resp
   /\ match Framework.ResourceData resp with
      | Some api =>
          Framework.Diagnostics_ resp = fst (Framework.Config_Get req)
          /\ HasError (Framework.Diagnostics_ resp) = false
          /\ exists config w1,
               Framework.resolve p c sdk version req w = (Resolved config, w1)
               /\ Client config w1 = (inl api, w')
      | None => HasError (Framework.Diagnostics_ resp) = true
      end).
Proof.
  split.
  - unfold SDKv2.configure.
    destruct (SDKv2.resolve p c sdk version tf d w) as [[diags|config] w1] eqn:Hres.
    + rewrite SDKv2_resolve_shape in Hres.
      apply resolution_of_invalid in Hres as [_ (summary & detail & ->)]. done.
    + destruct (Client config w1) as [[api|err] w'] eqn:Hclient; [|done].
      split; [done |]. by exists config, w1.
  - unfold Framework.Configure.
    destruct (Framework.resolve p c sdk version req w) as [[diags|config] w1] eqn:Hres.
    + split; [done |]. cbn [Framework.ResourceData Framework.Diagnostics_].
      rewrite Framework_resolve_shape in Hres. cbv zeta in Hres.
      destruct (HasError (fst (Framework.Config_Get req))) eqn:Hdec.
      * by inversion Hres; subst.
      * apply resolution_of_invalid in Hres as [_ (summary & detail & ->)].
        apply HasError_AddError.
    + destruct (Client config w1) as [[api|err] w'] eqn:Hclient;
        cbn [Framework.ResourceData Framework.DataSourceData Framework.Diagnostics_].
      * split; [done |]. split; [done |]. split; [| by exists config, w1].
        rewrite Framework_resolve_shape in Hres. cbv zeta in Hres.
        by destruct (HasError (fst (Framework.Config_Get req))).
      * split; [done |]. apply HasError_AddError.
Qed.

(** X10: what configure itself does to the process: nothing when a check
    fails; otherwise it writes the one log line of the account id, if one
    was resolved, before it calls the client constructor, and nothing after
    the call: the process it leaves is the one the constructor leaves,
    whether that gave a client or an error. *)
Theorem configure_log (p : platform) (c : Consts) (sdk version tf : string)
    (d : SDKv2.ResourceData.t) (req : Framework.ConfigureRequest) (w : World)
    (API : Type) (Client : Config.t -> World -> (API + string) * World) :
  snd (SDKv2.configure p c sdk Client version tf d w)
  = match fst (SDKv2.resolve p c sdk version tf d w) with
    | Resolved config => snd (Client config (logged w (SDKv2.accountID c d w)))
    | Invalid _ => w
    end
  /\ snd (Framework.Configure p c sdk Client version req w)
     = match fst (Framework.resolve p c sdk version req w) with
       | Resolved config =>
           snd (Client config
                  (logged w (Framework.accountID c (snd (Framework.Config_Get req)) w)))
       | Invalid _ => w
       end.
Proof.
  split.
  - unfold SDKv2.configure.
    destruct (SDKv2.resolve p c sdk version tf d w) as [[diags|config] w'] eqn:Hres;
      rewrite SDKv2_resolve_shape in Hres; cbn [fst].
    + by apply resolution_of_invalid in Hres as [-> _].
    + apply resolution_of_resolved in Hres as [-> _].
      by destruct (Client config _) as [[api | err] w1].
  - unfold Framework.Configure.
    destruct (Framework.resolve p c sdk version req w) as [[diags|config] w'] eqn:Hres;
      rewrite Framework_resolve_shape in Hres; cbv zeta in Hres; cbn [fst];
      destruct (HasError (fst (Framework.Config_Get req))); try by inversion Hres.
    + by apply resolution_of_invalid in Hres as [-> _].
    + apply resolution_of_resolved in Hres as [-> _].
      by destruct (Client config _) as [[api | err] w1].
Qed.

(** ** The conversion to [int] *)

Lemma int_of_int64_range (p : platform) (z : Z) :
  MinInt p <= int_of_int64 p z <= MaxInt p.
Proof.
  unfold int_of_int64, wrap_signed, MinInt, MaxInt. cbv zeta.
  assert (0 <= z mod 2 ^ IntSize p < 2 ^ IntSize p) as Hmod
    by (apply Z.mod_pos_bound; destruct p; by vm_compute).
  assert (2 ^ IntSize p = 2 * 2 ^ (IntSize p - 1)) as Hpow
    by (destruct p; by vm_compute).
  destruct (Z.ltb_spec (z mod 2 ^ IntSize p) (2 ^ (IntSize p - 1))); lia.
Qed.

Lemma int_of_int64_exact (p : platform) (z : Z) :
  MinInt p <= z <= MaxInt p -> int_of_int64 p z = z.
Proof.
  unfold int_of_int64, wrap_signed, MinInt, MaxInt. cbv zeta. intros Hz.
  assert (2 ^ IntSize p = 2 * 2 ^ (IntSize p - 1)) as Hpow
    by (destruct p; by vm_compute).
  assert (0 < 2 ^ (IntSize p - 1)) as Hpos by (destruct p; by vm_compute).
  destruct (Z_le_gt_dec 0 z) as [Hnn|Hneg].
  - rewrite Z.mod_small by lia.
    destruct (Z.ltb_spec z (2 ^ (IntSize p - 1))); lia.
  - assert (z mod 2 ^ IntSize p = z + 2 ^ IntSize p) as ->.
    { symmetry. apply (Z.mod_unique _ _ (-1)); lia. }
    destruct (Z.ltb_spec (z + 2 ^ IntSize p) (2 ^ (IntSize p - 1))); lia.
Qed.

Lemma IntSize_MaxInt (p : platform) : IntSize p <= MaxInt p.
Proof. destruct p; by vm_compute. Qed.

Lemma resolved_config_policy (e k u t a : string) (o : list Option) (x : Option) :
  o !! 1%nat = Some x -> Config.Options (resolved_config e k u t o a) !! 1%nat = Some x.
Proof.
  intros H. unfold resolved_config. cbn [Config.Options].
  by apply lookup_app_l_Some.
Qed.

(** X11: when the configuration resolves and the resolved retries and
    backoffs are not below the least [int] of the platform, the client gets
    the rate limit with [float64] of the resolved rps and the retry policy
    with exactly the resolved retries and backoffs: the conversions to
    [int] lose nothing. *)
Theorem retry_policy_exact (p : platform) (c : Consts) (sdk version tf : string)
    (d : SDKv2.ResourceData.t) (req : Framework.ConfigureRequest) (w w' : World)
    (config : Config.t) :
  (SDKv2.resolve p c sdk version tf d w = (Resolved config, w') ->
   MinInt p <= SDKv2.retries c d w ->
   MinInt p <= SDKv2.minBackOff c d w ->
   MinInt p <= SDKv2.maxBackOff c d w ->
   Config.Options config !! 0%nat
   = Some (UsingRateLimit (float64_of_int64 (SDKv2.rps c d w)))
   /\ Config.Options config !! 1%nat
      = Some (UsingRetryPolicy (SDKv2.retries c d w) (SDKv2.minBackOff c d w)
                (SDKv2.maxBackOff c d w)))
  /\
  (let data := snd (Framework.Config_Get req) in
   Framework.resolve p c sdk version req w = (Resolved config, w') ->
   MinInt p <= Framework.retries c data w ->
   MinInt p <= Framework.minBackOff c data w ->
   MinInt p <= Framework.maxBackOff c data w ->
   Config.Options config !! 0%nat
   = Some (UsingRateLimit (float64_of_int64 (Framework.rps c data w)))
   /\ Config.Options config !! 1%nat
      = Some (UsingRetryPolicy (Framework.retries c data w)
                (Framework.minBackOff c data w) (Framework.maxBackOff c data w))).
Proof.
  pose proof (IntSize_MaxInt p) as Hsize.
  split.
  - intros Hres Hr Hmn Hmx. rewrite SDKv2_resolve_shape in Hres.
    apply resolution_of_resolved in Hres as (_ & -> & Hr' & Hmn' & Hmx').
    unfold resolved_config, SDKv2.options. cbn [Config.Options].
    rewrite !int_of_int64_exact by lia. done.
  - cbv zeta. intros Hres Hr Hmn Hmx. rewrite Framework_resolve_shape in Hres.
    cbv zeta in Hres.
    destruct (HasError (fst (Framework.Config_Get req))); [done |].
    apply resolution_of_resolved in Hres as (_ & -> & Hr' & Hmn' & Hmx').
    unfold resolved_config, Framework.options. cbn [Config.Options].
    rewrite !int_of_int64_exact by lia. done.
Qed.

Lemma retry_policy_exact_witness :
  Config.Options
    (resolved_config "" "" "" sample_token
       (SDKv2.options GOARCH64 sample_consts "2.10.1" "test" "1.3.0" Samples.sdk_token w0) "")
    !! 1%nat
  = Some (UsingRetryPolicy 3 1 30)
  /\
  Config.Options
    (resolved_config "" "" "" sample_token
       (Framework.options GOARCH64 sample_consts "2.10.1" "test" "1.3.0" Samples.fw_token w0) "")
    !! 1%nat
  = Some (UsingRetryPolicy 3 1 30).
Proof.
  split.
  - destruct (retry_policy_exact GOARCH64 sample_consts "2.10.1" "test" "1.3.0"
                Samples.sdk_token (Samples.request Samples.fw_token) w0 w0
                (resolved_config "" "" "" sample_token
                   (SDKv2.options GOARCH64 sample_consts "2.10.1" "test" "1.3.0"
                      Samples.sdk_token w0) "")) as [Hsdk _].
    destruct Hsdk as [_ Hpolicy]; [by vm_compute.. | exact Hpolicy].
  - destruct (retry_policy_exact GOARCH64 sample_consts "2.10.1" "test" "1.3.0"
                Samples.sdk_token (Samples.request Samples.fw_token) w0 w0
                (resolved_config "" "" "" sample_token
                   (Framework.options GOARCH64 sample_consts "2.10.1" "test" "1.3.0"
                      Samples.fw_token w0) "")) as [_ Hfw].
    destruct Hfw as [_ Hpolicy]; [by vm_compute.. | exact Hpolicy].
Defined.

(** X12: there is no lower bound check.  On a 32-bit platform a resolved
    number of retries below the least [int] passes, and the retry policy
    gets another number, the one in the range of [int] that differs from it
    by a multiple of 2^32. *)
Theorem retries_below_int_wrap (c : Consts) (sdk version tf : string)
    (d : SDKv2.ResourceData.t) (req : Framework.ConfigureRequest) (w w' : World)
    (config : Config.t) :
  (SDKv2.resolve GOARCH32 c sdk version tf d w = (Resolved config, w') ->
   SDKv2.retries c d w < MinInt GOARCH32 ->
   exists r mn mx,
     Config.Options config !! 1%nat = Some (UsingRetryPolicy r mn mx)
     /\ r ≠ SDKv2.retries c d w
     /\ (r - SDKv2.retries c d w) mod 2 ^ 32 = 0
     /\ MinInt GOARCH32 <= r <= MaxInt GOARCH32)
  /\
  (let data := snd (Framework.Config_Get req) in
   Framework.resolve GOARCH32 c sdk version req w = (Resolved config, w') ->
   Framework.retries c data w < MinInt GOARCH32 ->
   exists r mn mx,
     Config.Options config !! 1%nat = Some (UsingRetryPolicy r mn mx)
     /\ r ≠ Framework.retries c data w
     /\ (r - Framework.retries c data w) mod 2 ^ 32 = 0
     /\ MinInt GOARCH32 <= r <= MaxInt GOARCH32).
Proof.
  assert (forall z, (int_of_int64 GOARCH32 z - z) mod 2 ^ 32 = 0) as Hcongr.
  { intros z. unfold int_of_int64, wrap_signed. cbv zeta.
    change (IntSize GOARCH32) with 32.
    pose proof (Z.div_mod z (2 ^ 32) ltac:(lia)) as Hdiv.
    destruct (z mod 2 ^ 32 <? 2 ^ (32 - 1)).
    - replace (z mod 2 ^ 32 - z) with ((- (z / 2 ^ 32)) * 2 ^ 32) by lia.
      apply Z.mod_mul. lia.
    - replace (z mod 2 ^ 32 - 2 ^ 32 - z) with ((- (z / 2 ^ 32) - 1) * 2 ^ 32) by lia.
      apply Z.mod_mul. lia. }
  split.
  - intros Hres Hlow. rewrite SDKv2_resolve_shape in Hres.
    apply resolution_of_resolved in Hres as (_ & -> & _).
    eexists _, _, _. split; [reflexivity |].
    pose proof (int_of_int64_range GOARCH32 (SDKv2.retries c d w)).
    split; [lia |]. split; [apply Hcongr | done].
  - cbv zeta. intros Hres Hlow. rewrite Framework_resolve_shape in Hres.
    cbv zeta in Hres.
    destruct (HasError (fst (Framework.Config_Get req))); [done |].
    apply resolution_of_resolved in Hres as (_ & -> & _).
    eexists _, _, _. split; [reflexivity |].
    pose proof (int_of_int64_range GOARCH32
                  (Framework.retries c (snd (Framework.Config_Get req)) w)).
    split; [lia |]. split; [apply Hcongr | done].
Qed.

Lemma retries_below_int_wrap_witness :
  (exists r mn mx,
     Config.Options
       (resolved_config "" "" "" sample_token
          (SDKv2.options GOARCH32 sample_consts "2.10.1" "test" "1.3.0" Samples.sdk_token
             Samples32.w_negative) "") !! 1%nat
     = Some (UsingRetryPolicy r mn mx)
     /\ r ≠ -3000000000
     /\ (r - -3000000000) mod 2 ^ 32 = 0
     /\ MinInt GOARCH32 <= r <= MaxInt GOARCH32)
  /\
  (exists r mn mx,
     Config.Options
       (resolved_config "" "" "" sample_token
          (Framework.options GOARCH32 sample_consts "2.10.1" "test" "1.3.0" Samples.fw_token
             Samples32.w_negative) "") !! 1%nat
     = Some (UsingRetryPolicy r mn mx)
     /\ r ≠ -3000000000
     /\ (r - -3000000000) mod 2 ^ 32 = 0
     /\ MinInt GOARCH32 <= r <= MaxInt GOARCH32).
Proof.
  split.
  - destruct (retries_below_int_wrap sample_consts "2.10.1" "test" "1.3.0"
                Samples.sdk_token (Samples.request Samples.fw_token)
                Samples32.w_negative Samples32.w_negative
                (resolved_config "" "" "" sample_token
                   (SDKv2.options GOARCH32 sample_consts "2.10.1" "test" "1.3.0"
                      Samples.sdk_token Samples32.w_negative) "")) as [Hsdk _].
    apply Hsdk; by vm_compute.
  - destruct (retries_below_int_wrap sample_consts "2.10.1" "test" "1.3.0"
                Samples.sdk_token (Samples.request Samples.fw_token)
                Samples32.w_negative Samples32.w_negative
                (resolved_config "" "" "" sample_token
                   (Framework.options GOARCH32 sample_consts "2.10.1" "test" "1.3.0"
                      Samples.fw_token Samples32.w_negative) "")) as [_ Hfw].
    apply Hfw; by vm_compute.
Defined.

(** ** The two providers on the same configuration *)

Lemma string_local_agree (v : option string) (fallback : string) :
  v ≠ Some "" ->
  (if negb (Framework.String_IsNull (tfString_of v))
   then Framework.ValueString (tfString_of v) else fallback)
  = (let '(x, ok) := SDKv2.GetOk_string v in if ok then x else fallback).
Proof.
  intros Hv. destruct v as [s|]; cbn; [| done].
  case_bool_decide; [done | congruence].
Qed.

Lemma int_local_agree (v : option Z) (fallback : Z) :
  v ≠ Some 0 ->
  (if negb (Framework.Int64_IsNull (tfInt64_of v))
   then Framework.ValueInt64 (tfInt64_of v) else fallback)
  = (if snd (SDKv2.GetOk_int v) then SDKv2.Get_int v else fallback).
Proof.
  intros Hv. destruct v as [z|]; cbn; [| done].
  case_bool_decide; [done | congruence].
Qed.

Lemma set_string_nonzero (v : option string) :
  match VString <$> v with
  | Some (VString s) => if decide (s ≠ "") then Some (VString s) else None
  | Some (VInt z) => if decide (z ≠ 0) then Some (VInt z) else None
  | None => None
  end = VString <$> v -> v ≠ Some "".
Proof. intros H ->. cbn in H. by case_decide. Qed.

Lemma set_int_nonzero (v : option Z) :
  match VInt <$> v with
  | Some (VString s) => if decide (s ≠ "") then Some (VString s) else None
  | Some (VInt z) => if decide (z ≠ 0) then Some (VInt z) else None
  | None => None
  end = VInt <$> v -> v ≠ Some 0.
Proof. intros H ->. cbn in H. by case_decide. Qed.

Section agree.
Variables (p : platform) (c : Consts) (sdk version tf : string).
Variables (d : SDKv2.ResourceData.t) (w : World).
Hypothesis no_zero :
  forall f, f ≠ Field.api_hostname -> f ≠ Field.api_base_path ->
            SDKv2_set f d = SDKv2_explicit f d.
Hypothesis same_backoff :
  SDKv2.ResourceData.min_backoff d = SDKv2.ResourceData.max_backoff d.

Ltac by_field f helper agree :=
  pose proof (no_zero f ltac:(done) ltac:(done)) as Hf; destruct d; apply helper in Hf;
  cbn [to_framework]; by apply agree.

Lemma agree_apiKey : Framework.apiKey c (to_framework d) w = SDKv2.apiKey c d w.
Proof. by_field Field.api_key set_string_nonzero string_local_agree. Qed.

Lemma agree_apiToken : Framework.apiToken c (to_framework d) w = SDKv2.apiToken c d w.
Proof. by_field Field.api_token set_string_nonzero string_local_agree. Qed.

Lemma agree_apiUserServiceKey :
  Framework.apiUserServiceKey c (to_framework d) w = SDKv2.apiUserServiceKey c d w.
Proof. by_field Field.api_user_service_key set_string_nonzero string_local_agree. Qed.

Lemma agree_email : Framework.email c (to_framework d) w = SDKv2.email c d w.
Proof. by_field Field.email set_string_nonzero string_local_agree. Qed.

Lemma agree_accountID : Framework.accountID c (to_framework d) w = SDKv2.accountID c d w.
Proof. by_field Field.account_id set_string_nonzero string_local_agree. Qed.

Lemma agree_rps : Framework.rps c (to_framework d) w = SDKv2.rps c d w.
Proof. by_field Field.rps set_int_nonzero int_local_agree. Qed.

Lemma agree_retries : Framework.retries c (to_framework d) w = SDKv2.retries c d w.
Proof. by_field Field.retries set_int_nonzero int_local_agree. Qed.

Lemma agree_minBackOff :
  Framework.minBackOff c (to_framework d) w = SDKv2.minBackOff c d w.
Proof.
  pose proof (no_zero Field.min_backoff ltac:(done) ltac:(done)) as Hf. revert same_backoff.
  destruct d. apply set_int_nonzero in Hf. cbn [to_framework].
  cbn [SDKv2.ResourceData.min_backoff SDKv2.ResourceData.max_backoff] in *.
  intros <-. by apply int_local_agree.
Qed.

Lemma agree_maxBackOff :
  Framework.maxBackOff c (to_framework d) w = SDKv2.maxBackOff c d w.
Proof.
  pose proof (no_zero Field.max_backoff ltac:(done) ltac:(done)) as Hf. revert same_backoff.
  destruct d. apply set_int_nonzero in Hf. cbn [to_framework].
  cbn [SDKv2.ResourceData.min_backoff SDKv2.ResourceData.max_backoff] in *.
  intros ->. by apply int_local_agree.
Qed.

Lemma agree_baseHostname :
  Framework.baseHostname c (to_framework d) w = SDKv2.baseHostname c d w.
Proof. destruct d as [? ? ? ? ? ? ? ? ? ? [h|] ?]; reflexivity. Qed.

Lemma agree_basePath :
  Framework.basePath c (to_framework d) w = SDKv2.basePath c d w.
Proof. destruct d as [? ? ? ? ? ? ? ? ? ? ? [b|]]; reflexivity. Qed.

Lemma agree_options :
  Framework.options p c sdk version tf (to_framework d) w
  = SDKv2.options p c sdk version tf d w.
Proof.
  unfold Framework.options, SDKv2.options.
  by rewrite agree_rps, agree_retries, agree_minBackOff, agree_maxBackOff,
    agree_baseHostname, agree_basePath.
Qed.

(** X13: on a configuration that sets no credential, account id or
    integer to its zero value, and either no backoff or the same minimum
    and maximum backoff, the framework provider resolves what the SDKv2
    provider resolves: the same client configuration and log, or a failure
    with the same summaries. *)
Theorem providers_agree :
  let req := Framework.mkRequest ([], to_framework d) tf in
  match SDKv2.resolve p c sdk version tf d w with
  | (Resolved config, w') =>
      Framework.resolve p c sdk version req w = (Resolved config, w')
  | (Invalid diags, w') =>
      exists diags',
        Framework.resolve p c sdk version req w = (Invalid diags', w')
        /\ map Summary diags' = map Summary diags
  end.
Proof.
  cbv zeta. rewrite Framework_resolve_shape, SDKv2_resolve_shape.
  cbn [Framework.Config_Get Framework.TerraformVersion fst snd HasError existsb].
  rewrite agree_options, agree_retries, agree_minBackOff, agree_maxBackOff,
    agree_email, agree_apiKey, agree_apiUserServiceKey, agree_apiToken, agree_accountID.
  unfold resolution_of.
  repeat case_match; simplify_eq; eauto.
Qed.
End agree.

Lemma providers_agree_witness :
  Framework.resolve GOARCH64 sample_consts "2.10.1" "test"
    (Framework.mkRequest ([], to_framework Samples.sdk_account) "1.3.0") w0
  = SDKv2.resolve GOARCH64 sample_consts "2.10.1" "test" "1.3.0" Samples.sdk_account w0.
Proof.
  assert (forall f, f ≠ Field.api_hostname -> f ≠ Field.api_base_path ->
                    SDKv2_set f Samples.sdk_account = SDKv2_explicit f Samples.sdk_account)
    as Hset by (intros f _ _; destruct f; reflexivity).
  exact (providers_agree GOARCH64 sample_consts "2.10.1" "test" "1.3.0"
           Samples.sdk_account w0 Hset eq_refl).
Defined.

(** ** What configure does not read *)

(** X14: neither configure function reads the attribute api_client_logging
    that both schemas declare: with any other value of it the outcome is
    the same, and when the configuration resolves the fourth option of the
    client is the debug flag of the log level of the process. *)
Theorem api_client_logging_ignored (p : platform) (c : Consts) (sdk version tf : string)
    (d : SDKv2.ResourceData.t) (req : Framework.ConfigureRequest) (w : World)
    (logging : option bool) (APIClientLogging : Framework.tfBool) :
  SDKv2.resolve p c sdk version tf (SDKv2_with_api_client_logging logging d) w
  = SDKv2.resolve p c sdk version tf d w
  /\ Framework.resolve p c sdk version
       (with_data (Framework_with_APIClientLogging APIClientLogging
                     (snd (Framework.Config_Get req))) req) w
     = Framework.resolve p c sdk version req w
  /\ (forall config w',
        SDKv2.resolve p c sdk version tf d w = (Resolved config, w')
        \/ Framework.resolve p c sdk version req w = (Resolved config, w') ->
        Config.Options config !! 3%nat = Some (Debug (IsDebugOrHigher w))).
Proof.
  split; [by destruct d |]. split.
  - destruct req as [[diags data] tfv]. by destruct data.
  - intros config w' [Hres | Hres].
    + rewrite SDKv2_resolve_shape in Hres.
      by apply resolution_of_resolved in Hres as (_ & -> & _).
    + rewrite Framework_resolve_shape in Hres. cbv zeta in Hres.
      destruct (HasError (fst (Framework.Config_Get req))); [done |].
      by apply resolution_of_resolved in Hres as (_ & -> & _).
Qed.

(** X15: when the configuration of the framework provider does not decode,
    Configure returns the diagnostics of the decoding and no client,
    whatever the environment holds and whatever the client constructor
    would do, and leaves the process as it found it. *)
Theorem Framework_decode_error (p : platform) (c : Consts) (sdk version : string)
    (req : Framework.ConfigureRequest) (w : World)
    (API : Type) (Client : Config.t -> World -> (API + string) * World) :
  HasError (fst (Framework.Config_Get req)) = true ->
  Framework.Configure p c sdk Client version req w
  = (Framework.mkResponse (fst (Framework.Config_Get req)) None None, w).
Proof.
  intros Hdec. unfold Framework.Configure.
  rewrite Framework_resolve_shape. cbv zeta. by rewrite Hdec.
Qed.

Lemma Framework_decode_error_witness :
  Framework.Configure GOARCH64 sample_consts "2.10.1" (λ _ w, (inl tt, w)) "test" undecoded
    (setenv "CLOUDFLARE_API_TOKEN" sample_token w0)
  = (Framework.mkResponse (fst (Framework.Config_Get undecoded)) None None,
     setenv "CLOUDFLARE_API_TOKEN" sample_token w0).
Proof.
  apply (Framework_decode_error GOARCH64 sample_consts "2.10.1" "test" undecoded
           (setenv "CLOUDFLARE_API_TOKEN" sample_token w0) unit (λ _ w, (inl tt, w))).
  reflexivity.
Defined.

Example TrimSpace_ascii : TrimSpace "  a b.  " = "a b.".
Proof. reflexivity. Qed.

(** ** strings.TrimSpace *)

Lemma text_of_bytes_of (s : string) : text_of (bytes_of s) = s.
Proof. apply String.string_of_list_ascii_of_string. Qed.

Lemma bytes_of_text_of (l : list ascii) : bytes_of (text_of l) = l.
Proof. apply String.list_ascii_of_string_of_list_ascii. Qed.

Lemma bytes_of_app (a b : string) : bytes_of (a +:+ b) = (bytes_of a ++ bytes_of b)%list.
Proof.
  induction a as [| c a IH]; [done |].
  change (String c a +:+ b) with (String c (a +:+ b)).
  unfold bytes_of in *. cbn. by rewrite IH.
Qed.

Lemma bytes_of_inj (a b : string) : bytes_of a = bytes_of b -> a = b.
Proof. intros H. by rewrite <- (text_of_bytes_of a), H, text_of_bytes_of. Qed.

Lemma strip_Some (rune l rest : list ascii) :
  strip rune l = Some rest <-> l = (rune ++ rest)%list.
Proof.
  revert l. induction rune as [| a rune IH]; intros l; cbn.
  - split; intros; by simplify_eq.
  - destruct l as [| b l]; [done |].
    destruct (decide (a = b)) as [-> | Hne].
    + rewrite IH. split; intros; by simplify_eq.
    + split; intros; by simplify_eq.
Qed.

Lemma first_strip_Some (runes : list (list ascii)) (l rest : list ascii) :
  first_strip runes l = Some rest ->
  exists rune, rune ∈ runes /\ l = (rune ++ rest)%list.
Proof.
  induction runes as [| rune runes IH]; cbn; [done |].
  destruct (strip rune l) as [rest' |] eqn:Hs.
  - intros [= ->]. apply strip_Some in Hs. exists rune. split; [left | done].
  - intros H. destruct (IH H) as (rune' & Hin & Heq). exists rune'.
    split; [by right | done].
Qed.

Lemma first_strip_None (runes : list (list ascii)) (l : list ascii) :
  first_strip runes l = None <-> forall rune, rune ∈ runes -> ¬ rune `prefix_of` l.
Proof.
  induction runes as [| rune runes IH]; cbn.
  - split; [intros _ rune Hin; by apply elem_of_nil in Hin | done].
  - destruct (strip rune l) as [rest |] eqn:Hs.
    + split; [done |]. intros H. exfalso. apply (H rune); [left |].
      apply strip_Some in Hs. by exists rest.
    + rewrite IH. split.
      * intros H rune' [-> | Hin]%elem_of_cons; [| by apply H].
        intros [rest Heq]. apply strip_Some in Heq. congruence.
      * intros H rune' Hin. apply H. by right.
Qed.

Lemma first_strip_prefix (runes : list (list ascii)) (l1 l2 : list ascii) :
  l1 `prefix_of` l2 -> first_strip runes l2 = None -> first_strip runes l1 = None.
Proof.
  rewrite !first_strip_None. intros Hpre H rune Hin Hrune.
  apply (H rune Hin). by etrans.
Qed.

Lemma trim_go_None (runes : list (list ascii)) (n : nat) (l : list ascii) :
  first_strip runes l = None -> trim_go runes n l = l.
Proof. destruct n; cbn; [done |]. by intros ->. Qed.

Lemma trim_go_suffix (runes : list (list ascii)) (n : nat) (l : list ascii) :
  trim_go runes n l `suffix_of` l.
Proof.
  revert l. induction n as [| n IH]; intros l; cbn; [done |].
  destruct (first_strip runes l) as [rest |] eqn:Hs; [| done].
  apply first_strip_Some in Hs as (rune & _ & ->).
  etrans; [apply IH |]. by apply suffix_app_r.
Qed.

Lemma trim_go_done (runes : list (list ascii)) (n : nat) (l : list ascii) :
  Forall (λ rune, rune ≠ []) runes -> (length l <= n)%nat ->
  first_strip runes (trim_go runes n l) = None.
Proof.
  intros Hne. revert l. induction n as [| n IH]; intros l Hlen; cbn.
  - destruct l; [| cbn in Hlen; lia].
    apply first_strip_None. intros rune Hin [rest Heq].
    rewrite Forall_forall in Hne. apply (Hne rune Hin).
    by destruct rune.
  - destruct (first_strip runes l) as [rest |] eqn:Hs; [| done].
    apply IH. apply first_strip_Some in Hs as (rune & Hin & ->).
    rewrite Forall_forall in Hne. specialize (Hne rune Hin).
    rewrite length_app in Hlen. destruct rune; [done |]. cbn in Hlen. lia.
Qed.

(** A byte no rune contains stops both the matching and the trimming. *)
Lemma first_strip_stop (runes : list (list ascii)) (c : ascii) (u v : list ascii) :
  Forall (λ rune, c ∉ rune) runes ->
  first_strip runes u = None -> first_strip runes (u ++ c :: v) = None.
Proof.
  rewrite !first_strip_None, Forall_forall. intros Hfree H rune Hin [rest Heq].
  apply (H rune Hin). specialize (Hfree rune Hin).
  clear H Hin. revert u Heq. induction rune as [| a rune IH]; intros u Heq.
  - by exists u.
  - destruct u as [| b u]; cbn in Heq; simplify_eq.
    + exfalso. apply Hfree. left.
    + destruct (IH ltac:(set_solver) u) as [rest' ->]; [done |].
      by exists rest'.
Qed.

Lemma trim_go_keeps_last (runes : list (list ascii)) (c : ascii) (n : nat)
    (x : list ascii) :
  Forall (λ rune, c ∉ rune) runes -> Forall (λ rune, rune ≠ []) runes ->
  exists y, trim_go runes n (x ++ [c]) = (y ++ [c])%list.
Proof.
  intros Hfree Hne. revert x. induction n as [| n IH]; intros x; cbn; [by exists x |].
  destruct (first_strip runes (x ++ [c])) as [rest |] eqn:Hs; [| by exists x].
  apply first_strip_Some in Hs as (rune & Hin & Heq).
  rewrite Forall_forall in Hfree. specialize (Hfree rune Hin).
  destruct (decide (rest = [])) as [-> | Hrest].
  - exfalso. apply Hfree. rewrite app_nil_r in Heq. subst rune. set_solver.
  - destruct (exists_last Hrest) as (rest' & c' & ->).
    rewrite app_assoc in Heq. apply app_inj_tail in Heq as [_ <-]. apply IH.
Qed.

Lemma White_Space_nonempty : Forall (λ rune : list ascii, rune ≠ []) White_Space.
Proof. apply (bool_decide_unpack _). by vm_compute. Qed.

Lemma White_Space_reverse_nonempty :
  Forall (λ rune : list ascii, rune ≠ []) (map reverse White_Space).
Proof. apply (bool_decide_unpack _). by vm_compute. Qed.

Lemma White_Space_period : Forall (λ rune : list ascii, "."%char ∉ rune) White_Space.
Proof. apply (bool_decide_unpack _). by vm_compute. Qed.

Lemma TrimLeft_done (l : list ascii) : first_strip White_Space (TrimLeft l) = None.
Proof. apply trim_go_done; [apply White_Space_nonempty | done]. Qed.

Lemma TrimRight_prefix (l : list ascii) : TrimRight l `prefix_of` l.
Proof.
  unfold TrimRight. rewrite <- (reverse_involutive l) at 3.
  apply prefix_suffix_reverse. rewrite !reverse_involutive. apply trim_go_suffix.
Qed.

Lemma TrimRight_done (l : list ascii) :
  first_strip (map reverse White_Space) (reverse (TrimRight l)) = None.
Proof.
  unfold TrimRight. rewrite reverse_involutive.
  apply trim_go_done; [apply White_Space_reverse_nonempty | by rewrite length_reverse].
Qed.

Lemma TrimSpace_start (l : list ascii) :
  first_strip White_Space (TrimRight (TrimLeft l)) = None.
Proof. eapply first_strip_prefix; [apply TrimRight_prefix | apply TrimLeft_done]. Qed.

Lemma TrimSpace_fixed (s : string) :
  first_strip White_Space (bytes_of s) = None ->
  first_strip (map reverse White_Space) (reverse (bytes_of s)) = None ->
  TrimSpace s = s.
Proof.
  intros Hl Hr. unfold TrimSpace, TrimLeft, TrimRight.
  rewrite (trim_go_None _ _ _ Hl), (trim_go_None _ _ _ Hr), reverse_involutive.
  apply text_of_bytes_of.
Qed.

Lemma TrimSpace_idempotent (s : string) : TrimSpace (TrimSpace s) = TrimSpace s.
Proof.
  apply TrimSpace_fixed; unfold TrimSpace; rewrite bytes_of_text_of.
  - apply TrimSpace_start.
  - apply TrimRight_done.
Qed.

(** ** The description builder *)

Lemma append_nil_r (s : string) : s +:+ "" = s.
Proof.
  induction s as [| c s IH]; [done |].
  change (String c s +:+ "") with (String c (s +:+ "")). by rewrite IH.
Qed.

Lemma ends_visible_app (x n : string) : ends_visible n -> ends_visible (x +:+ n).
Proof.
  intros (y & c & Hn & Hc). exists (bytes_of x ++ y)%list, c.
  split; [| done]. by rewrite bytes_of_app, Hn, app_assoc.
Qed.

Lemma ends_visibleb_sound (x : string) : ends_visibleb x = true -> ends_visible x.
Proof.
  unfold ends_visibleb, ends_visible. intros H.
  destruct (reverse (bytes_of x)) as [| c y] eqn:Hr; [done |].
  exists (reverse y), c. split.
  - by rewrite <- (reverse_involutive (bytes_of x)), Hr, reverse_cons.
  - apply orb_true_iff in H as [H%bool_decide_eq_true | H%bool_decide_eq_true]; auto.
Qed.

Lemma ends_visible_right (x : string) :
  ends_visible x ->
  first_strip (map reverse White_Space) (reverse (bytes_of x)) = None.
Proof.
  intros (y & c & -> & [-> | ->]); rewrite reverse_app; by vm_compute.
Qed.

Lemma extends_refl (base : string) : extends base base.
Proof. exists "". split; [by rewrite append_nil_r | by left]. Qed.

Lemma extends_app (base x n : string) :
  extends base x -> ends_visible n -> extends base (x +:+ n).
Proof.
  intros (notes & -> & _) Hn. exists (notes +:+ n).
  split; [by rewrite append_assoc | right; by apply ends_visible_app].
Qed.

Section builder.
Variable contains : list string -> string -> bool.

Lemma description_with_notes_extends (s : Schema.t) :
  extends (ended_description s) (description_with_notes contains s).
Proof.
  unfold description_with_notes. cbv zeta. fold (ended_description s).
  generalize (ended_description s). intros base.
  repeat first
    [ apply extends_refl
    | match goal with
      | |- extends _ (if ?b then _ else _) => destruct b
      | |- extends _ (match ?d with Some _ => _ | None => _ end) => destruct d
      | |- extends _ (_ +:+ _) => apply extends_app
      end ];
    repeat apply ends_visible_app; by apply ends_visibleb_sound.
Qed.

Lemma HasSuffix_period (x : string) :
  HasSuffix x "." = true -> exists y, bytes_of x = (y ++ ["."%char])%list.
Proof. unfold HasSuffix. intros [y Hy]%bool_decide_eq_true. by exists y. Qed.

Lemma TrimSpace_keeps_period (x : string) :
  HasSuffix x "." = true ->
  exists y, bytes_of (TrimSpace x) = (y ++ ["."%char])%list
            /\ first_strip White_Space y = None.
Proof.
  intros [d Hd]%HasSuffix_period. unfold TrimSpace. rewrite bytes_of_text_of, Hd.
  destruct (trim_go_keeps_last White_Space "." (length (d ++ ["."%char])) d
              White_Space_period White_Space_nonempty) as [y Hy].
  pose proof (TrimLeft_done (d ++ ["."%char])) as Hdone.
  unfold TrimLeft in *. rewrite Hy in *. exists y. split.
  - unfold TrimRight. rewrite trim_go_None, reverse_involutive; [done |].
    rewrite reverse_app. by vm_compute.
  - eapply first_strip_prefix; [| exact Hdone]. by apply prefix_app_r.
Qed.

Lemma ended_description_shape (s : Schema.t) :
  Schema.Description s ≠ "" ->
  exists u, bytes_of (ended_description s) = (u ++ ["."%char])%list
            /\ first_strip White_Space u = None.
Proof.
  intros Hne. unfold ended_description.
  destruct (HasSuffix (Schema.Description s) ".") eqn:Hs; cbn [negb andb].
  - by apply TrimSpace_keeps_period.
  - rewrite bool_decide_eq_true_2 by done.
    exists (bytes_of (TrimSpace (Schema.Description s))).
    split; [by rewrite bytes_of_app |].
    unfold TrimSpace. rewrite bytes_of_text_of. apply TrimSpace_start.
Qed.

Lemma SchemaDescriptionBuilder_named (s : Schema.t) :
  Schema.Description s ≠ "" ->
  SchemaDescriptionBuilder contains s = description_with_notes contains s.
Proof.
  intros Hne. unfold SchemaDescriptionBuilder.
  destruct (description_with_notes_extends s) as (notes & -> & Hnotes).
  destruct (ended_description_shape s Hne) as (u & Hu & Hstart).
  apply TrimSpace_fixed.
  - rewrite bytes_of_app, Hu, <- app_assoc. cbn [app].
    by apply first_strip_stop; [apply White_Space_period |].
  - apply ends_visible_right. destruct Hnotes as [-> | Hnotes].
    + rewrite append_nil_r. exists u, "."%char. split; [done | by left].
    + by apply ends_visible_app.
Qed.

(** X16: the description an attribute gets has no white space at either end.
    For an attribute with a description the last trimming changes nothing:
    the result is the trimmed description, ended by a period, and after it
    the notes, which end with a period or an asterisk. *)
Theorem SchemaDescriptionBuilder_trimmed (s : Schema.t) :
  TrimSpace (SchemaDescriptionBuilder contains s) = SchemaDescriptionBuilder contains s
  /\ (Schema.Description s ≠ "" ->
      SchemaDescriptionBuilder contains s = description_with_notes contains s
      /\ extends (ended_description s) (SchemaDescriptionBuilder contains s)
      /\ HasSuffix (ended_description s) "." = true).
Proof.
  split; [apply TrimSpace_idempotent |]. intros Hne.
  rewrite SchemaDescriptionBuilder_named by done.
  split; [done |]. split; [apply description_with_notes_extends |].
  destruct (ended_description_shape s Hne) as (u & Hu & _).
  apply bool_decide_eq_true. rewrite Hu. by apply suffix_app_r.
Qed.

(** X17: the period is added by a look at the description as written, not
    as trimmed: a description that ends with a period and white space after
    it gets a second period. *)
Theorem SchemaDescriptionBuilder_second_period (s : Schema.t) :
  HasSuffix (Schema.Description s) "." = false ->
  HasSuffix (TrimSpace (Schema.Description s)) "." = true ->
  exists notes,
    SchemaDescriptionBuilder contains s
    = TrimSpace (Schema.Description s) +:+ "." +:+ notes.
Proof.
  intros Hwritten Htrimmed.
  assert (Schema.Description s ≠ "") as Hne.
  { intros Heq. rewrite Heq in Htrimmed. by vm_compute in Htrimmed. }
  rewrite SchemaDescriptionBuilder_named by done.
  destruct (description_with_notes_extends s) as (notes & -> & _).
  exists notes. unfold ended_description.
  rewrite Hwritten, bool_decide_eq_true_2 by done. cbn [negb andb].
  by rewrite append_assoc.
Qed.

(** X18: a description that is trimmed and ends with a period is kept as it
    is when the attribute has no default, no list of attributes to name
    beside those the tests on the credential keys pass over, and does not
    force a new resource. *)
Theorem SchemaDescriptionBuilder_unchanged (s : Schema.t) :
  TrimSpace (Schema.Description s) = Schema.Description s ->
  HasSuffix (Schema.Description s) "." = true ->
  Schema.Default s = None -> Schema.ForceNew s = false -> Schema.AtLeastOneOf s = [] ->
  (Schema.RequiredWith s = [] \/ contains (Schema.RequiredWith s) APIKeySchemaKey = true) ->
  (Schema.ConflictsWith s = []
   \/ contains (Schema.ConflictsWith s) APITokenSchemaKey = true) ->
  (Schema.ExactlyOneOf s = []
   \/ (contains (Schema.ExactlyOneOf s) APIKeySchemaKey = true
       /\ contains (Schema.ExactlyOneOf s) APITokenSchemaKey = true
       /\ contains (Schema.ExactlyOneOf s) APIUserServiceKeySchemaKey = true)) ->
  SchemaDescriptionBuilder contains s = Schema.Description s.
Proof.
  intros Htrim Hsuffix Hdefault Hforce Hleast Hrequired Hconflicts Hexactly.
  unfold SchemaDescriptionBuilder, description_with_notes. cbv zeta.
  rewrite Hdefault, Hforce, Hleast, Hsuffix, Htrim. cbn [negb andb].
  rewrite (bool_decide_eq_false_2 ([] ≠ [])) by auto. cbn [andb].
  assert (forall (l : list string) (b : bool),
             l = [] \/ b = true -> bool_decide (l ≠ []) && negb b = false) as Hskip.
  { intros l b [-> | ->]; [by rewrite bool_decide_eq_false_2 by auto |].
    cbn. apply andb_false_r. }
  rewrite (Hskip _ _ Hrequired), (Hskip _ _ Hconflicts).
  assert (bool_decide (Schema.ExactlyOneOf s ≠ [])
          && (negb (contains (Schema.ExactlyOneOf s) APIKeySchemaKey)
              || negb (contains (Schema.ExactlyOneOf s) APITokenSchemaKey)
              || negb (contains (Schema.ExactlyOneOf s) APIUserServiceKeySchemaKey))
          = false) as ->.
  { destruct Hexactly as [-> | (-> & -> & ->)];
      [by rewrite bool_decide_eq_false_2 by auto | cbn; apply andb_false_r]. }
  exact Htrim.
Qed.
End builder.

Lemma SchemaDescriptionBuilder_second_period_witness :
  exists notes,
    SchemaDescriptionBuilder contains_elem spaced_attribute
    = "The zone identifier to target for the resource." +:+ "." +:+ notes.
Proof.
  apply (SchemaDescriptionBuilder_second_period contains_elem spaced_attribute);
    by vm_compute.
Defined.

Lemma SchemaDescriptionBuilder_unchanged_witness :
  SchemaDescriptionBuilder contains_elem (email_attribute sample_consts)
  = Schema.Description (email_attribute sample_consts).
Proof.
  apply (SchemaDescriptionBuilder_unchanged contains_elem (email_attribute sample_consts));
    first [ by vm_compute | right; by vm_compute | left; by vm_compute ].
Defined.

(** ** The destroy check *)

Section CheckDestroy_properties.
Import terraform.
Variable AccessMutualTLSCertificate : string -> string -> bool.
Let Destroy := testAccCheckCloudflareAccessMutualTLSCertificateDestroy
                 AccessMutualTLSCertificate.

Lemma Destroy_verdict (resources : list ResourceState) :
  Forall has_primary resources ->
  (Destroy resources = Some None
   \/ Destroy resources = Some (Some "AccessMutualTLSCertificate still exists"))
  /\ (Destroy resources = Some None <->
      Forall (λ rs, ¬ still_exists AccessMutualTLSCertificate rs) resources).
Proof.
  induction 1 as [| rs rest Hrs Hrest [IHv IH]]; cbn.
  { split; [by left | by split]. }
  destruct (decide (Type_ rs ≠ "cloudflare_access_mutual_tls_certificate"))
    as [Ht | Ht%dec_stable].
  { split; [done |]. rewrite Forall_cons, <- IH. split; [| by intros [_ ?]].
    intros ?. split; [| done]. by intros [? _]. }
  destruct (Hrs Ht) as [primary Hp]. rewrite Hp.
  destruct (bool_decide (attribute primary "zone_id" ≠ "")
            && AccessMutualTLSCertificate (attribute primary "zone_id") (ID primary))
    eqn:Hzone.
  { split; [by right |]. split; [done |]. intros [Hno _]%Forall_cons. exfalso.
    apply andb_true_iff in Hzone as [Hne%bool_decide_eq_true Hfound].
    apply Hno. split; [done |]. exists primary, "zone_id". auto. }
  destruct (bool_decide (attribute primary "account_id" ≠ "")
            && AccessMutualTLSCertificate (attribute primary "account_id") (ID primary))
    eqn:Haccount.
  { split; [by right |]. split; [done |]. intros [Hno _]%Forall_cons. exfalso.
    apply andb_true_iff in Haccount as [Hne%bool_decide_eq_true Hfound].
    apply Hno. split; [done |]. exists primary, "account_id". auto. }
  split; [done |]. rewrite Forall_cons, <- IH. split; [| by intros [_ ?]].
  intros ?. split; [| done].
  intros (_ & primary' & key & Hp' & [-> | ->] & Hne & Hfound); simplify_eq.
  - rewrite bool_decide_eq_true_2, Hfound in Hzone by done. done.
  - rewrite bool_decide_eq_true_2, Hfound in Haccount by done. done.
Qed.

(** X19: on a state whose certificates all have their instance state, the
    destroy check returns nil exactly when no certificate of the state is
    found under its zone or its account, and the one error otherwise; so
    its result does not depend on the order in which the iteration over the
    map of resources yields them. *)
Theorem Destroy_any_order (resources resources' : list ResourceState) :
  Forall has_primary resources -> resources ≡ₚ resources' ->
  Destroy resources' = Destroy resources
  /\ (Destroy resources = Some None <->
      forall rs, rs ∈ resources -> ¬ still_exists AccessMutualTLSCertificate rs)
  /\ (Destroy resources ≠ Some None ->
      Destroy resources = Some (Some "AccessMutualTLSCertificate still exists")).
Proof.
  intros Hall Hperm.
  assert (Forall has_primary resources') as Hall' by by rewrite <- Hperm.
  destruct (Destroy_verdict resources Hall) as [Hv Hiff].
  destruct (Destroy_verdict resources' Hall') as [Hv' Hiff'].
  assert (Forall (λ rs, ¬ still_exists AccessMutualTLSCertificate rs) resources'
          <-> Forall (λ rs, ¬ still_exists AccessMutualTLSCertificate rs) resources)
    as Hsame by by rewrite Hperm.
  split; [| split].
  - destruct Hv as [Hnil | Herr], Hv' as [Hnil' | Herr']; try congruence.
    + apply Hiff, Hsame, Hiff' in Hnil. congruence.
    + apply Hiff', Hsame, Hiff in Hnil'. congruence.
  - by rewrite Hiff, Forall_forall.
  - by destruct Hv.
Qed.
End CheckDestroy_properties.

Lemma Destroy_any_order_witness :
  testAccCheckCloudflareAccessMutualTLSCertificateDestroy TestSamples.gone
    [TestSamples.other; TestSamples.certificate]
  = testAccCheckCloudflareAccessMutualTLSCertificateDestroy TestSamples.gone
      [TestSamples.certificate; TestSamples.other].
Proof.
  destruct (Destroy_any_order TestSamples.gone
              [TestSamples.certificate; TestSamples.other]
              [TestSamples.other; TestSamples.certificate]) as [Hsame _].
  - apply Forall_cons_2; [| apply Forall_cons_2; [| apply Forall_nil_2]].
    + intros _. by eexists.
    + intros H. by vm_compute in H.
  - apply Permutation_swap.
  - exact Hsame.
Defined.

(** ** The validators *)

Lemma match_here_spec (re : Regexp) (n : nat) (s : string) :
  match_here re n s = true <->
  exists key rest, s = key +:+ rest /\ String.length key = n
                   /\ all_in_class re key = true.
Proof.
  revert s. induction n as [| n IH]; intros s; cbn.
  - split; [intros _; by exists "", s |]. done.
  - destruct s as [| c s].
    + split; [done |]. intros (key & rest & Heq & Hlen & _).
      destruct key; [done |]. done.
    + rewrite andb_true_iff, IH. split.
      * intros (Hc & key & rest & -> & Hlen & Hall).
        exists (String c key), rest. cbn. rewrite Hc, Hall, Hlen. done.
      * intros (key & rest & Heq & Hlen & Hall).
        destruct key as [| c' key]; [done |].
        change (String c' key +:+ rest) with (String c' (key +:+ rest)) in Heq.
        simplify_eq. cbn in Hall, Hlen. apply andb_true_iff in Hall as [Hc Hall].
        split; [done |]. exists key, rest. split; [done |]. split; [lia | done].
Qed.

Lemma MatchString_spec (re : Regexp) (s : string) :
  MatchString re s = true <->
  exists before key after,
    s = before +:+ key +:+ after /\ String.length key = count re
    /\ all_in_class re key = true.
Proof.
  induction s as [| c s IH]; cbn [MatchString]; rewrite orb_true_iff, match_here_spec.
  - split.
    + intros [(key & rest & Heq & Hlen & Hall) | ?]; [| done]. by exists "", key, rest.
    + intros (before & key & after & Heq & Hlen & Hall). left.
      destruct before; [| done]. by exists key, after.
  - rewrite IH. split.
    + intros [(key & rest & Heq & Hlen & Hall)
             | (before & key & after & -> & Hlen & Hall)].
      * by exists "", key, rest.
      * by exists (String c before), key, after.
    + intros (before & key & after & Heq & Hlen & Hall).
      destruct before as [| c' before].
      * left. by exists key, after.
      * right. change (String c' before +:+ key +:+ after)
          with (String c' (before +:+ key +:+ after)) in Heq.
        simplify_eq. by exists before, key, after.
Qed.

Lemma MatchString_more (re : Regexp) (s before after : string) :
  MatchString re s = true -> MatchString re (before +:+ s +:+ after) = true.
Proof.
  intros (b & key & a & -> & Hlen & Hall)%MatchString_spec.
  apply MatchString_spec. exists (before +:+ b), key, (a +:+ after).
  split; [by rewrite !append_assoc | done].
Qed.

Lemma MatchString_short (re : Regexp) (s : string) :
  (String.length s < count re)%nat -> MatchString re s = false.
Proof.
  intros Hshort. apply not_true_is_false.
  intros (b & key & a & -> & Hlen & _)%MatchString_spec.
  assert (forall x y, String.length (x +:+ y)
                      = (String.length x + String.length y)%nat) as Hlength.
  { intros x y. induction x as [| c x IH]; [done |].
    change (String c x +:+ y) with (String c (x +:+ y)). cbn. by rewrite IH. }
  rewrite !Hlength in Hshort. lia.
Qed.

(** X20: the validators of the API key and of the API token do not anchor
    their expression: a value passes exactly when it contains, anywhere, 37
    characters in a row out of 0-9 and a-f (for the token 40 out of A-Z,
    a-z, 0-9, hyphen and underscore).  So a value that passes still passes
    with anything before and after it, however long, and a value shorter
    than 37 (or 40) bytes never passes. *)
Theorem validators_unanchored (s : string) :
  (MatchString api_key_regexp s = true <->
   exists before key after,
     s = before +:+ key +:+ after /\ String.length key = 37%nat
     /\ all_in_class api_key_regexp key = true)
  /\ (MatchString api_token_regexp s = true <->
      exists before key after,
        s = before +:+ key +:+ after /\ String.length key = 40%nat
        /\ all_in_class api_token_regexp key = true)
  /\ (forall before after,
        (MatchString api_key_regexp s = true ->
         MatchString api_key_regexp (before +:+ s +:+ after) = true)
        /\ (MatchString api_token_regexp s = true ->
            MatchString api_token_regexp (before +:+ s +:+ after) = true))
  /\ ((String.length s < 37)%nat -> MatchString api_key_regexp s = false)
  /\ ((String.length s < 40)%nat -> MatchString api_token_regexp s = false).
Proof.
  split; [apply (MatchString_spec api_key_regexp) |].
  split; [apply (MatchString_spec api_token_regexp) |].
  split; [intros before after; split; apply MatchString_more |].
  split; [apply (MatchString_short api_key_regexp)
         | apply (MatchString_short api_token_regexp)].
Qed.

Lemma validators_unanchored_witness :
  MatchString api_key_regexp ("key=" +:+ sample_key +:+ "-and-more") = true
  /\ MatchString api_token_regexp "short" = false.
Proof.
  split.
  - destruct (validators_unanchored sample_key) as (_ & _ & Hmore & _).
    destruct (Hmore "key=" "-and-more") as [Hkey _]. apply Hkey. by vm_compute.
  - destruct (validators_unanchored "short") as (_ & _ & _ & _ & Hshort).
    apply Hshort. vm_compute. lia.
Defined.
